(** * Missing-945 reconciliation: the table pipeline of [src/main.py]

    The endpoint [reconcile] of [src/main.py] decodes three CSV uploads into
    pandas frames [df1], [df2], [df3] and then runs a fixed sequence of frame
    operations on them (lines 43-102).  This file embeds that sequence.

    Data model.  A frame is a list of column labels together with its rows,
    each row a list of cells aligned with the labels.  A cell is a missing
    value, a string or a number; cells are compared by value, and two
    missing values count as equal wherever pandas hashes keys (join keys,
    [isin], [duplicated]).  Labels are strings of code points below 256.
    A number cell holds an integer that [float64] represents exactly (at
    most 2^53 in magnitude) and stands for its value: the model does not
    tell an [int64] cell from the [float64] cell of the same value, so the
    cast of an integer column to [float64] that a left join performs once a
    row finds no partner leaves the modelled cell as it is.  The dtype of a
    column is read off its cells: [object] when it holds a string, numeric
    otherwise; columns the reader infers as boolean, and numbers with a
    fractional part, are outside the model.

    A label may occur several times in a header (trimming makes two headers
    equal when they differ only by surrounding blanks).  The operations
    follow pandas there: a selection by label list takes every column that
    carries the label, [df[c]] is a frame rather than a series, and a join
    key must be carried by exactly one column.

    Exceptions.  Besides the [HTTPException] the endpoint raises itself, the
    operations raise what pandas raises: [KeyError] for a label that is not
    a column, [ValueError] for a join key carried by several columns, for
    join keys of incompatible dtypes and for the row selection of lines
    94-97 over a repeated status label, and [MergeError] when the join
    suffixes produce a label that is already there.  An exception carries
    its cause, not the text of its message. *)

From Stdlib Require Import List String Ascii Bool Arith ZArith Lia Sorted.
Import ListNotations.
Open Scope string_scope.
Open Scope list_scope.

(** ** Results of fallible steps *)

(** What makes pandas raise [ValueError] in lines 43-102: a join key label
    that several columns carry ("The column label ... is not unique"), join
    keys of which one column is [object] and the other numeric ("You are
    trying to merge on ... columns"), and a row selection by a conjunction
    one operand of which is a frame over a repeated label ("cannot reindex
    on an axis with duplicate labels"). *)
Inductive value_error : Type :=
| LabelNotUnique (label : string)
| IncompatibleKeys (left_on right_on : string)
| DuplicateLabels.

(** The exceptions that lines 43-102 can raise: the [HTTPException] of
    line 55, whose [detail] names the missing column, the report label and
    [list(df.columns)]; the [KeyError] pandas raises for a label that is not
    a column; its [ValueError]; and the [MergeError] (in pandas a subclass
    of [ValueError]) of a join whose suffixes would duplicate the given
    labels. *)
Inductive error : Type :=
| HTTPException (status_code : nat) (col name : string) (available : list string)
| KeyError (label : string)
| ValueError (cause : value_error)
| MergeError (labels : list string).

Definition result (A : Type) : Type := (error + A)%type.

Definition ret {A : Type} (a : A) : result A := inr a.
Definition raise {A : Type} (e : error) : result A := inl e.
Definition bind {A B : Type} (m : result A) (k : A -> result B) : result B :=
  match m with
  | inl e => inl e
  | inr a => k a
  end.

Notation "x <- m ;; k" := (bind m (fun x => k))
  (at level 61, m at next level, right associativity).

(** ** Cells and labels *)

Module Pandas.

Inductive cell : Type :=
| NA
| Str (s : string)
| Num (z : Z).

Definition cell_eqb (a b : cell) : bool :=
  match a, b with
  | NA, NA => true
  | Str s, Str t => String.eqb s t
  | Num x, Num y => Z.eqb x y
  | _, _ => false
  end.

Fixpoint key_eqb (k1 k2 : list cell) : bool :=
  match k1, k2 with
  | [], [] => true
  | a :: k1', b :: k2' => cell_eqb a b && key_eqb k1' k2'
  | _, _ => false
  end.

Record DataFrame : Type := mkDataFrame {
  columns : list string;
  rows : list (list cell)
}.

(** [str.isspace] on the code points below 256. *)
Definition isspace (a : ascii) : bool :=
  let n := nat_of_ascii a in
  (((9 <=? n) && (n <=? 13)) || ((28 <=? n) && (n <=? 32))
   || (n =? 133) || (n =? 160))%nat.

Fixpoint lstrip (s : string) : string :=
  match s with
  | EmptyString => EmptyString
  | String a s' => if isspace a then lstrip s' else s
  end.

Fixpoint rstrip (s : string) : string :=
  match s with
  | EmptyString => EmptyString
  | String a s' =>
      match rstrip s' with
      | EmptyString => if isspace a then EmptyString else String a EmptyString
      | t => String a t
      end
  end.

(** [str.strip()] *)
Definition strip (s : string) : string := rstrip (lstrip s).

(** [c in df.columns] *)
Definition contains (labels : list string) (c : string) : bool :=
  existsb (String.eqb c) labels.

Definition has_column (c : string) (df : DataFrame) : bool :=
  contains (columns df) c.

(** Every position of label [c], counted from [i]. *)
Fixpoint positions_from (i : nat) (c : string) (labels : list string) : list nat :=
  match labels with
  | [] => []
  | l :: labels' =>
      if String.eqb c l then i :: positions_from (S i) c labels'
      else positions_from (S i) c labels'
  end.

Definition positions (c : string) (labels : list string) : list nat :=
  positions_from 0 c labels.

(** The first position of label [c], or [KeyError] when no column carries
    it.  The statements use it to name the position of a column; the
    operations below resolve labels by [positions]. *)
Definition get_loc (c : string) (labels : list string) : result nat :=
  match positions c labels with
  | [] => raise (KeyError c)
  | i :: _ => ret i
  end.

(** [row.take(idx)] *)
Definition take (idx : list nat) (row : list cell) : list cell :=
  map (fun i => nth i row NA) idx.

(** [df.columns = labels]: the rows stay, the header is replaced. *)
Definition set_columns (labels : list string) (df : DataFrame) : DataFrame :=
  {| columns := labels; rows := rows df |}.

(** [df.columns.astype(str).str.strip()] *)
Definition stripped_columns (df : DataFrame) : list string :=
  map strip (columns df).

(** The cells of the column at position [i]. *)
Definition column_at (i : nat) (df : DataFrame) : list cell :=
  map (fun r => nth i r NA) (rows df).

(** [df[c]]: the column as a series when one column carries the label, the
    frame of the columns carrying it when several do. *)
Inductive selection : Type :=
| Series (s : list cell)
| Frame (cols : list (list cell)).

Definition getitem (c : string) (df : DataFrame) : result selection :=
  match positions c (columns df) with
  | [] => raise (KeyError c)
  | [i] => ret (Series (column_at i df))
  | ps => ret (Frame (map (fun i => column_at i df) ps))
  end.

(** [df[[c1, c2, ...]]]: every column carrying one of the labels, in the
    order of the list; a label that is not a column is a [KeyError]. *)
Fixpoint get_indexer (key : list string) (labels : list string) : result (list nat) :=
  match key with
  | [] => ret []
  | c :: key' =>
      match positions c labels with
      | [] => raise (KeyError c)
      | ps => idx <- get_indexer key' labels ;; ret (ps ++ idx)
      end
  end.

Definition getitem_list (key : list string) (df : DataFrame) : result DataFrame :=
  idx <- get_indexer key (columns df) ;;
  ret {| columns := map (fun i => nth i (columns df) "") idx;
         rows := map (take idx) (rows df) |}.

(** [series.isin(values)] *)
Definition isin (values : list cell) (s : list cell) : list bool :=
  map (fun x => existsb (cell_eqb x) values) s.

(** [a & b] on two boolean series over the same index. *)
Definition series_and (a b : list bool) : list bool :=
  map (fun p => fst p && snd p) (combine a b).

(** [x.isin(values)] and [a & b] on what [df[c]] returns.  [isin] works
    column by column.  A frame as an operand of [&] has to be aligned on
    its repeated column labels, at the conjunction or when the result
    selects the rows, and pandas refuses to reindex an axis with duplicate
    labels. *)
Inductive mask : Type :=
| BoolSeries (b : list bool)
| BoolFrame (cols : list (list bool)).

Definition selection_isin (values : list cell) (x : selection) : mask :=
  match x with
  | Series s => BoolSeries (isin values s)
  | Frame cols => BoolFrame (map (isin values) cols)
  end.

Definition mask_and (a b : mask) : result (list bool) :=
  match a, b with
  | BoolSeries x, BoolSeries y => ret (series_and x y)
  | _, _ => raise (ValueError DuplicateLabels)
  end.

(** [~a] *)
Definition series_not (a : list bool) : list bool := map negb a.

(** [df[mask]]: the rows at which the boolean series holds. *)
Definition getitem_mask (mask : list bool) (df : DataFrame) : DataFrame :=
  {| columns := columns df;
     rows := map snd (List.filter fst (combine mask (rows df))) |}.

(** [df.rename(columns=mapper)] *)
Fixpoint rename_label (mapper : list (string * string)) (c : string) : string :=
  match mapper with
  | [] => c
  | (old, new) :: mapper' => if String.eqb c old then new else rename_label mapper' c
  end.

Definition rename (mapper : list (string * string)) (df : DataFrame) : DataFrame :=
  {| columns := map (rename_label mapper) (columns df); rows := rows df |}.

(** [df.duplicated(subset)] with [keep='first']: a row is marked when an
    earlier row carries the same key. *)
Fixpoint duplicated_from (seen : list (list cell)) (keys : list (list cell)) : list bool :=
  match keys with
  | [] => []
  | k :: keys' => existsb (key_eqb k) seen :: duplicated_from (k :: seen) keys'
  end.

Definition duplicated (subset : list string) (df : DataFrame) : result (list bool) :=
  idx <- get_indexer subset (columns df) ;;
  ret (duplicated_from [] (map (take idx) (rows df))).

(** [df.drop_duplicates(subset=subset)] *)
Definition drop_duplicates (subset : list string) (df : DataFrame) : result DataFrame :=
  mask <- duplicated subset df ;;
  ret (getitem_mask (series_not mask) df).

(** [pd.merge(left, right, how='left', left_on=[lk], right_on=[rk])] for two
    different key labels.  Labels present on both sides take the suffixes
    [_x] and [_y]; both key columns are kept.  Every left row, in order, is
    paired with each right row of equal key, in order, or once with missing
    values when there is none; two missing keys are equal keys.

    The join raises before it pairs any row: the right key and then the left
    key must each be carried by exactly one column; the two key columns must
    not be one [object] and the other numeric, unless one of them is empty;
    and the suffixes must not give a column a label that an earlier column
    of the same side already has, unless that column's own label was
    repeated before. *)
Definition key_position (c : string) (df : DataFrame) : result nat :=
  match positions c (columns df) with
  | [] => raise (KeyError c)
  | [i] => ret i
  | _ => raise (ValueError (LabelNotUnique c))
  end.

Definition is_str (c : cell) : bool :=
  match c with
  | Str _ => true
  | _ => false
  end.

Definition object_dtype (s : list cell) : bool := existsb is_str s.

Definition is_empty (s : list cell) : bool :=
  match s with
  | [] => true
  | _ :: _ => false
  end.

Definition maybe_coerce_merge_keys (lk rk : string) (lvalues rvalues : list cell)
  : result unit :=
  if is_empty lvalues || is_empty rvalues then ret tt
  else if xorb (object_dtype lvalues) (object_dtype rvalues)
       then raise (ValueError (IncompatibleKeys lk rk))
       else ret tt.

Definition suffix_labels (sfx : string) (other : list string) (labels : list string)
  : list string :=
  map (fun c => if contains other c then (c ++ sfx)%string else c) labels.

Definition merged_columns (left right : list string) : list string :=
  suffix_labels "_x" right left ++ suffix_labels "_y" left right.

Definition matches (j : nat) (k : cell) (rrows : list (list cell)) : list (list cell) :=
  List.filter (fun r => cell_eqb k (nth j r NA)) rrows.

Definition join_row (width : nat) (i j : nat) (rrows : list (list cell))
  (l : list cell) : list (list cell) :=
  match matches j (nth i l NA) rrows with
  | [] => [l ++ repeat NA width]
  | ms => map (fun r => l ++ r) ms
  end.

(** [labels.duplicated(keep='first')] *)
Fixpoint index_duplicated (seen : list string) (labels : list string) : list bool :=
  match labels with
  | [] => []
  | c :: labels' => contains seen c :: index_duplicated (c :: seen) labels'
  end.

(** The labels of one side that are repeated after suffixing at a place
    where the label before suffixing was not. *)
Definition suffix_duplicates (labels renamed : list string) : list string :=
  map snd
    (List.filter fst
       (combine (series_and (index_duplicated [] renamed)
                            (series_not (index_duplicated [] labels)))
                renamed)).

Definition items_overlap_with_suffix (left right : list string)
  : result (list string) :=
  match suffix_duplicates left (suffix_labels "_x" right left)
        ++ suffix_duplicates right (suffix_labels "_y" left right) with
  | [] => ret (merged_columns left right)
  | dups => raise (MergeError dups)
  end.

(** The right rows are appended as they are: see the note on numbers at the
    head of the file. *)
Definition merge_left (left right : DataFrame) (lk rk : string) : result DataFrame :=
  j <- key_position rk right ;;
  i <- key_position lk left ;;
  _ <- maybe_coerce_merge_keys lk rk (column_at i left) (column_at j right) ;;
  labels <- items_overlap_with_suffix (columns left) (columns right) ;;
  ret {| columns := labels;
         rows := flat_map (join_row (List.length (columns right)) i j (rows right))
                          (rows left) |}.

End Pandas.

(** ** The endpoint, lines 43-102 *)

Module Reconcile.
Import Pandas.

(** The three decoded frames the endpoint holds.  Lines 44-46 assign to
    their [columns] attribute, so they are objects with identity; every later
    operation returns a new frame. *)
Record frames : Type := mkFrames {
  df1 : DataFrame;
  df2 : DataFrame;
  df3 : DataFrame
}.

(** [df.columns = df.columns.astype(str).str.strip()]: the frame [df] is
    afterwards. *)
Definition strip_headers (df : DataFrame) : DataFrame :=
  set_columns (stripped_columns df) df.

(** Lines 44-46: that assignment on each of the three frames, in place. *)
Definition strip_df1 (st : frames) : frames :=
  {| df1 := strip_headers (df1 st); df2 := df2 st; df3 := df3 st |}.

Definition strip_df2 (st : frames) : frames :=
  {| df1 := df1 st; df2 := strip_headers (df2 st); df3 := df3 st |}.

Definition strip_df3 (st : frames) : frames :=
  {| df1 := df1 st; df2 := df2 st; df3 := strip_headers (df3 st) |}.

(** Lines 49-55: the loop over the three required columns. *)
Fixpoint check_required (checks : list (string * DataFrame * string)) : result unit :=
  match checks with
  | [] => ret tt
  | (name, df, col) :: checks' =>
      if negb (has_column col df)
      then raise (HTTPException 400 col name (columns df))
      else check_required checks'
  end.

Definition required (d1 d2 d3 : DataFrame) : list (string * DataFrame * string) :=
  [ ("Shipment_History___Total", d1, "Pickticket");
    ("EDIB2BiReportV2", d2, "AXReferenceID");
    ("EDI940Report_withCostV2.0", d3, "PickRoute") ].

(** Lines 63-68 and 75-82: the two label lists; the second one ends with the
    six EDI-940 fields. *)
Definition first_list : list string :=
  [ "Warehouse"; "Pickticket"; "Order"; "Drop Date"; "Ship Date"; "Ship To";
    "Ship State"; "Zip Code"; "Customer PO"; "Ship Via"; "Load ID";
    "Weight"; "SKU"; "Units"; "Price"; "Size Type"; "Size"; "Product Type";
    "InvoiceNumber"; "StatusSummary"; "ERRORDESCRIPTION" ].

Definition second_list : list string :=
  [ "Pickticket"; "Warehouse"; "Order"; "Drop Date"; "Ship Date"; "Ship To";
    "Ship State"; "Zip Code"; "Customer PO"; "Ship Via"; "Load ID";
    "Weight"; "SKU"; "Units"; "Price"; "Size Type"; "Size"; "Product Type";
    "InvoiceNumber"; "StatusSummary"; "ERRORDESCRIPTION";
    "PickRoute"; "SalesHeaderStatus"; "SalesHeaderDocStatus";
    "PickModeOfDelivery"; "PickCreatedDate"; "DeliveryDate" ].

(** Lines 85-90. *)
Definition rename_map : list (string * string) :=
  [ ("InvoiceNumber", "Received in EDI?");
    ("StatusSummary", "EDI Processing Status");
    ("ERRORDESCRIPTION", "EDI Message");
    ("PickRoute", "Found in AX DATa?") ].

(** [df[[c for c in allow if c in df.columns]]] *)
Definition project (allow : list string) (df : DataFrame) : result DataFrame :=
  getitem_list (List.filter (fun c => has_column c df) allow) df.

(** Lines 58-60. *)
Definition first_join (d1 d2 : DataFrame) : result DataFrame :=
  merged_df <- merge_left d1 d2 "Pickticket" "AXReferenceID" ;;
  ret (strip_headers merged_df).

(** Lines 62-69. *)
Definition first_projection (merged_df : DataFrame) : result DataFrame :=
  project first_list merged_df.

(** Lines 71-72. *)
Definition second_join (merged_df d3 : DataFrame) : result DataFrame :=
  merge_left merged_df d3 "Pickticket" "PickRoute".

(** Lines 74-83. *)
Definition second_projection (final_merge_df : DataFrame) : result DataFrame :=
  project second_list final_merge_df.

(** Lines 85-90. *)
Definition rename_step (final_merge_df : DataFrame) : DataFrame :=
  rename rename_map final_merge_df.

(** Lines 93-99. *)
Definition filter_step (final_merge_df : DataFrame) : result DataFrame :=
  if has_column "SalesHeaderDocStatus" final_merge_df
     && has_column "EDI Processing Status" final_merge_df
  then
    doc_status <- getitem "SalesHeaderDocStatus" final_merge_df ;;
    edi_status <- getitem "EDI Processing Status" final_merge_df ;;
    keep <- mask_and (selection_isin [Str "Picking List"] doc_status)
                     (selection_isin [Str "AX Load Failure"] edi_status) ;;
    ret (getitem_mask keep final_merge_df)
  else ret final_merge_df.

(** Lines 101-102. *)
Definition dedupe_step (filtered_df : DataFrame) : result DataFrame :=
  if has_column "Pickticket" filtered_df
  then drop_duplicates ["Pickticket"] filtered_df
  else ret filtered_df.

(** Lines 48-83 on the frames as they stand after lines 44-46: the frame
    bound to [final_merge_df] by the second projection. *)
Definition projected (d1 d2 d3 : DataFrame) : result DataFrame :=
  _ <- check_required (required d1 d2 d3) ;;
  merged_df <- first_join d1 d2 ;;
  merged_df <- first_projection merged_df ;;
  final_merge_df <- second_join merged_df d3 ;;
  second_projection final_merge_df.

(** Lines 48-102. *)
Definition pipeline (d1 d2 d3 : DataFrame) : result DataFrame :=
  final_merge_df <- projected d1 d2 d3 ;;
  filtered_df <- filter_step (rename_step final_merge_df) ;;
  dedupe_step filtered_df.

(** Lines 43-102: the frames after the call, and the frame handed to the
    spreadsheet writer or the exception raised. *)
Definition reconcile (st : frames) : frames * result DataFrame :=
  let st := strip_df3 (strip_df2 (strip_df1 st)) in
  (st, pipeline (df1 st) (df2 st) (df3 st)).

(** The outcome alone, for three tables given by value. *)
Definition reconcile_tables (shipment_history edib2bi edi940 : DataFrame)
  : result DataFrame :=
  snd (reconcile (mkFrames shipment_history edib2bi edi940)).

End Reconcile.

(** ** The endpoint over frame objects *)

Module Objects.
Import Pandas Reconcile.

(** A pandas frame is an object: a variable holds a reference to it, two
    variables may hold the same reference, and an assignment to the
    [columns] attribute writes through the reference.  The store lists the
    frame objects alive; a reference is a position in it. *)
Definition ref : Type := nat.
Definition store : Type := list DataFrame.

Definition deref (r : ref) (h : store) : DataFrame := nth r h (mkDataFrame [] []).

Fixpoint update (r : ref) (df : DataFrame) (h : store) : store :=
  match h, r with
  | [], _ => []
  | _ :: h', O => df :: h'
  | x :: h', S r' => x :: update r' df h'
  end.

(** A computation over the store; an exception leaves the store as it is at
    the point where it is raised. *)
Definition run (A : Type) : Type := store -> store * result A.

Definition unit_run {A : Type} (a : A) : run A := fun h => (h, inr a).

Definition bind_run {A B : Type} (m : run A) (k : A -> run B) : run B :=
  fun h =>
    match m h with
    | (h', inl e) => (h', inl e)
    | (h', inr a) => k a h'
    end.

Notation "x <~ m ;; k" := (bind_run m (fun x => k))
  (at level 61, m at next level, right associativity).

Definition lift {A : Type} (x : result A) : run A := fun h => (h, x).

(** A frame returned by a pandas operation is a new object. *)
Definition alloc (df : DataFrame) : run ref :=
  fun h => (h ++ [df], inr (List.length h)).

Definition read (r : ref) : run DataFrame := fun h => (h, inr (deref r h)).

(** [df.columns = labels] on the object behind [r]. *)
Definition assign_columns (r : ref) (labels : list string) : run unit :=
  fun h => (update r (set_columns labels (deref r h)) h, inr tt).

(** [df.columns = df.columns.astype(str).str.strip()] *)
Definition strip_columns (r : ref) : run unit :=
  df <~ read r ;;
  assign_columns r (stripped_columns df).

(** [pd.merge(left, right, ...)] *)
Definition pd_merge (left right : ref) (lk rk : string) : run ref :=
  l <~ read left ;;
  r <~ read right ;;
  merged <~ lift (merge_left l r lk rk) ;;
  alloc merged.

(** [df[[c for c in allow if c in df.columns]]] *)
Definition select (allow : list string) (r : ref) : run ref :=
  df <~ read r ;;
  out <~ lift (project allow df) ;;
  alloc out.

(** [df.rename(columns=mapper)] *)
Definition rename_columns (mapper : list (string * string)) (r : ref) : run ref :=
  df <~ read r ;;
  alloc (rename mapper df).

(** Lines 93-99: the [else] branch binds [filtered_df] to the object that
    [final_merge_df] holds. *)
Definition filter_rows (final_merge_df : ref) : run ref :=
  df <~ read final_merge_df ;;
  if has_column "SalesHeaderDocStatus" df && has_column "EDI Processing Status" df
  then out <~ lift (filter_step df) ;; alloc out
  else unit_run final_merge_df.

(** Lines 101-102: without a column [Pickticket], [filtered_df] keeps its
    object. *)
Definition dedupe_rows (filtered_df : ref) : run ref :=
  df <~ read filtered_df ;;
  if has_column "Pickticket" df
  then out <~ lift (dedupe_step df) ;; alloc out
  else unit_run filtered_df.

(** Lines 44-46. *)
Definition strip_inputs (df1 df2 df3 : ref) : run unit :=
  _ <~ strip_columns df1 ;;
  _ <~ strip_columns df2 ;;
  strip_columns df3.

(** Lines 48-102. *)
Definition run_pipeline (df1 df2 df3 : ref) : run ref :=
  d1 <~ read df1 ;;
  d2 <~ read df2 ;;
  d3 <~ read df3 ;;
  _ <~ lift (check_required (required d1 d2 d3)) ;;
  merged_df <~ pd_merge df1 df2 "Pickticket" "AXReferenceID" ;;
  _ <~ strip_columns merged_df ;;
  merged_df <~ select first_list merged_df ;;
  final_merge_df <~ pd_merge merged_df df3 "Pickticket" "PickRoute" ;;
  final_merge_df <~ select second_list final_merge_df ;;
  final_merge_df <~ rename_columns rename_map final_merge_df ;;
  filtered_df <~ filter_rows final_merge_df ;;
  dedupe_rows filtered_df.

(** Lines 43-102 on the three objects the decoder returned: the store after
    the call, and the object handed to the spreadsheet writer or the
    exception raised. *)
Definition reconcile_objects (df1 df2 df3 : ref) : run ref :=
  _ <~ strip_inputs df1 df2 df3 ;;
  run_pipeline df1 df2 df3.

(** The frame behind the returned reference, or the exception. *)
Definition outcome (x : store * result ref) : result DataFrame :=
  match snd x with
  | inl e => inl e
  | inr r => inr (deref r (fst x))
  end.

End Objects.

Import Pandas Reconcile Objects.

(** ** Notions used in the statements *)

(** [Subseq s l]: [s] is [l] with some elements removed, order kept. *)
Inductive Subseq {A : Type} : list A -> list A -> Prop :=
| Subseq_nil : Subseq [] []
| Subseq_skip x s l : Subseq s l -> Subseq s (x :: l)
| Subseq_keep x s l : Subseq s l -> Subseq (x :: s) (x :: l).

(** The [Pickticket] value of a row: its cells under that label. *)
Definition pickticket_of (df : DataFrame) (r : list cell) : list cell :=
  take (positions "Pickticket" (columns df)) r.

(** The row at position [n] of a frame. *)
Definition row_at (df : DataFrame) (n : nat) : list cell := nth n (rows df) [].

(** [idx] lists, in increasing order, the positions of the rows of [df]
    whose [Pickticket] value no earlier row carries. *)
Definition first_occurrences (df : DataFrame) (idx : list nat) : Prop :=
  StronglySorted lt idx
  /\ forall n, In n idx <->
       (n < List.length (rows df)
        /\ forall m, m < n ->
             pickticket_of df (row_at df m) <> pickticket_of df (row_at df n)).

(** The cell at position [i] is missing. *)
Definition isna_at (i : nat) (r : list cell) : bool :=
  match nth i r NA with
  | NA => true
  | _ => false
  end.

(** The cell is the string [s]. *)
Definition is_string (s : string) (c : cell) : bool :=
  match c with
  | Str t => String.eqb t s
  | _ => false
  end.

(** ** Sample frames *)

(** A renamed frame carrying both status columns. *)
Definition status_frame : DataFrame :=
  {| columns := ["Pickticket"; "EDI Processing Status"; "SalesHeaderDocStatus"];
     rows := [ [Str "P1"; Str "AX Load Failure"; Str "Picking List"];
               [Str "P2"; Str "OK"; Str "Picking List"];
               [Str "P3"; Str "AX Load Failure"; Str "Other"];
               [Str "P4"; Str "ax load failure"; Str "Picking List "];
               [Str "P1"; Str "AX Load Failure"; Str "Picking List"] ] |}.

(** A renamed frame in which two columns carry [SalesHeaderDocStatus]. *)
Definition repeated_status_frame : DataFrame :=
  {| columns := ["Pickticket"; "Warehouse"; "EDI Processing Status";
                 "Found in AX DATa?"; "SalesHeaderDocStatus";
                 "SalesHeaderDocStatus"];
     rows := [ [Str "P1"; Str "W1"; Str "AX Load Failure"; Str "P1";
                Str "Picking List"; Str "Picking List"] ] |}.

(** Three validated tables whose EDI-940 headers [SalesHeaderDocStatus] and
    [ SalesHeaderDocStatus] differ by a leading blank. *)
Definition blank_shipment_history : DataFrame :=
  {| columns := ["Pickticket"; "Warehouse"]; rows := [ [Str "P1"; Str "W1"] ] |}.

Definition blank_edib2bi : DataFrame :=
  {| columns := ["AXReferenceID"; "StatusSummary"];
     rows := [ [Str "P1"; Str "AX Load Failure"] ] |}.

Definition blank_edi940 : DataFrame :=
  {| columns := ["PickRoute"; "SalesHeaderDocStatus"; " SalesHeaderDocStatus"];
     rows := [ [Str "P1"; Str "Picking List"; Str "Picking List"] ] |}.

(** A frame with repeated and missing [Pickticket] values. *)
Definition repeats_frame : DataFrame :=
  {| columns := ["Warehouse"; "Pickticket"];
     rows := [ [Str "W1"; NA]; [Str "W2"; Str "P1"]; [Str "W3"; NA];
               [Str "W4"; Str "P1"]; [Str "W5"; Str "P2"]; [NA; NA] ] |}.

(** The six EDI-940 fields that close the second list. *)
Definition edi940_fields : list string :=
  [ "PickRoute"; "SalesHeaderStatus"; "SalesHeaderDocStatus";
    "PickModeOfDelivery"; "PickCreatedDate"; "DeliveryDate" ].

(** The second list as the specification words it: the list of the first
    projection followed by the EDI-940 fields. *)
Definition spec_second_list : list string := first_list ++ edi940_fields.

(** A merged frame in which [Warehouse] comes before [Pickticket]. *)
Definition swap_frame : DataFrame :=
  {| columns := ["Warehouse"; "Pickticket"; "PickRoute"];
     rows := [ [Str "W1"; Str "P1"; Str "P1"] ] |}.

(** The three tables of the end-to-end example. *)
Definition ex_shipment_history : DataFrame :=
  {| columns := ["Pickticket"; "Warehouse"]; rows := [ [Str "P1"; Str "W1"] ] |}.

Definition ex_edib2bi : DataFrame :=
  {| columns := ["AXReferenceID"; "InvoiceNumber"]; rows := [ [Str "P1"; Str "X1"] ] |}.

Definition ex_edi940 : DataFrame :=
  {| columns := ["PickRoute"; "SalesHeaderDocStatus"];
     rows := [ [Str "P1"; Str "Picking List"] ] |}.

(** What the run on the example returns. *)
Definition ex_result : DataFrame :=
  {| columns := ["Pickticket"; "Warehouse"; "Received in EDI?";
                 "Found in AX DATa?"; "SalesHeaderDocStatus"];
     rows := [ [Str "P1"; Str "W1"; Str "X1"; Str "P1"; Str "Picking List"] ] |}.

(** ** Left joins, row by row *)






(** Tables for the joins: one shipment matched twice, one matched by a
    missing key, one unmatched. *)
Definition join_shipments : DataFrame :=
  {| columns := ["Pickticket"; "Warehouse"];
     rows := [ [Str "P1"; Str "W1"]; [Str "P2"; Str "W2"]; [NA; Str "W3"] ] |}.

Definition join_edib2bi : DataFrame :=
  {| columns := ["AXReferenceID"; "InvoiceNumber"; "Warehouse"];
     rows := [ [Str "P1"; Str "X1"; Str "A"]; [Str "P1"; Str "X2"; Str "B"];
               [NA; Str "X3"; Str "C"] ] |}.








(** A validated pair in which the suffix [_x] gives [Warehouse] a label
    that shipment_history already has. *)
Definition suffix_shipment_history : DataFrame :=
  {| columns := ["Pickticket"; "Warehouse_x"; "Warehouse"];
     rows := [ [Str "P1"; Str "W0"; Str "W1"] ] |}.

(** [sfx] is a suffix of [s]. *)
Fixpoint ends_with (sfx s : string) : bool :=
  String.eqb s sfx
  || match s with
     | EmptyString => false
     | String _ s' => ends_with sfx s'
     end.

(** A label that no merge suffix can produce. *)
Definition unsuffixed (c : string) : bool :=
  negb (ends_with "_x" c) && negb (ends_with "_y" c).

(** Three validated tables in which edib2bi also has a column [Pickticket]. *)
Definition clash_shipment_history : DataFrame :=
  {| columns := ["Pickticket"; "Warehouse"]; rows := [ [Str "P1"; Str "W1"] ] |}.

Definition clash_edib2bi : DataFrame :=
  {| columns := ["AXReferenceID"; "Pickticket"]; rows := [ [Str "P1"; Str "P1"] ] |}.

Definition clash_edi940 : DataFrame :=
  {| columns := ["PickRoute"; "SalesHeaderDocStatus"];
     rows := [ [Str "P1"; Str "Picking List"] ] |}.

(** Decoded frames whose headers carry surrounding blanks. *)
Definition padded_frames : frames :=
  {| df1 := {| columns := [" Pickticket "; "Warehouse"];
               rows := [ [Str "P1"; Str "W1"] ] |};
     df2 := ex_edib2bi;
     df3 := ex_edi940 |}.

(** The store holding the three padded frames and a fourth frame that is
    not an upload. *)
Definition padded_store : store :=
  [df1 padded_frames; df2 padded_frames; df3 padded_frames;
   {| columns := [" other "]; rows := [] |}].

(** The store holding the three trimmed frames, twice. *)
Definition trimmed_store : store :=
  [ex_shipment_history; ex_edib2bi; ex_edi940;
   ex_shipment_history; ex_edib2bi; ex_edi940].

(** Decoded frames whose headers are trimmed already. *)
Definition trimmed_frames : frames :=
  {| df1 := ex_shipment_history; df2 := ex_edib2bi; df3 := ex_edi940 |}.

(** ** Further notions for the run as a whole *)

(** Every row has one cell per column. *)
Definition rectangular (df : DataFrame) : Prop :=
  Forall (fun r => List.length r = List.length (columns df)) (rows df).

(** The labels a result column can carry: the second list after the rename. *)
Definition result_labels : list string :=
  map (rename_label rename_map) second_list.

(** Two key columns that a join accepts: one of them is empty, or both are
    [object] columns, or neither is. *)
Definition compatible_keys (a b : list cell) : Prop :=
  a = [] \/ b = [] \/ object_dtype a = object_dtype b.

(** The key of a right row in a join on position [j]. *)
Definition join_key (j : nat) (r : list cell) : cell := nth j r NA.

(** Tables that lack required columns. *)
Definition no_keys_frame : DataFrame :=
  {| columns := [" Warehouse"; "Order "]; rows := [ [Str "W1"; Num 7] ] |}.

(** A shipment history with no rows. *)
Definition empty_shipment_history : DataFrame :=
  {| columns := ["Pickticket"; "Warehouse"]; rows := [] |}.

(** The labels the rename replaces, and the labels it puts in their place. *)
Definition renamed_from : list string := map fst rename_map.
Definition renamed_to : list string := map snd rename_map.

(** A frame carrying two of the labels the rename replaces. *)
Definition unrenamed_frame : DataFrame :=
  {| columns := ["Pickticket"; "InvoiceNumber"; "PickRoute"];
     rows := [ [Str "P1"; Str "X1"; Str "P1"] ] |}.

(** Tables on which the filter applies: two shipments fail to load, one of
    them twice, and one loads. *)
Definition failing_shipments : DataFrame :=
  {| columns := ["Pickticket"; "Warehouse"; "StatusSummary"];
     rows := [ [Str "P1"; Str "W1"; Str "AX Load Failure"];
               [Str "P2"; Str "W2"; Str "OK"];
               [Str "P1"; Str "W9"; Str "AX Load Failure"];
               [Str "P3"; Str "W3"; Str "AX Load Failure"] ] |}.

Definition failing_edib2bi : DataFrame :=
  {| columns := ["AXReferenceID"; "InvoiceNumber"];
     rows := [ [Str "P1"; Str "X1"]; [Str "P3"; Str "X3"] ] |}.

Definition failing_edi940 : DataFrame :=
  {| columns := ["PickRoute"; "SalesHeaderDocStatus"];
     rows := [ [Str "P1"; Str "Picking List"]; [Str "P2"; Str "Picking List"];
               [Str "P3"; Str "Picking List"] ] |}.

Definition failing_result : DataFrame :=
  {| columns := ["Pickticket"; "Warehouse"; "Received in EDI?";
                 "EDI Processing Status"; "Found in AX DATa?";
                 "SalesHeaderDocStatus"];
     rows := [ [Str "P1"; Str "W1"; Str "X1"; Str "AX Load Failure"; Str "P1";
                Str "Picking List"];
               [Str "P3"; Str "W3"; Str "X3"; Str "AX Load Failure"; Str "P3";
                Str "Picking List"] ] |}.

(** Pairwise distinct labels, as a check. *)
Fixpoint distinct (labels : list string) : bool :=
  match labels with
  | [] => true
  | c :: labels' => negb (contains labels' c) && distinct labels'
  end.

(** Tables whose key columns hold pairwise distinct values. *)
Definition unique_shipments : DataFrame :=
  {| columns := ["Pickticket"; "Warehouse"];
     rows := [ [Str "P1"; Str "W1"]; [Str "P2"; Str "W2"]; [Str "P1"; Str "W3"] ] |}.

Definition unique_edib2bi : DataFrame :=
  {| columns := ["AXReferenceID"; "InvoiceNumber"];
     rows := [ [Str "P1"; Str "X1"]; [Str "P2"; Str "X2"] ] |}.

Definition unique_edi940 : DataFrame :=
  {| columns := ["PickRoute"; "SalesHeaderDocStatus"];
     rows := [ [Str "P1"; Str "Picking List"]; [Str "P9"; Str "Other"] ] |}.

(** ** Decoding the uploads and naming the file (lines 9-41 and 104-113) *)

(** The exception of line 23: [HTTPException(status_code=400, detail=...)]. *)
Inductive load_error : Type :=
| CsvReadError (status_code : nat) (detail : string).

(** Line 14. *)
Definition encodings : list string := ["utf-8"; "utf-8-sig"; "utf-16"; "latin1"].

Section Decoder.
(** [pd.read_csv(io.BytesIO(b), encoding=enc, low_memory=False)]: the frame,
    or the text of the exception raised; [None] is the call without
    [encoding]. *)
Variable read_csv : list Byte.byte -> option string -> string + DataFrame.

(** Lines 14-18: the first encoding under which the bytes parse. *)
Fixpoint first_parse (encs : list string) (b : list Byte.byte) : option DataFrame :=
  match encs with
  | [] => None
  | enc :: encs' =>
      match read_csv b (Some enc) with
      | inr df => Some df
      | inl _ => first_parse encs' b
      end
  end.

(** Lines 9-23. *)
Definition load_csv_bytes (b : list Byte.byte) : load_error + DataFrame :=
  match first_parse encodings b with
  | Some df => inr df
  | None =>
      match read_csv b None with
      | inr df => inr df
      | inl e => inl (CsvReadError 400 ("CSV read error: " ++ e)%string)
      end
  end.
End Decoder.

(** The fields of [datetime.datetime.now()] that [strftime("%m%d%y")] reads. *)
Record datetime : Type := mkDatetime {
  year : nat;
  month : nat;
  day : nat
}.

(** A month and a day of the calendar. *)
Definition valid_date (now : datetime) : Prop :=
  1 <= month now <= 12 /\ 1 <= day now <= 31.

Definition digit (n : nat) : ascii := ascii_of_nat (48 + n mod 10).

(** A number below 100 as two decimal digits, zero-padded. *)
Definition two_digits (n : nat) : string :=
  String (digit (n / 10)) (String (digit n) EmptyString).

(** Line 106: [strftime("%m%d%y")]. *)
Definition stamp (now : datetime) : string :=
  (two_digits (month now) ++ two_digits (day now) ++ two_digits (year now mod 100))%string.

(** Line 108. *)
Definition filename (now : datetime) : string :=
  ("MISSING_945_" ++ stamp now ++ ".xlsx")%string.

Definition isdigit (a : ascii) : bool :=
  ((48 <=? nat_of_ascii a) && (nat_of_ascii a <=? 57))%nat.

Fixpoint all_digits (s : string) : bool :=
  match s with
  | EmptyString => true
  | String a s' => isdigit a && all_digits s'
  end.

(** Two days a century apart, and a third day. *)
Definition day_2026 : datetime := {| year := 2026; month := 11; day := 3 |}.
Definition day_2126 : datetime := {| year := 2126; month := 11; day := 3 |}.
Definition day_2027 : datetime := {| year := 2027; month := 1; day := 9 |}.

(** ** The endpoint as a whole (lines 32-113) *)





Section Endpoint.
Variable read_csv : list Byte.byte -> option string -> string + DataFrame.
(** Lines 25-30: the sheet written by [df.to_excel(w, index=False)], or the
    text of the exception the writer raises. *)
Variable df_to_xlsx_bytes : DataFrame -> string + list Byte.byte.

End Endpoint.



(** ** Results *)

Section Results.
Context {A B : Type}.

Lemma inr_eq (a a' : A) : @inr error A a = inr a' -> a = a'.
Proof. now intros [= ->]. Qed.

Lemma bind_inr (m : result A) (k : A -> result B) (b : B) :
  bind m k = inr b -> exists a, m = inr a /\ k a = inr b.
Proof.
  destruct m as [e | a]; simpl; [discriminate |]. intros H. now exists a.
Qed.
End Results.

(** ** Lists *)

Section ListFacts.
Context {A : Type}.

Lemma Subseq_refl (l : list A) : Subseq l l.
Proof. induction l; constructor; assumption. Qed.

Lemma Subseq_trans (a b c : list A) : Subseq a b -> Subseq b c -> Subseq a c.
Proof.
  intros Hab Hbc. revert a Hab.
  induction Hbc as [| x s l Hsl IH | x s l Hsl IH]; intros a Hab.
  - assumption.
  - apply Subseq_skip. now apply IH.
  - inversion Hab; subst.
    + apply Subseq_skip. now apply IH.
    + apply Subseq_keep. now apply IH.
Qed.

Lemma Subseq_In (s l : list A) : Subseq s l -> forall x, In x s -> In x l.
Proof.
  induction 1; intros y Hy; simpl in *; auto.
  destruct Hy as [-> | Hy]; auto.
Qed.

Lemma filter_Subseq (f : A -> bool) (l : list A) : Subseq (List.filter f l) l.
Proof.
  induction l as [| x l IH]; simpl; [constructor |].
  destruct (f x); constructor; assumption.
Qed.

(** Selecting by a boolean series that was computed row by row. *)
Lemma mask_filter (f : A -> bool) (l : list A) :
  map snd (List.filter fst (combine (map f l) l)) = List.filter f l.
Proof.
  induction l as [| x l IH]; simpl; [reflexivity |].
  destruct (f x); simpl; now rewrite IH.
Qed.

Lemma filter_nil_iff (f : A -> bool) (l : list A) :
  List.filter f l = [] <-> forall x, In x l -> f x = false.
Proof.
  induction l as [| x l IH]; simpl.
  - split; [intros _ y [] | reflexivity].
  - destruct (f x) eqn:E.
    + split; [discriminate |]. intros H. specialize (H x (or_introl eq_refl)).
      congruence.
    + rewrite IH. split.
      * intros H y [<- | Hy]; auto.
      * intros H y Hy. apply H. now right.
Qed.
End ListFacts.

#[local] Hint Constructors Subseq : core.

(** ** Labels, positions and projections *)

Section Labels.

Lemma contains_In (labels : list string) (c : string) :
  contains labels c = true <-> In c labels.
Proof.
  unfold contains. rewrite existsb_exists. split.
  - intros [x [Hx E]]. apply String.eqb_eq in E. now subst.
  - intros H. exists c. split; [assumption | apply String.eqb_refl].
Qed.

Lemma has_column_In (c : string) (df : DataFrame) :
  has_column c df = true <-> In c (columns df).
Proof. apply contains_In. Qed.

Lemma contains_not_In (labels : list string) (c : string) :
  contains labels c = false <-> ~ In c labels.
Proof.
  rewrite <- contains_In. destruct (contains labels c); split; congruence.
Qed.

Lemma positions_from_nil (i : nat) (c : string) (labels : list string) :
  positions_from i c labels = [] <-> ~ In c labels.
Proof.
  revert i. induction labels as [| l labels IH]; intros i; simpl.
  - split; [intros _ [] | reflexivity].
  - destruct (String.eqb c l) eqn:E.
    + apply String.eqb_eq in E. subst. split; [discriminate |].
      intros H. exfalso. apply H. now left.
    + apply String.eqb_neq in E. rewrite IH. split.
      * intros H [H1 | H1]; [congruence | auto].
      * intros H H1. apply H. now right.
Qed.

Lemma positions_from_labels (pre : list string) (c : string) (labels : list string) :
  map (fun i => nth i (pre ++ labels) "") (positions_from (List.length pre) c labels)
  = List.filter (String.eqb c) labels.
Proof.
  revert pre. induction labels as [| l labels IH]; intros pre; simpl.
  - reflexivity.
  - assert (Hpre : pre ++ l :: labels = (pre ++ [l]) ++ labels)
      by now rewrite <- app_assoc.
    assert (Hlen : S (List.length pre) = List.length (pre ++ [l]))
      by (rewrite length_app; simpl; lia).
    destruct (String.eqb c l) eqn:E; simpl.
    + f_equal.
      * rewrite app_nth2 by lia. now rewrite Nat.sub_diag.
      * rewrite Hpre, Hlen. apply IH.
    + rewrite Hpre, Hlen. apply IH.
Qed.

Lemma positions_labels (c : string) (labels : list string) :
  map (fun i => nth i labels "") (positions c labels)
  = List.filter (String.eqb c) labels.
Proof. apply (positions_from_labels [] c labels). Qed.

Lemma filter_eqb_In (x c : string) (labels : list string) :
  In x (List.filter (String.eqb c) labels) <-> x = c /\ In c labels.
Proof.
  rewrite filter_In. split.
  - intros [H E]. apply String.eqb_eq in E. subst. auto.
  - intros [-> H]. split; [assumption | apply String.eqb_refl].
Qed.

Lemma filter_eqb_NoDup (c : string) (labels : list string) :
  NoDup labels ->
  List.filter (String.eqb c) labels = if contains labels c then [c] else [].
Proof.
  induction 1 as [| l labels Hl Hnd IH]; simpl; [reflexivity |].
  unfold contains in *. simpl. destruct (String.eqb c l) eqn:E; simpl.
  - apply String.eqb_eq in E. subst l. f_equal.
    rewrite IH. fold (contains labels c).
    apply contains_not_In in Hl. now rewrite Hl.
  - apply IH.
Qed.

Lemma get_loc_ok (c : string) (labels : list string) :
  In c labels -> exists i, get_loc c labels = inr i /\ nth i labels "" = c.
Proof.
  intros H. unfold get_loc.
  pose proof (positions_labels c labels) as P.
  destruct (positions c labels) as [| i ps] eqn:E.
  - apply positions_from_nil in E. contradiction.
  - exists i. split; [reflexivity |].
    simpl in P.
    assert (Hin : In (nth i labels "") (List.filter (String.eqb c) labels))
      by (rewrite <- P; now left).
    now apply filter_eqb_In in Hin.
Qed.

Lemma get_loc_missing (c : string) (labels : list string) :
  ~ In c labels -> get_loc c labels = inl (KeyError c).
Proof.
  intros H. unfold get_loc, positions.
  apply (positions_from_nil 0) in H. now rewrite H.
Qed.

Lemma positions_In (c : string) (labels : list string) (i : nat) (ps : list nat) :
  positions c labels = i :: ps -> In c labels.
Proof.
  intros H. destruct (in_dec string_dec c labels) as [Hin | Hin]; [exact Hin |].
  apply (positions_from_nil 0) in Hin. unfold positions in H. congruence.
Qed.

Lemma positions_has_column (c : string) (df : DataFrame) (i : nat) (ps : list nat) :
  positions c (columns df) = i :: ps -> has_column c df = true.
Proof. intros H. apply has_column_In. exact (positions_In _ _ _ _ H). Qed.

Lemma positions_get_loc (c : string) (labels : list string) (i : nat) (ps : list nat) :
  positions c labels = i :: ps -> get_loc c labels = inr i.
Proof. intros H. unfold get_loc. now rewrite H. Qed.

Lemma positions_NoDup (c : string) (labels : list string) :
  NoDup labels -> In c labels -> exists i, positions c labels = [i].
Proof.
  intros Hnd Hin. pose proof (positions_labels c labels) as P.
  rewrite (filter_eqb_NoDup c labels Hnd) in P.
  apply contains_In in Hin. rewrite Hin in P.
  destruct (positions c labels) as [| i [| i' ps]]; try discriminate.
  now exists i.
Qed.

Lemma get_indexer_ok (key labels : list string) :
  (forall c, In c key -> In c labels) ->
  get_indexer key labels = inr (flat_map (fun c => positions c labels) key).
Proof.
  induction key as [| c key IH]; intros H; simpl; [reflexivity |].
  destruct (positions c labels) as [| i ps] eqn:E.
  - apply positions_from_nil in E. exfalso. apply E, H. now left.
  - rewrite IH by (intros; apply H; now right). reflexivity.
Qed.

Lemma flat_map_present {B : Type} (g : string -> list B)
      (labels allow : list string) :
  (forall c, ~ In c labels -> g c = []) ->
  flat_map g (List.filter (contains labels) allow) = flat_map g allow.
Proof.
  intros H. induction allow as [| c allow IH]; simpl; [reflexivity |].
  destruct (contains labels c) eqn:E; simpl; rewrite IH; [reflexivity |].
  apply contains_not_In in E. now rewrite (H c E).
Qed.

Lemma map_flat_map_positions (labels key : list string) :
  map (fun i => nth i labels "") (flat_map (fun c => positions c labels) key)
  = flat_map (fun c => List.filter (String.eqb c) labels) key.
Proof.
  induction key as [| c key IH]; simpl; [reflexivity |].
  now rewrite map_app, positions_labels, IH.
Qed.

(** A projection never fails: the list it indexes with is already cut down
    to the labels present. *)
Lemma project_ok (allow : list string) (df : DataFrame) :
  project allow df
  = inr {| columns := flat_map (fun c => List.filter (String.eqb c) (columns df)) allow;
           rows := map (take (flat_map (fun c => positions c (columns df)) allow))
                       (rows df) |}.
Proof.
  unfold project, getitem_list, has_column.
  change (fun c => contains (columns df) c) with (contains (columns df)).
  rewrite get_indexer_ok.
  2:{ intros c Hc. apply filter_In in Hc. now apply contains_In. }
  simpl. rewrite map_flat_map_positions.
  rewrite !flat_map_present; [reflexivity | |].
  - intros c Hc. now apply (positions_from_nil 0).
  - intros c Hc. destruct (List.filter (String.eqb c) (columns df)) as [| x l] eqn:E;
      [reflexivity |].
    assert (Hx : In x (List.filter (String.eqb c) (columns df)))
      by (rewrite E; now left).
    apply filter_eqb_In in Hx. tauto.
Qed.

Lemma first_projection_ok (df : DataFrame) :
  first_projection df
  = inr {| columns := flat_map (fun c => List.filter (String.eqb c) (columns df)) first_list;
           rows := map (take (flat_map (fun c => positions c (columns df)) first_list))
                       (rows df) |}.
Proof. unfold first_projection. apply project_ok. Qed.

Lemma second_projection_ok (df : DataFrame) :
  second_projection df
  = inr {| columns := flat_map (fun c => List.filter (String.eqb c) (columns df)) second_list;
           rows := map (take (flat_map (fun c => positions c (columns df)) second_list))
                       (rows df) |}.
Proof. unfold second_projection. apply project_ok. Qed.

Lemma project_columns_In (allow labels : list string) (x : string) :
  In x (flat_map (fun c => List.filter (String.eqb c) labels) allow)
  <-> In x allow /\ In x labels.
Proof.
  rewrite in_flat_map. split.
  - intros [c [Hc Hx]]. apply filter_eqb_In in Hx. destruct Hx as [-> Hx]. auto.
  - intros [Ha Hl]. exists x. split; [assumption |]. now apply filter_eqb_In.
Qed.

Lemma project_columns_NoDup (allow labels : list string) :
  NoDup labels ->
  flat_map (fun c => List.filter (String.eqb c) labels) allow
  = List.filter (contains labels) allow.
Proof.
  intros Hnd. induction allow as [| c allow IH]; simpl; [reflexivity |].
  rewrite IH, filter_eqb_NoDup by assumption.
  now destruct (contains labels c).
Qed.

End Labels.

(** ** Cells, series and masks *)

Section Series.

Lemma cell_eqb_eq (a b : cell) : cell_eqb a b = true <-> a = b.
Proof.
  destruct a, b; simpl; try (split; [discriminate | congruence]).
  - tauto.
  - rewrite String.eqb_eq. split; congruence.
  - rewrite Z.eqb_eq. split; congruence.
Qed.

Lemma key_eqb_eq (k1 k2 : list cell) : key_eqb k1 k2 = true <-> k1 = k2.
Proof.
  revert k2. induction k1 as [| a k1 IH]; intros [| b k2]; simpl;
    try (split; [discriminate | congruence]); [tauto |].
  rewrite andb_true_iff, cell_eqb_eq, IH. split; [intros [-> ->] | intros [= -> ->]]; auto.
Qed.

Lemma key_eqb_refl (k : list cell) : key_eqb k k = true.
Proof. now apply key_eqb_eq. Qed.

Lemma key_eqb_sym (k1 k2 : list cell) : key_eqb k1 k2 = key_eqb k2 k1.
Proof.
  destruct (key_eqb k1 k2) eqn:E1, (key_eqb k2 k1) eqn:E2; try reflexivity.
  - apply key_eqb_eq in E1. subst. now rewrite key_eqb_refl in E2.
  - apply key_eqb_eq in E2. subst. now rewrite key_eqb_refl in E1.
Qed.

Lemma getitem_ok (c : string) (df : DataFrame) (i : nat) :
  positions c (columns df) = [i] ->
  getitem c df = inr (Series (map (fun r => nth i r NA) (rows df))).
Proof. intros H. unfold getitem. now rewrite H. Qed.

Lemma getitem_cases (c : string) (df : DataFrame) :
  has_column c df = true ->
  (exists i, positions c (columns df) = [i])
  \/ (1 < List.length (positions c (columns df))
      /\ exists cols, getitem c df = inr (Frame cols)).
Proof.
  intros H. apply has_column_In in H. unfold getitem.
  destruct (positions c (columns df)) as [| i [| i' ps]] eqn:E.
  - apply (positions_from_nil 0) in E. contradiction.
  - left. now exists i.
  - right. split; [simpl; lia |]. now eexists.
Qed.

Lemma existsb_key_In (k : list cell) (seen : list (list cell)) :
  existsb (key_eqb k) seen = true <-> In k seen.
Proof.
  rewrite existsb_exists. split.
  - intros [x [Hx E]]. apply key_eqb_eq in E. now subst.
  - intros H. exists k. split; [exact H | apply key_eqb_refl].
Qed.

Lemma cell_eqb_is_string (c : cell) (s : string) :
  cell_eqb c (Str s) = is_string s c.
Proof. now destruct c. Qed.

Lemma isin_one (v : cell) (i : nat) (rs : list (list cell)) :
  isin [v] (map (fun r => nth i r NA) rs)
  = map (fun r => cell_eqb (nth i r NA) v) rs.
Proof.
  unfold isin. rewrite map_map. apply map_ext.
  intros r. simpl. apply orb_false_r.
Qed.

Lemma series_and_map {A : Type} (f g : A -> bool) (l : list A) :
  series_and (map f l) (map g l) = map (fun x => f x && g x) l.
Proof.
  unfold series_and. induction l as [| x l IH]; simpl; [reflexivity |].
  now rewrite IH.
Qed.

Lemma getitem_mask_map (f : list cell -> bool) (df : DataFrame) :
  getitem_mask (map f (rows df)) df
  = {| columns := columns df; rows := List.filter f (rows df) |}.
Proof. unfold getitem_mask. now rewrite mask_filter. Qed.

End Series.

(** ** Dropping duplicates *)

Section Duplicates.
Variable key : list cell -> list cell.

(** The rows [drop_duplicates] keeps when the keys in [seen] were met
    before the first row. *)
Let survivors (seen : list (list cell)) (rs : list (list cell)) : list (list cell) :=
  map snd (List.filter fst
    (combine (series_not (duplicated_from seen (map key rs))) rs)).

Lemma survivors_cons (seen : list (list cell)) (r : list cell) (rs : list (list cell)) :
  survivors seen (r :: rs)
  = if existsb (key_eqb (key r)) seen
    then survivors (key r :: seen) rs
    else r :: survivors (key r :: seen) rs.
Proof.
  unfold survivors. simpl. now destruct (existsb (key_eqb (key r)) seen).
Qed.

Lemma survivors_Subseq (seen : list (list cell)) (rs : list (list cell)) :
  Subseq (survivors seen rs) rs.
Proof.
  revert seen. induction rs as [| r rs IH]; intros seen.
  - constructor.
  - rewrite survivors_cons.
    destruct (existsb (key_eqb (key r)) seen); constructor; apply IH.
Qed.

Lemma existsb_key_eq (k k' : list cell) (seen : list (list cell)) :
  k = k' -> existsb (key_eqb k) seen = existsb (key_eqb k') seen.
Proof. now intros ->. Qed.

(** Of the rows carrying key [k], the first one survives and no other. *)
Lemma survivors_first (k : list cell) (seen : list (list cell)) (rs : list (list cell)) :
  List.filter (fun r => key_eqb (key r) k) (survivors seen rs)
  = if existsb (key_eqb k) seen then []
    else firstn 1 (List.filter (fun r => key_eqb (key r) k) rs).
Proof.
  revert seen. induction rs as [| r rs IH]; intros seen.
  - simpl. now destruct (existsb (key_eqb k) seen).
  - rewrite survivors_cons.
    destruct (key_eqb (key r) k) eqn:Ek.
    + pose proof Ek as Ek'. apply key_eqb_eq in Ek'.
      rewrite (existsb_key_eq _ _ seen Ek').
      destruct (existsb (key_eqb k) seen) eqn:Es.
      * rewrite IH. simpl. now rewrite key_eqb_sym, Ek.
      * simpl. rewrite Ek, IH. simpl. now rewrite key_eqb_sym, Ek.
    + assert (Hs : existsb (key_eqb k) (key r :: seen) = existsb (key_eqb k) seen)
        by (simpl; now rewrite key_eqb_sym, Ek).
      destruct (existsb (key_eqb (key r)) seen); simpl; rewrite ?Ek, IH, Hs; reflexivity.
  Qed.

Lemma survivors_nil_seen (rs : list (list cell)) (k : list cell) :
  List.filter (fun r => key_eqb (key r) k) (survivors [] rs)
  = firstn 1 (List.filter (fun r => key_eqb (key r) k) rs).
Proof. apply (survivors_first k [] rs). Qed.

Lemma StronglySorted_map_S (l : list nat) :
  StronglySorted lt l -> StronglySorted lt (map S l).
Proof.
  induction 1 as [| a l Hs IH Ha]; cbn [map]; constructor; [exact IH |].
  rewrite Forall_forall in *. intros x Hx. apply in_map_iff in Hx as [y [<- Hy]].
  apply Ha in Hy. lia.
Qed.

(** The surviving rows by position: the positions are increasing, and a
    position survives exactly when the key of its row was neither met before
    the first row nor is carried by an earlier row. *)
Lemma survivors_positions (seen : list (list cell)) (rs : list (list cell)) :
  exists idx,
    survivors seen rs = map (fun n => nth n rs []) idx
    /\ StronglySorted lt idx
    /\ forall n, In n idx <->
         (n < List.length rs
          /\ ~ In (key (nth n rs [])) seen
          /\ forall m, m < n -> key (nth m rs []) <> key (nth n rs [])).
Proof.
  revert seen. induction rs as [| r rs IH]; intros seen.
  - exists []. split; [reflexivity |]. split; [constructor |].
    intros n. simpl. split; [intros [] | intros [H _]; lia].
  - destruct (IH (key r :: seen)) as [idx [Hs [Hsorted Hin]]].
    rewrite survivors_cons, Hs.
    assert (Hshift : map (fun n => nth n rs []) idx
                     = map (fun n => nth n (r :: rs) []) (map S idx))
      by (rewrite map_map; reflexivity).
    assert (HS : forall n, In (S n) (map S idx) <->
                   (S n < List.length (r :: rs)
                    /\ ~ In (key (nth (S n) (r :: rs) [])) seen
                    /\ forall m, m < S n ->
                         key (nth m (r :: rs) []) <> key (nth (S n) (r :: rs) []))).
    { intros n. cbn [List.length nth]. split.
      - intros H. apply in_map_iff in H as [n' [[= ->] Hn']].
        apply Hin in Hn' as [H1 [H2 H3]].
        split; [lia |]. split; [intros H; apply H2; now right |].
        intros [| m] Hm; cbn [nth].
        + intros E. apply H2. now left.
        + apply H3. lia.
      - intros [H1 [H2 H3]]. apply in_map. apply Hin.
        split; [lia |]. split.
        + intros [E | E]; [| exact (H2 E)]. apply (H3 0); [lia | exact E].
        + intros m Hm. apply (H3 (S m)). lia. }
    assert (H0 : ~ In 0 (map S idx))
      by (intros H; apply in_map_iff in H as [n' [E _]]; discriminate).
    destruct (existsb (key_eqb (key r)) seen) eqn:E.
    + exists (map S idx). split; [exact Hshift |].
      split; [now apply StronglySorted_map_S |].
      intros [| n]; [| apply HS]. split; [intros H; now apply H0 in H |].
      intros [_ [H2 _]]. exfalso. apply H2. now apply existsb_key_In.
    + exists (0 :: map S idx). split; [cbn [map nth]; now rewrite Hshift |].
      split.
      { constructor; [now apply StronglySorted_map_S |].
        apply Forall_forall. intros x Hx. apply in_map_iff in Hx as [y [<- _]]. lia. }
      intros [| n].
      * split; [| intros _; now left]. intros _. cbn [List.length nth].
        split; [lia |]. split; [| intros m Hm; lia].
        intros H. apply existsb_key_In in H. congruence.
      * rewrite <- HS. cbn [In]. split; [| tauto].
        intros [H | H]; [discriminate | exact H].
Qed.

End Duplicates.

Section Dedupe.

Lemma drop_duplicates_ok (c : string) (df : DataFrame) :
  In c (columns df) ->
  drop_duplicates [c] df
  = inr {| columns := columns df;
           rows := map snd (List.filter fst
             (combine (series_not (duplicated_from []
                         (map (take (positions c (columns df))) (rows df))))
                      (rows df))) |}.
Proof.
  intros H. unfold drop_duplicates, duplicated.
  rewrite get_indexer_ok by (intros c' [<- | []]; assumption).
  simpl. now rewrite app_nil_r.
Qed.

End Dedupe.

(** ** The filter and the deduplication (lines 93-102) *)

Section FilterDedupe.

Lemma filter_step_unique (df : DataFrame) (i j : nat) :
  positions "SalesHeaderDocStatus" (columns df) = [i] ->
  positions "EDI Processing Status" (columns df) = [j] ->
  filter_step df
  = inr {| columns := columns df;
           rows := List.filter
                     (fun r => cell_eqb (nth i r NA) (Str "Picking List")
                               && cell_eqb (nth j r NA) (Str "AX Load Failure"))
                     (rows df) |}.
Proof.
  intros Hi Hj. unfold filter_step.
  rewrite (positions_has_column _ _ _ _ Hi), (positions_has_column _ _ _ _ Hj).
  simpl andb. cbv iota.
  rewrite (getitem_ok _ _ _ Hi), (getitem_ok _ _ _ Hj). simpl bind.
  now rewrite !isin_one, series_and_map, getitem_mask_map.
Qed.

Lemma filter_step_skipped (df : DataFrame) :
  has_column "SalesHeaderDocStatus" df = false
  \/ has_column "EDI Processing Status" df = false ->
  filter_step df = inr df.
Proof.
  intros H. unfold filter_step.
  destruct H as [H | H]; rewrite H; [reflexivity |].
  now rewrite andb_false_r.
Qed.

Lemma filter_step_repeated (df : DataFrame) :
  has_column "SalesHeaderDocStatus" df = true ->
  has_column "EDI Processing Status" df = true ->
  1 < List.length (positions "SalesHeaderDocStatus" (columns df))
  \/ 1 < List.length (positions "EDI Processing Status" (columns df)) ->
  filter_step df = inl (ValueError DuplicateLabels).
Proof.
  intros Ha Hb H. unfold filter_step. rewrite Ha, Hb. simpl andb. cbv iota.
  destruct (getitem_cases _ _ Ha) as [[i Hi] | [La [ca Ea]]];
    destruct (getitem_cases _ _ Hb) as [[j Hj] | [Lb [cb Eb]]].
  - rewrite Hi, Hj in H. simpl in H. lia.
  - rewrite (getitem_ok _ _ _ Hi), Eb. reflexivity.
  - rewrite Ea, (getitem_ok _ _ _ Hj). reflexivity.
  - rewrite Ea, Eb. reflexivity.
Qed.

(** Every way the filter can end. *)
Lemma filter_step_cases (df : DataFrame) :
  (exists i j,
     positions "SalesHeaderDocStatus" (columns df) = [i]
     /\ positions "EDI Processing Status" (columns df) = [j]
     /\ filter_step df
        = inr {| columns := columns df;
                 rows := List.filter
                           (fun r => cell_eqb (nth i r NA) (Str "Picking List")
                                     && cell_eqb (nth j r NA) (Str "AX Load Failure"))
                           (rows df) |})
  \/ ((has_column "SalesHeaderDocStatus" df = false
       \/ has_column "EDI Processing Status" df = false)
      /\ filter_step df = inr df)
  \/ (has_column "SalesHeaderDocStatus" df = true
      /\ has_column "EDI Processing Status" df = true
      /\ (1 < List.length (positions "SalesHeaderDocStatus" (columns df))
          \/ 1 < List.length (positions "EDI Processing Status" (columns df)))
      /\ filter_step df = inl (ValueError DuplicateLabels)).
Proof.
  destruct (has_column "SalesHeaderDocStatus" df) eqn:Ha.
  2:{ right. left. split; [now left |]. apply filter_step_skipped. now left. }
  destruct (has_column "EDI Processing Status" df) eqn:Hb.
  2:{ right. left. split; [now right |]. apply filter_step_skipped. now right. }
  destruct (getitem_cases _ _ Ha) as [[i Hi] | [La _]].
  - destruct (getitem_cases _ _ Hb) as [[j Hj] | [Lb _]].
    + left. exists i, j. split; [exact Hi |]. split; [exact Hj |].
      now apply filter_step_unique.
    + right. right. split; [reflexivity |]. split; [reflexivity |].
      split; [now right |]. apply filter_step_repeated; auto.
  - right. right. split; [reflexivity |]. split; [reflexivity |].
    split; [now left |]. apply filter_step_repeated; auto.
Qed.

(** C2, as the code has it.  When [SalesHeaderDocStatus] is the label of
    exactly one column of the renamed frame, at position [i], and
    [EDI Processing Status] of exactly one, at position [j], the filter
    returns the same columns and, in their order, exactly the rows whose cell
    at [i] is the string [Picking List] and whose cell at [j] is the string
    [AX Load Failure]: a row survives if and only if both cells are these
    very strings.  When either label is absent the frame is returned as it
    is.  When both are present and one of them is the label of several
    columns, the filter raises [ValueError] and no row survives. *)
Theorem filter_step_spec (df : DataFrame) :
  (forall i j,
     positions "SalesHeaderDocStatus" (columns df) = [i] ->
     positions "EDI Processing Status" (columns df) = [j] ->
     exists out,
       filter_step df = inr out
       /\ columns out = columns df
       /\ rows out
          = List.filter (fun r => is_string "Picking List" (nth i r NA)
                                  && is_string "AX Load Failure" (nth j r NA))
                        (rows df)
       /\ (forall r, In r (rows out) <->
                     In r (rows df)
                     /\ nth i r NA = Str "Picking List"
                     /\ nth j r NA = Str "AX Load Failure"))
  /\ (has_column "SalesHeaderDocStatus" df = false
      \/ has_column "EDI Processing Status" df = false ->
      filter_step df = inr df)
  /\ (has_column "SalesHeaderDocStatus" df = true ->
      has_column "EDI Processing Status" df = true ->
      1 < List.length (positions "SalesHeaderDocStatus" (columns df))
      \/ 1 < List.length (positions "EDI Processing Status" (columns df)) ->
      filter_step df = inl (ValueError DuplicateLabels)).
Proof.
  split; [| split].
  - intros i j Hi Hj. eexists. split; [apply (filter_step_unique df i j Hi Hj) |].
    cbn [columns rows]. split; [reflexivity |]. split.
    + apply filter_ext. intros r. now rewrite !cell_eqb_is_string.
    + intros r. rewrite filter_In, andb_true_iff, !cell_eqb_eq. tauto.
  - apply filter_step_skipped.
  - apply filter_step_repeated.
Qed.

Lemma filter_step_spec_witness :
  exists out,
    filter_step status_frame = inr out
    /\ columns out = columns status_frame
    /\ rows out
       = List.filter (fun r => is_string "Picking List" (nth 2 r NA)
                               && is_string "AX Load Failure" (nth 1 r NA))
                     (rows status_frame)
    /\ (forall r, In r (rows out) <->
                  In r (rows status_frame)
                  /\ nth 2 r NA = Str "Picking List"
                  /\ nth 1 r NA = Str "AX Load Failure").
Proof. exact (proj1 (filter_step_spec status_frame) 2 1 eq_refl eq_refl). Defined.

Example filter_step_status_frame :
  filter_step status_frame
  = inr {| columns := columns status_frame;
           rows := [ [Str "P1"; Str "AX Load Failure"; Str "Picking List"];
                     [Str "P1"; Str "AX Load Failure"; Str "Picking List"] ] |}.
Proof. reflexivity. Qed.

(** C2 as worded fails.  The three tables below pass the check of lines
    49-55; the EDI-940 headers [SalesHeaderDocStatus] and
    [ SalesHeaderDocStatus] become one label at line 46, and the renamed
    frame carries both status labels.  Its one row holds the two very
    strings, yet it does not survive: line 95 raises [ValueError]. *)
Lemma filter_step_spec_counterexample :
  (exists q,
     projected (strip_headers blank_shipment_history) (strip_headers blank_edib2bi)
               (strip_headers blank_edi940) = inr q
     /\ rename_step q = repeated_status_frame)
  /\ has_column "SalesHeaderDocStatus" repeated_status_frame = true
  /\ has_column "EDI Processing Status" repeated_status_frame = true
  /\ rows repeated_status_frame
     = [ [Str "P1"; Str "W1"; Str "AX Load Failure"; Str "P1";
          Str "Picking List"; Str "Picking List"] ]
  /\ filter_step repeated_status_frame = inl (ValueError DuplicateLabels)
  /\ reconcile_tables blank_shipment_history blank_edib2bi blank_edi940
     = inl (ValueError DuplicateLabels).
Proof.
  split; [eexists; split; vm_compute; reflexivity |].
  repeat split; vm_compute; reflexivity.
Qed.

Lemma dedupe_step_positions (df : DataFrame) :
  has_column "Pickticket" df = true ->
  exists idx,
    dedupe_step df = inr {| columns := columns df; rows := map (row_at df) idx |}
    /\ first_occurrences df idx.
Proof.
  intros H. unfold dedupe_step. rewrite H.
  rewrite drop_duplicates_ok by (apply has_column_In; exact H).
  destruct (survivors_positions (pickticket_of df) [] (rows df))
    as [idx [Hs [Hsorted Hin]]].
  exists idx. split.
  - f_equal. f_equal. exact Hs.
  - split; [exact Hsorted |]. intros n. rewrite Hin. unfold row_at.
    cbn [In]. tauto.
Qed.



Example dedupe_step_repeats_frame :
  dedupe_step repeats_frame
  = inr {| columns := ["Warehouse"; "Pickticket"];
           rows := [ [Str "W1"; NA]; [Str "W2"; Str "P1"]; [Str "W5"; Str "P2"] ] |}.
Proof. reflexivity. Qed.

Lemma pickticket_of_at (df : DataFrame) (i : nat) (r : list cell) :
  positions "Pickticket" (columns df) = [i] ->
  pickticket_of df r = [nth i r NA].
Proof. intros H. unfold pickticket_of. now rewrite H. Qed.

Lemma isna_at_key (i : nat) (r : list cell) :
  isna_at i r = key_eqb (take [i] r) [NA].
Proof. unfold isna_at. simpl. now destruct (nth i r NA). Qed.

Lemma isna_at_true (i : nat) (r : list cell) :
  isna_at i r = true <-> nth i r NA = NA.
Proof. unfold isna_at. destruct (nth i r NA); split; congruence. Qed.

(** C9.  Missing dedupe keys.  When [Pickticket] is the column at position
    [i], the rows whose [Pickticket] cell is missing count as carrying one
    and the same key.  The step returns the rows at an increasing list of
    positions; the position of a row with a missing [Pickticket] is in the
    list exactly when no earlier row has a missing [Pickticket]; so of all
    such rows the result holds the first and no other. *)
Theorem dedupe_step_missing_keys (df : DataFrame) (i : nat) :
  positions "Pickticket" (columns df) = [i] ->
  exists out idx,
    dedupe_step df = inr out
    /\ rows out = map (row_at df) idx
    /\ StronglySorted lt idx
    /\ (forall n, n < List.length (rows df) ->
                  isna_at i (row_at df n) = true ->
                  (In n idx <-> forall m, m < n -> isna_at i (row_at df m) = false))
    /\ List.filter (isna_at i) (rows out)
       = firstn 1 (List.filter (isna_at i) (rows df)).
Proof.
  intros Hi.
  pose proof (positions_has_column _ _ _ _ Hi) as Hc.
  destruct (dedupe_step_positions df Hc) as [idx [Hd [Hsorted Hin]]].
  eexists. exists idx. split; [exact Hd |]. cbn [rows].
  split; [reflexivity |]. split; [exact Hsorted |]. split.
  - intros n Hn Hna. rewrite Hin.
    apply isna_at_true in Hna. split.
    + intros [_ H] m Hm. specialize (H m Hm).
      rewrite (pickticket_of_at df i (row_at df m) Hi),
        (pickticket_of_at df i (row_at df n) Hi), Hna in H.
      destruct (isna_at i (row_at df m)) eqn:E; [| reflexivity].
      apply isna_at_true in E. congruence.
    + intros H. split; [exact Hn |]. intros m Hm.
      rewrite (pickticket_of_at df i (row_at df m) Hi),
        (pickticket_of_at df i (row_at df n) Hi), Hna.
      specialize (H m Hm). intros [= E]. apply isna_at_true in E. congruence.
  - unfold dedupe_step in Hd. rewrite Hc in Hd.
    rewrite drop_duplicates_ok in Hd by (apply has_column_In; exact Hc).
    apply inr_eq in Hd. apply (f_equal rows) in Hd. cbn [rows] in Hd.
    rewrite <- Hd.
    pose proof (survivors_nil_seen (pickticket_of df) (rows df) [NA]) as H.
    unfold pickticket_of in H. rewrite Hi in H.
    rewrite !(filter_ext _ _ (isna_at_key i)), Hi. exact H.
Qed.

Lemma dedupe_step_missing_keys_witness :
  exists out idx,
    dedupe_step repeats_frame = inr out
    /\ rows out = map (row_at repeats_frame) idx
    /\ StronglySorted lt idx
    /\ (forall n, n < List.length (rows repeats_frame) ->
                  isna_at 1 (row_at repeats_frame n) = true ->
                  (In n idx <->
                   forall m, m < n -> isna_at 1 (row_at repeats_frame m) = false))
    /\ List.filter (isna_at 1) (rows out)
       = firstn 1 (List.filter (isna_at 1) (rows repeats_frame)).
Proof. exact (dedupe_step_missing_keys repeats_frame 1 eq_refl). Defined.

End FilterDedupe.

(** ** The run as a whole *)

Section Run.

Lemma reconcile_tables_eq (shipment_history edib2bi edi940 : DataFrame) :
  reconcile_tables shipment_history edib2bi edi940
  = pipeline (strip_headers shipment_history) (strip_headers edib2bi)
             (strip_headers edi940).
Proof. reflexivity. Qed.

Lemma bind_ret_l {A B : Type} (a : A) (k : A -> result B) : bind (inr a) k = k a.
Proof. reflexivity. Qed.

Lemma bind_inl {A B : Type} (m : result A) (k : A -> result B) (e : error) :
  bind m k = inl e -> m = inl e \/ exists a, m = inr a /\ k a = inl e.
Proof.
  destruct m as [e' | a]; simpl; intros H; [left; congruence | right; now exists a].
Qed.

Lemma filter_step_inr (df out : DataFrame) :
  filter_step df = inr out ->
  columns out = columns df /\ Subseq (rows out) (rows df).
Proof.
  intros H.
  destruct (filter_step_cases df) as [[i [j [_ [_ E]]]] | [[_ E] | [_ [_ [_ E]]]]];
    rewrite E in H.
  - apply inr_eq in H. subst out. split; [reflexivity | apply filter_Subseq].
  - apply inr_eq in H. subst out. split; [reflexivity | apply Subseq_refl].
  - discriminate.
Qed.

Lemma filter_step_inl (df : DataFrame) (e : error) :
  filter_step df = inl e -> e = ValueError DuplicateLabels.
Proof.
  intros H.
  destruct (filter_step_cases df) as [[i [j [_ [_ E]]]] | [[_ E] | [_ [_ [_ E]]]]];
    rewrite E in H; congruence.
Qed.

Lemma dedupe_step_ok (df : DataFrame) :
  exists out, dedupe_step df = inr out
              /\ columns out = columns df /\ Subseq (rows out) (rows df).
Proof.
  unfold dedupe_step. destruct (has_column "Pickticket" df) eqn:H.
  - rewrite drop_duplicates_ok by (apply has_column_In; exact H).
    eexists. split; [reflexivity |]. split; [reflexivity |]. apply survivors_Subseq.
  - exists df. repeat split. apply Subseq_refl.
Qed.

Lemma pipeline_stages (d1 d2 d3 res : DataFrame) :
  pipeline d1 d2 d3 = inr res ->
  exists q flt,
    projected d1 d2 d3 = inr q
    /\ filter_step (rename_step q) = inr flt
    /\ dedupe_step flt = inr res.
Proof.
  unfold pipeline. intros H.
  apply bind_inr in H as [q [Hq H]].
  apply bind_inr in H as [flt [Hf H]].
  now exists q, flt.
Qed.

Lemma projected_stages (d1 d2 d3 q : DataFrame) :
  projected d1 d2 d3 = inr q ->
  exists m p f,
    check_required (required d1 d2 d3) = inr tt
    /\ first_join d1 d2 = inr m
    /\ first_projection m = inr p
    /\ second_join p d3 = inr f
    /\ second_projection f = inr q.
Proof.
  unfold projected. intros H.
  apply bind_inr in H as [u [H0 H]]. destruct u.
  apply bind_inr in H as [m [H1 H]].
  apply bind_inr in H as [p [H2 H]].
  apply bind_inr in H as [f [H3 H]].
  now exists m, p, f.
Qed.

(** What a successful run went through. *)
Lemma pipeline_inr (d1 d2 d3 res : DataFrame) :
  pipeline d1 d2 d3 = inr res ->
  exists q, projected d1 d2 d3 = inr q
            /\ columns res = columns (rename_step q)
            /\ Subseq (rows res) (rows q).
Proof.
  intros H. apply pipeline_stages in H as [q [f [Hq [Hf H]]]].
  exists q. split; [exact Hq |].
  apply filter_step_inr in Hf as [Hfc Hfr].
  destruct (dedupe_step_ok f) as [o [Ho [Hoc Hor]]].
  rewrite H in Ho. apply inr_eq in Ho. subst o.
  split; [now rewrite Hoc |].
  eapply Subseq_trans; [exact Hor | exact Hfr].
Qed.

Lemma projected_inr (d1 d2 d3 q : DataFrame) :
  projected d1 d2 d3 = inr q ->
  exists f, columns q
            = flat_map (fun c => List.filter (String.eqb c) (columns f)) second_list.
Proof.
  unfold projected. intros H.
  apply bind_inr in H as [u [H0 H]].
  apply bind_inr in H as [m [H1 H]].
  apply bind_inr in H as [p [H2 H]].
  apply bind_inr in H as [f [H3 H]].
  exists f. rewrite second_projection_ok in H.
  apply inr_eq in H. now rewrite <- H.
Qed.

End Run.

(** ** The projections (lines 62-69 and 74-83) *)

Section Projections.

Lemma second_list_shape :
  second_list = "Pickticket" :: "Warehouse" :: skipn 2 first_list ++ edi940_fields.
Proof. reflexivity. Qed.

Lemma filter_eqb_head (c : string) (labels : list string) :
  In c labels -> exists t, List.filter (String.eqb c) labels = c :: t.
Proof.
  intros H. destruct (List.filter (String.eqb c) labels) as [| x t] eqn:E.
  - assert (Hc : In c (List.filter (String.eqb c) labels))
      by (apply filter_eqb_In; auto).
    rewrite E in Hc. destruct Hc.
  - assert (Hx : In x (List.filter (String.eqb c) labels)) by (rewrite E; now left).
    apply filter_eqb_In in Hx. destruct Hx as [-> _]. now exists t.
Qed.

(** C6, as the code has it.  The second projection never fails and keeps
    exactly the columns whose label is in the list of lines 75-82, in the
    order of that list.  That list is the list of the first projection with
    its first two entries exchanged ([Pickticket] first, then [Warehouse])
    followed by the six EDI-940 fields; so on a frame with distinct labels
    that has both, [Pickticket] comes first and [Warehouse] second. *)
Theorem second_projection_order (df : DataFrame) :
  exists out,
    second_projection df = inr out
    /\ columns out
       = flat_map (fun c => List.filter (String.eqb c) (columns df)) second_list
    /\ second_list
       = "Pickticket" :: "Warehouse" :: skipn 2 first_list ++ edi940_fields
    /\ (NoDup (columns df) ->
        columns out = List.filter (contains (columns df)) second_list)
    /\ (NoDup (columns df) ->
        In "Pickticket" (columns df) -> In "Warehouse" (columns df) ->
        exists rest, columns out = "Pickticket" :: "Warehouse" :: rest).
Proof.
  eexists. split; [apply second_projection_ok |]. cbn [columns].
  split; [reflexivity |]. split; [exact second_list_shape |]. split.
  - intros Hnd. now apply project_columns_NoDup.
  - intros Hnd HP HW. rewrite (project_columns_NoDup _ _ Hnd), second_list_shape.
    generalize (skipn 2 first_list ++ edi940_fields). intros tl.
    apply contains_In in HP, HW. cbn [List.filter]. rewrite HP, HW.
    now eexists.
Qed.

Lemma second_projection_order_witness :
  exists out,
    second_projection swap_frame = inr out
    /\ columns out = List.filter (contains (columns swap_frame)) second_list
    /\ exists rest, columns out = "Pickticket" :: "Warehouse" :: rest.
Proof.
  destruct (second_projection_order swap_frame) as [out [H1 [_ [_ [H2 H3]]]]].
  assert (Hnd : NoDup (columns swap_frame)).
  { repeat constructor; simpl; intuition discriminate. }
  exists out. split; [exact H1 |]. split; [exact (H2 Hnd) |].
  apply (H3 Hnd); simpl; auto.
Defined.

(** C6 as worded fails: read as the list of the first projection followed
    by the EDI-940 fields, the allow-list would put [Warehouse] before
    [Pickticket]; the code returns them the other way round. *)
Lemma second_projection_order_counterexample :
  exists out,
    second_projection swap_frame = inr out
    /\ columns out = ["Pickticket"; "Warehouse"; "PickRoute"]
    /\ List.filter (contains (columns swap_frame)) spec_second_list
       = ["Warehouse"; "Pickticket"; "PickRoute"]
    /\ columns out <> List.filter (contains (columns swap_frame)) spec_second_list.
Proof.
  eexists. split; [reflexivity |]. split; [reflexivity |].
  split; [reflexivity |]. vm_compute. discriminate.
Qed.

(** C7.  Pickticket first.  On every run that succeeds, the columns of the
    result are the renamed columns of the frame left by the second
    projection, and if [Pickticket] is a column of that frame it is the
    first column of the result. *)
Theorem pickticket_first (shipment_history edib2bi edi940 res : DataFrame) :
  reconcile_tables shipment_history edib2bi edi940 = inr res ->
  exists q,
    projected (strip_headers shipment_history) (strip_headers edib2bi)
              (strip_headers edi940) = inr q
    /\ columns res = columns (rename_step q)
    /\ (In "Pickticket" (columns q) -> hd_error (columns res) = Some "Pickticket").
Proof.
  rewrite reconcile_tables_eq. intros H.
  apply pipeline_inr in H as [q [Hq [Hc _]]].
  exists q. split; [exact Hq |]. split; [exact Hc |].
  intros HP. rewrite Hc.
  apply projected_inr in Hq as [f Hf].
  rewrite Hf in HP. apply project_columns_In in HP as [_ HP].
  apply filter_eqb_head in HP as [t Ht].
  unfold rename_step, rename. cbn [columns]. rewrite Hf, second_list_shape.
  cbn [flat_map]. rewrite Ht. reflexivity.
Qed.

Lemma example_run :
  reconcile_tables ex_shipment_history ex_edib2bi ex_edi940 = inr ex_result.
Proof. vm_compute. reflexivity. Qed.

Lemma pickticket_first_witness :
  exists q,
    projected (strip_headers ex_shipment_history) (strip_headers ex_edib2bi)
              (strip_headers ex_edi940) = inr q
    /\ columns ex_result = columns (rename_step q)
    /\ (In "Pickticket" (columns q) ->
        hd_error (columns ex_result) = Some "Pickticket").
Proof.
  exact (pickticket_first ex_shipment_history ex_edib2bi ex_edi940 ex_result
                          example_run).
Defined.

(** C1.  The end-to-end example.  The run succeeds; the frame left by the
    rename has no column [EDI Processing Status], so the filter returns it
    unchanged; the result has the one row P1, W1, X1, P1, Picking List under
    the columns Pickticket, Warehouse, Received in EDI?, Found in AX DATa?,
    SalesHeaderDocStatus. *)
Theorem end_to_end_example :
  reconcile_tables ex_shipment_history ex_edib2bi ex_edi940
  = inr {| columns := ["Pickticket"; "Warehouse"; "Received in EDI?";
                       "Found in AX DATa?"; "SalesHeaderDocStatus"];
           rows := [ [Str "P1"; Str "W1"; Str "X1"; Str "P1"; Str "Picking List"] ] |}
  /\ exists q,
       projected (strip_headers ex_shipment_history) (strip_headers ex_edib2bi)
                 (strip_headers ex_edi940) = inr q
       /\ has_column "EDI Processing Status" (rename_step q) = false
       /\ filter_step (rename_step q) = inr (rename_step q).
Proof.
  split; [exact example_run |].
  eexists. split; [vm_compute; reflexivity |].
  split; vm_compute; reflexivity.
Qed.

End Projections.

(** ** The joins (lines 58-59 and 71-72) *)

Section Joins.

Lemma key_position_ok (c : string) (df : DataFrame) (i : nat) :
  positions c (columns df) = [i] -> key_position c df = inr i.
Proof. intros H. unfold key_position. now rewrite H. Qed.

Lemma key_position_inr (c : string) (df : DataFrame) (i : nat) :
  key_position c df = inr i -> positions c (columns df) = [i].
Proof.
  unfold key_position.
  destruct (positions c (columns df)) as [| i0 [| i1 ps]]; try discriminate.
  now intros [= ->].
Qed.

Lemma key_position_inl (c : string) (df : DataFrame) (e : error) :
  key_position c df = inl e ->
  (e = KeyError c /\ ~ In c (columns df))
  \/ (e = ValueError (LabelNotUnique c)
      /\ 1 < List.length (positions c (columns df))).
Proof.
  unfold key_position.
  destruct (positions c (columns df)) as [| i0 [| i1 ps]] eqn:E; try discriminate.
  - intros [= <-]. left. split; [reflexivity |]. now apply (positions_from_nil 0).
  - intros [= <-]. right. split; [reflexivity | simpl; lia].
Qed.

Lemma maybe_coerce_merge_keys_inl (lk rk : string) (a b : list cell) (e : error) :
  maybe_coerce_merge_keys lk rk a b = inl e ->
  e = ValueError (IncompatibleKeys lk rk)
  /\ a <> [] /\ b <> [] /\ object_dtype a <> object_dtype b.
Proof.
  unfold maybe_coerce_merge_keys.
  destruct a as [| x a]; [discriminate |]. destruct b as [| y b]; [discriminate |].
  cbn [is_empty orb].
  destruct (object_dtype (x :: a)), (object_dtype (y :: b)); cbn [xorb];
    try discriminate; intros [= <-]; repeat split; discriminate.
Qed.

Lemma items_overlap_with_suffix_inr (left right labels : list string) :
  items_overlap_with_suffix left right = inr labels ->
  labels = merged_columns left right.
Proof.
  unfold items_overlap_with_suffix.
  destruct (suffix_duplicates left (suffix_labels "_x" right left)
            ++ suffix_duplicates right (suffix_labels "_y" left right));
    [| discriminate].
  now intros [= <-].
Qed.

Lemma items_overlap_with_suffix_inl (left right : list string) (e : error) :
  items_overlap_with_suffix left right = inl e ->
  exists labels, e = MergeError labels /\ labels <> [].
Proof.
  unfold items_overlap_with_suffix.
  destruct (suffix_duplicates left (suffix_labels "_x" right left)
            ++ suffix_duplicates right (suffix_labels "_y" left right)) as [| d ds];
    [discriminate |].
  intros [= <-]. eexists. split; [reflexivity | discriminate].
Qed.

(** What a join that returns went through. *)
Lemma merge_left_inr (left right m : DataFrame) (lk rk : string) :
  merge_left left right lk rk = inr m ->
  exists i j,
    positions lk (columns left) = [i]
    /\ positions rk (columns right) = [j]
    /\ maybe_coerce_merge_keys lk rk (column_at i left) (column_at j right) = inr tt
    /\ items_overlap_with_suffix (columns left) (columns right)
       = inr (merged_columns (columns left) (columns right))
    /\ m = {| columns := merged_columns (columns left) (columns right);
              rows := flat_map (join_row (List.length (columns right)) i j (rows right))
                               (rows left) |}.
Proof.
  unfold merge_left. intros H.
  apply bind_inr in H as [j [Hj H]].
  apply bind_inr in H as [i [Hi H]].
  apply bind_inr in H as [u [Hu H]]. destruct u.
  apply bind_inr in H as [labels [Hl H]].
  apply inr_eq in H.
  pose proof (items_overlap_with_suffix_inr _ _ _ Hl) as El. subst labels.
  exists i, j. split; [now apply key_position_inr |].
  split; [now apply key_position_inr |]. split; [exact Hu |].
  split; [exact Hl |]. now subst m.
Qed.

Lemma merge_left_returns (left right : DataFrame) (lk rk : string) (i j : nat) :
  positions lk (columns left) = [i] ->
  positions rk (columns right) = [j] ->
  maybe_coerce_merge_keys lk rk (column_at i left) (column_at j right) = inr tt ->
  items_overlap_with_suffix (columns left) (columns right)
  = inr (merged_columns (columns left) (columns right)) ->
  merge_left left right lk rk
  = inr {| columns := merged_columns (columns left) (columns right);
           rows := flat_map (join_row (List.length (columns right)) i j (rows right))
                            (rows left) |}.
Proof.
  intros Hi Hj Hk Hl. unfold merge_left.
  rewrite (key_position_ok _ _ _ Hj), bind_ret_l.
  rewrite (key_position_ok _ _ _ Hi), bind_ret_l.
  rewrite Hk, bind_ret_l, Hl, bind_ret_l. reflexivity.
Qed.

(** Every exception of a join. *)
Lemma merge_left_inl (left right : DataFrame) (lk rk : string) (e : error) :
  merge_left left right lk rk = inl e ->
  (e = KeyError rk /\ ~ In rk (columns right))
  \/ (e = KeyError lk /\ ~ In lk (columns left) /\ In rk (columns right))
  \/ (exists cause, e = ValueError cause)
  \/ (exists labels, e = MergeError labels).
Proof.
  unfold merge_left. intros H.
  apply bind_inl in H as [H | [j [Hj H]]].
  { apply key_position_inl in H as [[-> Hn] | [-> _]]; [now left |].
    right. right. left. now eexists. }
  apply key_position_inr in Hj.
  apply bind_inl in H as [H | [i [Hi H]]].
  { apply key_position_inl in H as [[-> Hn] | [-> _]].
    - right. left. split; [reflexivity |]. split; [exact Hn |].
      exact (positions_In _ _ _ _ Hj).
    - right. right. left. now eexists. }
  apply bind_inl in H as [H | [u [Hu H]]].
  { apply maybe_coerce_merge_keys_inl in H as [-> _]. right. right. left. now eexists. }
  apply bind_inl in H as [H | [labels [Hl H]]]; [| discriminate].
  apply items_overlap_with_suffix_inl in H as [labels [-> _]].
  right. right. right. now eexists.
Qed.

Lemma merge_left_columns (left right f : DataFrame) (lk rk : string) :
  merge_left left right lk rk = inr f ->
  columns f = merged_columns (columns left) (columns right).
Proof.
  intros H. apply merge_left_inr in H as [i [j [_ [_ [_ [_ ->]]]]]]. reflexivity.
Qed.

Lemma merge_left_missing (left right : DataFrame) (lk rk : string) (j : nat) :
  ~ In lk (columns left) -> positions rk (columns right) = [j] ->
  merge_left left right lk rk = inl (KeyError lk).
Proof.
  intros Hl Hr. unfold merge_left.
  rewrite (key_position_ok _ _ _ Hr), bind_ret_l. unfold key_position.
  apply (positions_from_nil 0) in Hl. unfold positions. now rewrite Hl.
Qed.




Lemma first_join_inr (d1 d2 m : DataFrame) :
  first_join d1 d2 = inr m ->
  exists i j,
    positions "Pickticket" (columns d1) = [i]
    /\ positions "AXReferenceID" (columns d2) = [j]
    /\ m = {| columns := map strip (merged_columns (columns d1) (columns d2));
              rows := flat_map (join_row (List.length (columns d2)) i j (rows d2))
                               (rows d1) |}.
Proof.
  unfold first_join. intros H. apply bind_inr in H as [m0 [H0 H]].
  apply inr_eq in H. subst m.
  apply merge_left_inr in H0 as [i [j [Hi [Hj [_ [_ ->]]]]]].
  now exists i, j.
Qed.

Lemma first_join_inl (d1 d2 : DataFrame) (e : error) :
  first_join d1 d2 = inl e -> merge_left d1 d2 "Pickticket" "AXReferenceID" = inl e.
Proof.
  unfold first_join. intros H. apply bind_inl in H as [H | [m [_ H]]];
    [exact H | discriminate].
Qed.





(** The other refusals of the first join on validated tables: a key label
    carried by two columns, and a suffix that produces a label already
    there. *)
Example first_join_repeated_key :
  first_join (strip_headers {| columns := ["Pickticket"; " Pickticket"; "Warehouse"];
                               rows := [ [Str "P1"; Str "P1"; Str "W1"] ] |})
             (strip_headers ex_edib2bi)
  = inl (ValueError (LabelNotUnique "Pickticket")).
Proof. vm_compute. reflexivity. Qed.

Example first_join_suffix_clash :
  first_join (strip_headers suffix_shipment_history) (strip_headers join_edib2bi)
  = inl (MergeError ["Warehouse_x"]).
Proof. vm_compute. reflexivity. Qed.

End Joins.

(** ** Trimming and suffixes *)

Section Strings.

Lemma lstrip_head (s : string) :
  lstrip s = EmptyString
  \/ exists a t, lstrip s = String a t /\ isspace a = false.
Proof.
  induction s as [| a s IH]; simpl; [now left |].
  destruct (isspace a) eqn:E; [exact IH |].
  right. now exists a, s.
Qed.

Lemma rstrip_idempotent (s : string) : rstrip (rstrip s) = rstrip s.
Proof.
  induction s as [| a s IH]; simpl; [reflexivity |].
  destruct (rstrip s) as [| b t] eqn:E.
  - destruct (isspace a) eqn:Ea; simpl; [reflexivity |]. now rewrite Ea.
  - change (rstrip (String a (String b t))) with
      (match rstrip (String b t) with
       | EmptyString => if isspace a then EmptyString else String a EmptyString
       | String c u => String a (String c u)
       end).
    now rewrite IH.
Qed.

Lemma rstrip_keeps_head (a : ascii) (s : string) :
  isspace a = false -> exists t, rstrip (String a s) = String a t.
Proof.
  intros Ha. simpl. destruct (rstrip s) as [| b t].
  - rewrite Ha. now eexists.
  - now eexists.
Qed.

Lemma strip_idempotent (s : string) : strip (strip s) = strip s.
Proof.
  unfold strip.
  destruct (lstrip_head s) as [E | [a [t [E Ha]]]]; rewrite E.
  - reflexivity.
  - destruct (rstrip_keeps_head a t Ha) as [u Hu].
    assert (Hl : lstrip (rstrip (String a t)) = rstrip (String a t)).
    { rewrite Hu. simpl. now rewrite Ha. }
    rewrite Hl. apply rstrip_idempotent.
Qed.

Lemma length_rstrip (s : string) : String.length (rstrip s) <= String.length s.
Proof.
  induction s as [| a s IH]; simpl; [lia |].
  destruct (rstrip s) as [| b t]; [destruct (isspace a) |]; simpl in *; lia.
Qed.

Lemma length_lstrip (s : string) : String.length (lstrip s) <= String.length s.
Proof.
  induction s as [| a s IH]; simpl; [lia |].
  destruct (isspace a); simpl; lia.
Qed.

(** A trimmed string is empty or starts with a character that is not blank. *)
Lemma stripped_head (s : string) :
  strip s = s ->
  s = EmptyString \/ exists a t, s = String a t /\ isspace a = false.
Proof.
  destruct s as [| a t]; [now left |]. intros H. right.
  exists a, t. split; [reflexivity |].
  destruct (isspace a) eqn:Ea; [| reflexivity].
  exfalso. unfold strip in H. simpl in H. rewrite Ea in H.
  pose proof (length_rstrip (lstrip t)) as H1.
  pose proof (length_lstrip t) as H2.
  rewrite H in H1. simpl in H1. lia.
Qed.

Lemma rstrip_app (s t : string) :
  t <> EmptyString -> rstrip t = t -> rstrip (s ++ t)%string = (s ++ t)%string.
Proof.
  intros Hne Ht. induction s as [| a s IH]; simpl; [exact Ht |].
  rewrite IH. destruct (s ++ t)%string eqn:E; [| reflexivity].
  destruct s; simpl in E; [congruence | discriminate].
Qed.

(** Trimming leaves a trimmed label with a merge suffix alone. *)
Lemma strip_suffixed (s sfx : string) :
  strip s = s -> strip sfx = sfx -> sfx <> EmptyString ->
  rstrip sfx = sfx ->
  strip (s ++ sfx)%string = (s ++ sfx)%string.
Proof.
  intros Hs Hsfx Hne Hr.
  destruct (stripped_head s Hs) as [-> | [a [t [-> Ha]]]]; [exact Hsfx |].
  unfold strip. simpl. rewrite Ha.
  apply (rstrip_app (String a t) sfx Hne Hr).
Qed.

Lemma strip_suffixed_x (s : string) :
  strip s = s -> strip (s ++ "_x")%string = (s ++ "_x")%string.
Proof.
  intros H. apply strip_suffixed; [exact H | reflexivity | discriminate | reflexivity].
Qed.

Lemma strip_suffixed_y (s : string) :
  strip s = s -> strip (s ++ "_y")%string = (s ++ "_y")%string.
Proof.
  intros H. apply strip_suffixed; [exact H | reflexivity | discriminate | reflexivity].
Qed.

Lemma ends_with_app (c sfx : string) : ends_with sfx (c ++ sfx)%string = true.
Proof.
  induction c as [| a c IH]; simpl.
  - destruct sfx as [| b sfx]; [reflexivity |].
    cbn [ends_with]. now rewrite String.eqb_refl.
  - rewrite IH. apply orb_true_r.
Qed.

Lemma unsuffixed_x (c : string) : unsuffixed (c ++ "_x")%string = false.
Proof. unfold unsuffixed. now rewrite ends_with_app. Qed.

Lemma unsuffixed_y (c : string) : unsuffixed (c ++ "_y")%string = false.
Proof. unfold unsuffixed. rewrite (ends_with_app c "_y"). apply andb_false_r. Qed.

Lemma first_list_unsuffixed : forallb unsuffixed first_list = true.
Proof. vm_compute. reflexivity. Qed.

Lemma second_list_unsuffixed : forallb unsuffixed second_list = true.
Proof. vm_compute. reflexivity. Qed.

End Strings.

(** ** Labels after a join *)

Section MergedLabels.

Lemma suffix_labels_In (sfx d : string) (other labels : list string) :
  In d (suffix_labels sfx other labels)
  <-> exists c, In c labels
                /\ d = if contains other c then (c ++ sfx)%string else c.
Proof.
  unfold suffix_labels. rewrite in_map_iff. split.
  - intros [c [<- Hc]]. now exists c.
  - intros [c [Hc ->]]. now exists c.
Qed.

Lemma merged_columns_In (d : string) (left right : list string) :
  In d (merged_columns left right)
  <-> (exists c, In c left
                 /\ d = if contains right c then (c ++ "_x")%string else c)
      \/ (exists c, In c right
                    /\ d = if contains left c then (c ++ "_y")%string else c).
Proof.
  unfold merged_columns. now rewrite in_app_iff, !suffix_labels_In.
Qed.



(** A label that is not a suffixed one is a column of the join exactly when
    it is a column of one side and not of the other. *)
Lemma merged_columns_unsuffixed (c : string) (left right : list string) :
  unsuffixed c = true ->
  In c (merged_columns left right)
  <-> (In c left /\ ~ In c right) \/ (In c right /\ ~ In c left).
Proof.
  intros Hu. rewrite merged_columns_In. split.
  - intros [[c' [Hc' E]] | [c' [Hc' E]]].
    + destruct (contains right c') eqn:Er.
      * subst c. now rewrite unsuffixed_x in Hu.
      * subst c'. left. split; [exact Hc' | now apply contains_not_In].
    + destruct (contains left c') eqn:El.
      * subst c. now rewrite unsuffixed_y in Hu.
      * subst c'. right. split; [exact Hc' | now apply contains_not_In].
  - intros [[Hl Hr] | [Hr Hl]].
    + left. exists c. split; [exact Hl |].
      apply contains_not_In in Hr. now rewrite Hr.
    + right. exists c. split; [exact Hr |].
      apply contains_not_In in Hl. now rewrite Hl.
Qed.

Lemma merged_columns_stripped (left right : list string) :
  (forall c, In c left -> strip c = c) ->
  (forall c, In c right -> strip c = c) ->
  map strip (merged_columns left right) = merged_columns left right.
Proof.
  intros Hl Hr. rewrite <- (map_id (merged_columns left right)) at 2.
  apply map_ext_in. intros d Hd.
  apply merged_columns_In in Hd as [[c [Hc ->]] | [c [Hc ->]]].
  - destruct (contains right c); [apply strip_suffixed_x |]; now apply Hl.
  - destruct (contains left c); [apply strip_suffixed_y |]; now apply Hr.
Qed.

Lemma strip_headers_stripped (df : DataFrame) (c : string) :
  In c (columns (strip_headers df)) -> strip c = c.
Proof.
  unfold strip_headers, set_columns, stripped_columns. cbn [columns].
  intros H. apply in_map_iff in H as [s [<- _]]. apply strip_idempotent.
Qed.

Lemma allow_list_unsuffixed (allow : list string) (c : string) :
  forallb unsuffixed allow = true -> In c allow -> unsuffixed c = true.
Proof. intros H Hc. rewrite forallb_forall in H. now apply H. Qed.


End MergedLabels.

(** ** The rename map (lines 85-90) *)

Section RenameMap.

Lemma rename_label_cases (c : string) :
  (In (c, rename_label rename_map c) rename_map)
  \/ (~ In c renamed_from /\ rename_label rename_map c = c).
Proof.
  unfold rename_map, renamed_from. cbn [rename_label map fst].
  destruct (String.eqb c "InvoiceNumber") eqn:E1;
    [apply String.eqb_eq in E1; subst; left; simpl; tauto |].
  destruct (String.eqb c "StatusSummary") eqn:E2;
    [apply String.eqb_eq in E2; subst; left; simpl; tauto |].
  destruct (String.eqb c "ERRORDESCRIPTION") eqn:E3;
    [apply String.eqb_eq in E3; subst; left; simpl; tauto |].
  destruct (String.eqb c "PickRoute") eqn:E4;
    [apply String.eqb_eq in E4; subst; left; simpl; tauto |].
  right. apply String.eqb_neq in E1, E2, E3, E4. split; [| reflexivity].
  simpl. intuition congruence.
Qed.

Lemma rename_map_old_new (old new : string) :
  In (old, new) rename_map ->
  rename_label rename_map old = new /\ In old renamed_from /\ In new renamed_to
  /\ ~ In new renamed_from.
Proof.
  unfold rename_map. simpl.
  intros [H | [H | [H | [H | []]]]]; injection H as <- <-;
    (split; [reflexivity |]; split; [tauto |]; split; [tauto |]);
    intuition discriminate.
Qed.

End RenameMap.

(** ** Colliding labels (lines 58-83) *)

Section Collisions.

(** The labels of the two projected frames of a run on trimmed tables. *)
Lemma projected_columns (d1 d2 d3 q : DataFrame) :
  (forall c, In c (columns d1) -> strip c = c) ->
  (forall c, In c (columns d2) -> strip c = c) ->
  projected d1 d2 d3 = inr q ->
  exists p,
    columns p
    = flat_map (fun c => List.filter (String.eqb c)
                           (merged_columns (columns d1) (columns d2))) first_list
    /\ columns q
       = flat_map (fun c => List.filter (String.eqb c)
                              (merged_columns (columns p) (columns d3))) second_list
    /\ In "Pickticket" (columns p).
Proof.
  intros S1 S2 H.
  apply projected_stages in H as [m [p [f [_ [Hm [Hp [Hf Hq]]]]]]].
  apply first_join_inr in Hm as [i [j [_ [_ Hm]]]].
  rewrite (merged_columns_stripped _ _ S1 S2) in Hm.
  rewrite first_projection_ok in Hp. apply inr_eq in Hp.
  pose proof (merge_left_columns _ _ _ _ _ Hf) as Hfc.
  apply merge_left_inr in Hf as [i' [_ [Hi' _]]].
  rewrite second_projection_ok in Hq. apply inr_eq in Hq.
  exists p. split; [| split].
  - subst p m. reflexivity.
  - subst q. cbn [columns]. now rewrite Hfc.
  - exact (positions_In _ _ _ _ Hi').
Qed.






End Collisions.

(** ** Failures of the run (lines 49-55 and 71-72) *)

Section Failures.

Lemma check_required_ok (d1 d2 d3 : DataFrame) :
  has_column "Pickticket" d1 = true ->
  has_column "AXReferenceID" d2 = true ->
  has_column "PickRoute" d3 = true ->
  check_required (required d1 d2 d3) = inr tt.
Proof.
  intros H1 H2 H3. unfold required. cbn [check_required].
  rewrite H1, H2, H3. reflexivity.
Qed.

(** Lines 49-55: the first required column found missing is reported, with
    the label of its report and the columns that are there, before any join. *)
Lemma missing_key_errors (d1 d2 d3 : DataFrame) :
  (has_column "Pickticket" d1 = false ->
   pipeline d1 d2 d3
   = inl (HTTPException 400 "Pickticket" "Shipment_History___Total" (columns d1)))
  /\ (has_column "Pickticket" d1 = true ->
      has_column "AXReferenceID" d2 = false ->
      pipeline d1 d2 d3
      = inl (HTTPException 400 "AXReferenceID" "EDIB2BiReportV2" (columns d2)))
  /\ (has_column "Pickticket" d1 = true ->
      has_column "AXReferenceID" d2 = true ->
      has_column "PickRoute" d3 = false ->
      pipeline d1 d2 d3
      = inl (HTTPException 400 "PickRoute" "EDI940Report_withCostV2.0" (columns d3))).
Proof.
  unfold pipeline, projected, required. cbn [check_required].
  split; [| split].
  - intros H1. rewrite H1. reflexivity.
  - intros H1 H2. rewrite H1, H2. reflexivity.
  - intros H1 H2 H3. rewrite H1, H2, H3. reflexivity.
Qed.

(** On validated, trimmed frames the first projection keeps [Pickticket]
    exactly when edib2bi has no column of that name. *)
Lemma first_projection_pickticket (d1 d2 : DataFrame) :
  In "Pickticket" (columns d1) ->
  In "Pickticket"
     (flat_map (fun c => List.filter (String.eqb c)
                           (merged_columns (columns d1) (columns d2)))
               first_list)
  <-> ~ In "Pickticket" (columns d2).
Proof.
  intros H1. rewrite project_columns_In.
  assert (Hu : unsuffixed "Pickticket" = true) by reflexivity.
  rewrite (merged_columns_unsuffixed _ (columns d1) (columns d2) Hu).
  assert (Hf : In "Pickticket" first_list) by (simpl; tauto).
  tauto.
Qed.

Lemma check_required_cases (d1 d2 d3 : DataFrame) :
  (check_required (required d1 d2 d3) = inr tt
   /\ has_column "Pickticket" d1 = true
   /\ has_column "AXReferenceID" d2 = true
   /\ has_column "PickRoute" d3 = true)
  \/ exists col name available,
       check_required (required d1 d2 d3) = inl (HTTPException 400 col name available).
Proof.
  unfold required. cbn [check_required].
  destruct (has_column "Pickticket" d1); [| right; now do 3 eexists].
  destruct (has_column "AXReferenceID" d2); [| right; now do 3 eexists].
  destruct (has_column "PickRoute" d3); [| right; now do 3 eexists].
  left. repeat split.
Qed.

(** Every exception of a run: the 400 error of the column check, or, once
    the check has passed, the [KeyError] for [Pickticket] of the second
    join, a [ValueError] or a [MergeError]. *)
Lemma pipeline_error_cases (d1 d2 d3 : DataFrame) (e : error) :
  pipeline d1 d2 d3 = inl e ->
  (check_required (required d1 d2 d3) = inl e
   /\ exists col name available, e = HTTPException 400 col name available)
  \/ (check_required (required d1 d2 d3) = inr tt
      /\ (e = KeyError "Pickticket"
          \/ (exists cause, e = ValueError cause)
          \/ (exists labels, e = MergeError labels))).
Proof.
  intros H.
  destruct (check_required_cases d1 d2 d3)
    as [[Hc [H1 [H2 H3]]] | [col [name [av Hc]]]].
  2:{ left. unfold pipeline, projected in H. rewrite Hc in H. cbn [bind] in H.
      injection H as <-. split; [exact Hc |]. now exists col, name, av. }
  right. split; [exact Hc |].
  apply has_column_In in H1, H2, H3.
  unfold pipeline in H. apply bind_inl in H as [H | [q [_ H]]].
  - unfold projected in H. rewrite Hc, bind_ret_l in H.
    apply bind_inl in H as [H | [m [_ H]]].
    { apply first_join_inl, merge_left_inl in H.
      destruct H as [[_ H] | [[_ [H _]] | H]]; [contradiction | contradiction |].
      now right. }
    rewrite first_projection_ok, bind_ret_l in H.
    apply bind_inl in H as [H | [f [_ H]]].
    { apply merge_left_inl in H.
      destruct H as [[_ H] | [[-> _] | H]]; [contradiction | now left | now right]. }
    rewrite second_projection_ok in H. discriminate.
  - apply bind_inl in H as [H | [f [_ H]]].
    + apply filter_step_inl in H. subst e. right. left. now eexists.
    + destruct (dedupe_step_ok f) as [o [Ho _]]. congruence.
Qed.

(** Runs on validated frames.  A run that returns had no column
    [Pickticket] in edib2bi; a run that raises raises the [KeyError] for
    [Pickticket], a [ValueError] or a [MergeError]; and when edib2bi has a
    column [Pickticket] and the first join returns, the second join raises
    that [KeyError]. *)
Lemma validated_outcomes (shipment_history edib2bi edi940 : DataFrame) :
  has_column "Pickticket" (strip_headers shipment_history) = true ->
  has_column "AXReferenceID" (strip_headers edib2bi) = true ->
  has_column "PickRoute" (strip_headers edi940) = true ->
  (forall res, reconcile_tables shipment_history edib2bi edi940 = inr res ->
               ~ In "Pickticket" (columns (strip_headers edib2bi)))
  /\ (forall e, reconcile_tables shipment_history edib2bi edi940 = inl e ->
                e = KeyError "Pickticket"
                \/ (exists cause, e = ValueError cause)
                \/ (exists labels, e = MergeError labels))
  /\ (In "Pickticket" (columns (strip_headers edib2bi)) ->
      forall m j,
        first_join (strip_headers shipment_history) (strip_headers edib2bi) = inr m ->
        positions "PickRoute" (columns (strip_headers edi940)) = [j] ->
        reconcile_tables shipment_history edib2bi edi940 = inl (KeyError "Pickticket")).
Proof.
  intros H1 H2 H3. rewrite reconcile_tables_eq.
  pose proof (check_required_ok _ _ _ H1 H2 H3) as Hcheck.
  apply has_column_In in H1, H2, H3.
  pose proof (strip_headers_stripped shipment_history) as S1.
  pose proof (strip_headers_stripped edib2bi) as S2.
  generalize dependent (strip_headers edi940). intros d3 H3.
  generalize dependent (strip_headers shipment_history). intros d1 H1 S1.
  generalize dependent (strip_headers edib2bi). intros d2 H2 S2 Hcheck.
  pose proof (first_projection_pickticket d1 d2 H1) as Hp.
  split; [| split].
  - intros res H. apply pipeline_inr in H as [q [Hq _]].
    apply (projected_columns _ _ _ _ S1 S2) in Hq as [p [Hpc [_ Hin]]].
    rewrite Hpc in Hin. now apply Hp.
  - intros e H. apply pipeline_error_cases in H as [[H _] | [_ H]]; [congruence | exact H].
  - intros HP m j Hm Hj. unfold pipeline, projected.
    rewrite Hcheck, bind_ret_l, Hm, bind_ret_l, first_projection_ok, bind_ret_l.
    apply first_join_inr in Hm as [i0 [j0 [_ [_ ->]]]].
    rewrite (merged_columns_stripped _ _ S1 S2).
    unfold second_join. rewrite (merge_left_missing _ _ _ _ j); [reflexivity | | exact Hj].
    cbn [columns]. tauto.
Qed.

(** C4, where the code departs from it.  The three tables below carry their
    required key columns, so the check of lines 49-55 passes; edib2bi also
    has a column [Pickticket], the first join suffixes both, the first
    projection drops them, and the second join raises [KeyError] for
    [Pickticket]: a failure of the run that is not the missing-column
    error. *)
Theorem second_join_key_error :
  check_required (required (strip_headers clash_shipment_history)
                           (strip_headers clash_edib2bi)
                           (strip_headers clash_edi940)) = inr tt
  /\ first_join (strip_headers clash_shipment_history) (strip_headers clash_edib2bi)
     = inr {| columns := ["Pickticket_x"; "Warehouse"; "AXReferenceID"; "Pickticket_y"];
              rows := [ [Str "P1"; Str "W1"; Str "P1"; Str "P1"] ] |}
  /\ reconcile_tables clash_shipment_history clash_edib2bi clash_edi940
     = inl (KeyError "Pickticket").
Proof. repeat split; vm_compute; reflexivity. Qed.

End Failures.

(** ** The frames after the call (lines 44-46) *)

Section FrameEffect.

Lemma map_stripped (labels : list string) :
  (forall c, In c labels -> strip c = c) -> map strip labels = labels.
Proof.
  intros H. rewrite <- (map_id labels) at 2. now apply map_ext_in.
Qed.

Lemma strip_headers_fixed (df : DataFrame) :
  (forall c, In c (columns df) -> strip c = c) -> strip_headers df = df.
Proof.
  intros H. destruct df as [cols rs]. unfold strip_headers, set_columns, stripped_columns.
  cbn [columns rows] in *. now rewrite map_stripped.
Qed.

Lemma strip_headers_idempotent (df : DataFrame) :
  strip_headers (strip_headers df) = strip_headers df.
Proof. apply strip_headers_fixed. apply strip_headers_stripped. Qed.

Lemma deref_app_old (h extra : store) (r : ref) :
  r < List.length h -> deref r (h ++ extra) = deref r h.
Proof. intros H. unfold deref. now apply app_nth1. Qed.

Lemma deref_app_new (h extra : store) (k : nat) :
  deref (List.length h + k) (h ++ extra) = nth k extra (mkDataFrame [] []).
Proof.
  unfold deref. rewrite app_nth2 by lia. f_equal. lia.
Qed.

Lemma length_update (r : ref) (df : DataFrame) (h : store) :
  List.length (update r df h) = List.length h.
Proof.
  revert r. induction h as [| x h IH]; intros [| r]; simpl; auto.
Qed.

Lemma deref_update (r r' : ref) (df : DataFrame) (h : store) :
  r < List.length h ->
  deref r' (update r df h) = if Nat.eqb r' r then df else deref r' h.
Proof.
  unfold deref. revert r r'.
  induction h as [| x h IH]; intros r r' H; [simpl in H; lia |].
  destruct r as [| r], r' as [| r']; simpl; try reflexivity.
  apply IH. simpl in H. lia.
Qed.

Lemma update_app_new (h extra : store) (k : nat) (df : DataFrame) :
  update (List.length h + k) df (h ++ extra) = h ++ update k df extra.
Proof.
  induction h as [| x h IH]; simpl; [reflexivity |].
  now rewrite IH.
Qed.

Lemma bind_run_read {B : Type} (r : ref) (k : DataFrame -> run B) (h : store) :
  bind_run (read r) k h = k (deref r h) h.
Proof. reflexivity. Qed.

Lemma bind_run_lift {A B : Type} (x : result A) (k : A -> run B) (h : store) :
  bind_run (lift x) k h
  = match x with
    | inl e => (h, inl e)
    | inr a => k a h
    end.
Proof. now destruct x. Qed.

Lemma bind_run_alloc {B : Type} (df : DataFrame) (k : ref -> run B) (h : store) :
  bind_run (alloc df) k h = k (List.length h) (h ++ [df]).
Proof. reflexivity. Qed.

Lemma bind_run_assoc {A B C : Type} (m : run A) (k : A -> run B) (k' : B -> run C)
      (h : store) :
  bind_run (bind_run m k) k' h = bind_run m (fun a => bind_run (k a) k') h.
Proof. unfold bind_run. now destruct (m h) as [h' [e | a]]. Qed.

Lemma strip_columns_run (r : ref) (h : store) :
  strip_columns r h = (update r (strip_headers (deref r h)) h, inr tt).
Proof. reflexivity. Qed.

(** Lines 44-46 on the store: every object keeps its place, the three
    uploads have their headers trimmed, no other object is written. *)
Lemma strip_inputs_run (r1 r2 r3 : ref) (h : store) :
  r1 < List.length h -> r2 < List.length h -> r3 < List.length h ->
  exists h1,
    strip_inputs r1 r2 r3 h = (h1, inr tt)
    /\ List.length h1 = List.length h
    /\ forall r, deref r h1
                 = if (Nat.eqb r r1 || Nat.eqb r r2 || Nat.eqb r r3)%bool
                   then strip_headers (deref r h) else deref r h.
Proof.
  intros H1 H2 H3. unfold strip_inputs, bind_run.
  rewrite (strip_columns_run r1 h). cbv beta iota.
  rewrite strip_columns_run. cbv beta iota. rewrite strip_columns_run.
  eexists. split; [reflexivity |]. split.
  - now rewrite !length_update.
  - intros r.
    rewrite !deref_update by (rewrite ?length_update; assumption).
    destruct (Nat.eqb r r1) eqn:E1, (Nat.eqb r r2) eqn:E2, (Nat.eqb r r3) eqn:E3;
      cbn [orb];
      repeat match goal with
             | E : Nat.eqb _ _ = true |- _ => apply Nat.eqb_eq in E; subst
             end;
      rewrite ?Nat.eqb_refl, ?E1, ?E2, ?E3, ?strip_headers_idempotent; reflexivity.
Qed.

Lemma pd_merge_run {B : Type} (l r : ref) (lk rk : string) (k : ref -> run B)
      (h : store) :
  bind_run (pd_merge l r lk rk) k h
  = match merge_left (deref l h) (deref r h) lk rk with
    | inl e => (h, inl e)
    | inr m => k (List.length h) (h ++ [m])
    end.
Proof.
  unfold pd_merge, bind_run, read, lift. cbv beta iota.
  now destruct (merge_left (deref l h) (deref r h) lk rk).
Qed.

Lemma select_run {B : Type} (allow : list string) (r : ref) (k : ref -> run B)
      (h : store) :
  bind_run (select allow r) k h
  = match project allow (deref r h) with
    | inl e => (h, inl e)
    | inr p => k (List.length h) (h ++ [p])
    end.
Proof.
  unfold select, bind_run, read, lift. cbv beta iota.
  now destruct (project allow (deref r h)).
Qed.

Lemma rename_columns_run {B : Type} (mapper : list (string * string)) (r : ref)
      (k : ref -> run B) (h : store) :
  bind_run (rename_columns mapper r) k h
  = k (List.length h) (h ++ [rename mapper (deref r h)]).
Proof. reflexivity. Qed.

Lemma strip_columns_bind {B : Type} (r : ref) (k : unit -> run B) (h : store) :
  bind_run (strip_columns r) k h = k tt (update r (strip_headers (deref r h)) h).
Proof. reflexivity. Qed.

Lemma filter_rows_run (r : ref) (h : store) :
  exists extra,
    fst (filter_rows r h) = h ++ extra
    /\ (forall e, filter_step (deref r h) = inl e -> snd (filter_rows r h) = inl e)
    /\ (forall out, filter_step (deref r h) = inr out ->
          exists r', snd (filter_rows r h) = inr r'
                     /\ deref r' (fst (filter_rows r h)) = out).
Proof.
  unfold filter_rows. rewrite bind_run_read.
  pose proof (filter_step_skipped (deref r h)) as Hs.
  destruct (has_column "SalesHeaderDocStatus" (deref r h)
            && has_column "EDI Processing Status" (deref r h)) eqn:E.
  - rewrite bind_run_lift. destruct (filter_step (deref r h)) as [e | out].
    + exists []. rewrite app_nil_r. split; [reflexivity |].
      split; [now intros e' [= <-] | discriminate].
    + exists [out]. split; [reflexivity |]. split; [discriminate |].
      intros out' [= <-]. exists (List.length h). split; [reflexivity |].
      cbn [fst alloc]. rewrite <- (Nat.add_0_r (List.length h)).
      now rewrite deref_app_new.
  - exists []. rewrite app_nil_r. split; [reflexivity |].
    apply andb_false_iff in E. rewrite (Hs E).
    split; [discriminate |]. intros out [= <-]. now exists r.
Qed.

Lemma dedupe_rows_run (r : ref) (h : store) :
  exists extra,
    fst (dedupe_rows r h) = h ++ extra
    /\ (forall e, dedupe_step (deref r h) = inl e -> snd (dedupe_rows r h) = inl e)
    /\ (forall out, dedupe_step (deref r h) = inr out ->
          exists r', snd (dedupe_rows r h) = inr r'
                     /\ deref r' (fst (dedupe_rows r h)) = out).
Proof.
  unfold dedupe_rows. rewrite bind_run_read.
  destruct (has_column "Pickticket" (deref r h)) eqn:E.
  - rewrite bind_run_lift. destruct (dedupe_step (deref r h)) as [e | out].
    + exists []. rewrite app_nil_r. split; [reflexivity |].
      split; [now intros e' [= <-] | discriminate].
    + exists [out]. split; [reflexivity |]. split; [discriminate |].
      intros out' [= <-]. exists (List.length h). split; [reflexivity |].
      cbn [fst alloc]. rewrite <- (Nat.add_0_r (List.length h)).
      now rewrite deref_app_new.
  - exists []. rewrite app_nil_r. split; [reflexivity |].
    unfold dedupe_step. rewrite E.
    split; [discriminate |]. intros out [= <-]. now exists r.
Qed.

(** Lines 93-102 on the store. *)
Lemma last_steps_run (r : ref) (h : store) :
  exists extra,
    fst (bind_run (filter_rows r) dedupe_rows h) = h ++ extra
    /\ outcome (bind_run (filter_rows r) dedupe_rows h)
       = (filtered_df <- filter_step (deref r h) ;; dedupe_step filtered_df).
Proof.
  unfold bind_run, outcome.
  destruct (filter_rows_run r h) as [x1 [F1 [F2 F3]]].
  destruct (filter_rows r h) as [h1 [e | r1]]; cbn [fst snd] in *.
  - exists x1. split; [exact F1 |].
    destruct (filter_step (deref r h)) as [e' | out].
    + pose proof (F2 e' eq_refl) as E. injection E as ->. reflexivity.
    + destruct (F3 out eq_refl) as [r' [Hr' _]]. discriminate.
  - destruct (filter_step (deref r h)) as [e' | out];
      [specialize (F2 e' eq_refl); discriminate |].
    destruct (F3 out eq_refl) as [r' [Hr' Hout]]. injection Hr' as <-.
    rewrite bind_ret_l.
    destruct (dedupe_rows_run r1 h1) as [x2 [D1 [D2 D3]]].
    rewrite Hout in D2, D3.
    exists (x1 ++ x2). split; [rewrite D1, F1; symmetry; apply app_assoc |].
    destruct (dedupe_step out) as [e' | res].
    + now rewrite (D2 e' eq_refl).
    + destruct (D3 res eq_refl) as [r' [-> Hres]]. now rewrite Hres.
Qed.

Lemma deref_app_last (h : store) (df : DataFrame) :
  deref (List.length h) (h ++ [df]) = df.
Proof.
  rewrite <- (Nat.add_0_r (List.length h)). now rewrite deref_app_new.
Qed.

Lemma update_app_last (h : store) (df df' : DataFrame) :
  update (List.length h) df' (h ++ [df]) = h ++ [df'].
Proof.
  rewrite <- (Nat.add_0_r (List.length h)). now rewrite update_app_new.
Qed.

(** Lines 48-102 on the store: objects are added, none of those already
    there is written, and the outcome is that of the pipeline on the frames
    behind the three references. *)
Lemma run_pipeline_run (r1 r2 r3 : ref) (h : store) :
  r1 < List.length h -> r2 < List.length h -> r3 < List.length h ->
  exists extra,
    fst (run_pipeline r1 r2 r3 h) = h ++ extra
    /\ outcome (run_pipeline r1 r2 r3 h)
       = pipeline (deref r1 h) (deref r2 h) (deref r3 h).
Proof.
  intros H1 H2 H3.
  unfold run_pipeline, pipeline, projected, first_join, first_projection,
    second_join, second_projection.
  rewrite !bind_run_read, bind_run_lift.
  destruct (check_required (required (deref r1 h) (deref r2 h) (deref r3 h)))
    as [e | []].
  { exists []. rewrite app_nil_r. split; reflexivity. }
  rewrite bind_ret_l, pd_merge_run.
  destruct (merge_left (deref r1 h) (deref r2 h) "Pickticket" "AXReferenceID")
    as [e | m].
  { exists []. rewrite app_nil_r. split; reflexivity. }
  rewrite !bind_ret_l, strip_columns_bind, deref_app_last, update_app_last.
  assert (E3 : forall x, deref r3 (h ++ x) = deref r3 h)
    by (intros x; now apply deref_app_old).
  rewrite select_run, deref_app_last.
  set (s1 := h ++ [strip_headers m]).
  destruct (project first_list (strip_headers m)) as [e | p].
  { exists [strip_headers m]. split; reflexivity. }
  rewrite bind_ret_l, pd_merge_run, deref_app_last.
  assert (E1 : deref r3 (s1 ++ [p]) = deref r3 h)
    by (unfold s1; rewrite <- app_assoc; apply E3).
  rewrite E1.
  destruct (merge_left p (deref r3 h) "Pickticket" "PickRoute") as [e | f].
  { exists [strip_headers m; p]. unfold s1. rewrite <- app_assoc.
    split; reflexivity. }
  rewrite bind_ret_l, select_run, deref_app_last.
  destruct (project second_list f) as [e | q].
  { exists [strip_headers m; p; f]. unfold s1. rewrite <- !app_assoc.
    split; reflexivity. }
  rewrite bind_ret_l, rename_columns_run, deref_app_last.
  match goal with
  | |- context [bind_run (filter_rows ?r) _ ?s] =>
      destruct (last_steps_run r s) as [extra [L1 L2]];
        change (fun filtered_df => dedupe_rows filtered_df) with dedupe_rows
  end.
  rewrite deref_app_last in L2.
  exists ([strip_headers m; p; f; q; rename rename_map q] ++ extra).
  split; [| exact L2].
  rewrite L1. unfold s1. now rewrite <- !app_assoc.
Qed.

(** C8, as the code has it.  The three uploads are distinct or shared
    objects of a store [h].  After the call, whether it returns or raises,
    every object of [h] is still in its place and new objects may have been
    added; an object other than the three uploads is what it was; each
    upload is what it was with every column label replaced by its trimmed
    form, so its rows are what they were and its header is not unless it
    was trimmed already; and the call returns or raises what the run on the
    values of the three uploads returns or raises.  When every label of the
    uploads is trimmed already, no object of [h] has changed. *)
Theorem reconcile_frame_effect (h : store) (r1 r2 r3 : ref) :
  r1 < List.length h -> r2 < List.length h -> r3 < List.length h ->
  List.length h <= List.length (fst (reconcile_objects r1 r2 r3 h))
  /\ (forall r, r < List.length h -> r <> r1 -> r <> r2 -> r <> r3 ->
                deref r (fst (reconcile_objects r1 r2 r3 h)) = deref r h)
  /\ (forall r, r = r1 \/ r = r2 \/ r = r3 ->
                deref r (fst (reconcile_objects r1 r2 r3 h))
                = strip_headers (deref r h))
  /\ (forall r, r < List.length h ->
                rows (deref r (fst (reconcile_objects r1 r2 r3 h)))
                = rows (deref r h))
  /\ outcome (reconcile_objects r1 r2 r3 h)
     = reconcile_tables (deref r1 h) (deref r2 h) (deref r3 h)
  /\ ((forall c, In c (columns (deref r1 h) ++ columns (deref r2 h)
                       ++ columns (deref r3 h)) -> strip c = c) ->
      forall r, r < List.length h ->
                deref r (fst (reconcile_objects r1 r2 r3 h)) = deref r h).
Proof.
  intros H1 H2 H3.
  destruct (strip_inputs_run r1 r2 r3 h H1 H2 H3) as [h1 [Hs [Hlen Hd]]].
  destruct (run_pipeline_run r1 r2 r3 h1) as [extra [Hf Ho]];
    [rewrite Hlen; assumption ..|].
  assert (Hrun : reconcile_objects r1 r2 r3 h = run_pipeline r1 r2 r3 h1).
  { unfold reconcile_objects, bind_run. now rewrite Hs. }
  rewrite Hrun, Hf.
  assert (Hold : forall r, r < List.length h -> deref r (h1 ++ extra) = deref r h1)
    by (intros r Hr; apply deref_app_old; now rewrite Hlen).
  assert (Hin : forall r, r = r1 \/ r = r2 \/ r = r3 ->
                          deref r h1 = strip_headers (deref r h)).
  { intros r Hr. rewrite Hd.
    destruct Hr as [-> | [-> | ->]]; rewrite Nat.eqb_refl, ?orb_true_r; reflexivity. }
  assert (Hout : forall r, r <> r1 -> r <> r2 -> r <> r3 -> deref r h1 = deref r h).
  { intros r N1 N2 N3. rewrite Hd.
    apply Nat.eqb_neq in N1, N2, N3. now rewrite N1, N2, N3. }
  split; [| split; [| split; [| split; [| split]]]].
  - rewrite length_app. lia.
  - intros r Hr N1 N2 N3. rewrite (Hold r Hr). now apply Hout.
  - intros r Hr. rewrite Hold; [now apply Hin |].
    destruct Hr as [-> | [-> | ->]]; assumption.
  - intros r Hr. rewrite (Hold r Hr), Hd.
    now destruct (Nat.eqb r r1 || Nat.eqb r r2 || Nat.eqb r r3)%bool.
  - rewrite Ho, reconcile_tables_eq, !Hin; auto.
  - intros Hc r Hr. rewrite (Hold r Hr), Hd.
    destruct (Nat.eqb r r1) eqn:E1; [| destruct (Nat.eqb r r2) eqn:E2;
      [| destruct (Nat.eqb r r3) eqn:E3; [| reflexivity]]]; cbn [orb];
      rewrite ?orb_true_r;
      match goal with
      | E : Nat.eqb _ _ = true |- _ => apply Nat.eqb_eq in E; subst r
      end;
      apply strip_headers_fixed; intros c Hin'; apply Hc; rewrite !in_app_iff; tauto.
Qed.

Lemma reconcile_frame_effect_witness :
  (forall r, r < List.length trimmed_store ->
             deref r (fst (reconcile_objects 0 1 2 trimmed_store))
             = deref r trimmed_store)
  /\ outcome (reconcile_objects 0 1 2 trimmed_store) = inr ex_result.
Proof.
  assert (B : 0 < List.length trimmed_store /\ 1 < List.length trimmed_store
              /\ 2 < List.length trimmed_store) by (simpl; lia).
  destruct B as [B0 [B1 B2]].
  destruct (reconcile_frame_effect trimmed_store 0 1 2 B0 B1 B2)
    as [_ [_ [_ [_ [Ho Hc]]]]].
  split.
  - apply Hc. intros c Hin. simpl in Hin.
    repeat (destruct Hin as [<- | Hin]; [reflexivity |]). destruct Hin.
  - rewrite Ho. exact example_run.
Defined.

(** C8 as worded fails: a frame whose header carries blanks is not, after
    the call, what it was before. *)
Lemma reconcile_frame_effect_counterexample :
  fst (reconcile padded_frames) <> padded_frames
  /\ columns (df1 (fst (reconcile padded_frames))) = ["Pickticket"; "Warehouse"]
  /\ columns (df1 padded_frames) = [" Pickticket "; "Warehouse"]
  /\ snd (reconcile padded_frames) = inr ex_result
  /\ deref 0 padded_store
     = {| columns := [" Pickticket "; "Warehouse"]; rows := [ [Str "P1"; Str "W1"] ] |}
  /\ deref 0 (fst (reconcile_objects 0 1 2 padded_store))
     = {| columns := ["Pickticket"; "Warehouse"]; rows := [ [Str "P1"; Str "W1"] ] |}
  /\ deref 3 (fst (reconcile_objects 0 1 2 padded_store)) = deref 3 padded_store
  /\ outcome (reconcile_objects 0 1 2 padded_store) = inr ex_result.
Proof.
  split; [| repeat split; vm_compute; reflexivity].
  intros H. apply (f_equal (fun s => columns (df1 s))) in H.
  vm_compute in H. discriminate.
Qed.

End FrameEffect.

(** ** Trimmed headers and the outcomes of a run *)

Section Outcomes.

(** X1.  Lines 44-46.  Trimming the headers twice is trimming them once, and
    the outcome of a run depends on the headers only through their trimmed
    forms: the run on the trimmed tables has the outcome of the run on the
    tables as uploaded. *)
Theorem trimmed_inputs_same_outcome (shipment_history edib2bi edi940 : DataFrame) :
  strip_headers (strip_headers shipment_history) = strip_headers shipment_history
  /\ reconcile_tables (strip_headers shipment_history) (strip_headers edib2bi)
                      (strip_headers edi940)
     = reconcile_tables shipment_history edib2bi edi940.
Proof.
  split; [apply strip_headers_idempotent |].
  rewrite !reconcile_tables_eq, !strip_headers_idempotent. reflexivity.
Qed.

(** X2.  Lines 49-55.  When a required key column is missing after
    trimming, the run raises the 400 error for the first missing one in the
    order Pickticket, AXReferenceID, PickRoute, naming that column, the label
    of its report and the trimmed headers of that report. *)
Theorem missing_key_reported (shipment_history edib2bi edi940 : DataFrame) :
  (has_column "Pickticket" (strip_headers shipment_history) = false ->
   reconcile_tables shipment_history edib2bi edi940
   = inl (HTTPException 400 "Pickticket" "Shipment_History___Total"
                        (map strip (columns shipment_history))))
  /\ (has_column "Pickticket" (strip_headers shipment_history) = true ->
      has_column "AXReferenceID" (strip_headers edib2bi) = false ->
      reconcile_tables shipment_history edib2bi edi940
      = inl (HTTPException 400 "AXReferenceID" "EDIB2BiReportV2"
                           (map strip (columns edib2bi))))
  /\ (has_column "Pickticket" (strip_headers shipment_history) = true ->
      has_column "AXReferenceID" (strip_headers edib2bi) = true ->
      has_column "PickRoute" (strip_headers edi940) = false ->
      reconcile_tables shipment_history edib2bi edi940
      = inl (HTTPException 400 "PickRoute" "EDI940Report_withCostV2.0"
                           (map strip (columns edi940)))).
Proof.
  rewrite reconcile_tables_eq.
  exact (missing_key_errors (strip_headers shipment_history) (strip_headers edib2bi)
                            (strip_headers edi940)).
Qed.

Lemma missing_key_reported_witness :
  reconcile_tables no_keys_frame no_keys_frame no_keys_frame
  = inl (HTTPException 400 "Pickticket" "Shipment_History___Total" ["Warehouse"; "Order"])
  /\ reconcile_tables ex_shipment_history no_keys_frame no_keys_frame
     = inl (HTTPException 400 "AXReferenceID" "EDIB2BiReportV2" ["Warehouse"; "Order"])
  /\ reconcile_tables ex_shipment_history ex_edib2bi no_keys_frame
     = inl (HTTPException 400 "PickRoute" "EDI940Report_withCostV2.0"
                          ["Warehouse"; "Order"]).
Proof.
  split; [| split].
  - exact (proj1 (missing_key_reported no_keys_frame no_keys_frame no_keys_frame)
                 eq_refl).
  - exact (proj1 (proj2 (missing_key_reported ex_shipment_history no_keys_frame
                                              no_keys_frame))
                 eq_refl eq_refl).
  - exact (proj2 (proj2 (missing_key_reported ex_shipment_history ex_edib2bi
                                              no_keys_frame))
                 eq_refl eq_refl eq_refl).
Defined.

Lemma has_column_cases (c : string) (df : DataFrame) :
  has_column c df = true \/ has_column c df = false.
Proof. destruct (has_column c df); auto. Qed.

(** Every exception of a run, by whether the column check passed. *)
Lemma run_error_cases (shipment_history edib2bi edi940 : DataFrame) (e : error) :
  reconcile_tables shipment_history edib2bi edi940 = inl e ->
  ((has_column "Pickticket" (strip_headers shipment_history) = false
    \/ has_column "AXReferenceID" (strip_headers edib2bi) = false
    \/ has_column "PickRoute" (strip_headers edi940) = false)
   /\ exists col name available, e = HTTPException 400 col name available)
  \/ (has_column "Pickticket" (strip_headers shipment_history) = true
      /\ has_column "AXReferenceID" (strip_headers edib2bi) = true
      /\ has_column "PickRoute" (strip_headers edi940) = true
      /\ (e = KeyError "Pickticket"
          \/ (exists cause, e = ValueError cause)
          \/ (exists labels, e = MergeError labels))).
Proof.
  rewrite reconcile_tables_eq. intros H.
  pose proof (missing_key_errors (strip_headers shipment_history)
                (strip_headers edib2bi) (strip_headers edi940)) as [M1 [M2 M3]].
  destruct (has_column_cases "Pickticket" (strip_headers shipment_history)) as [H1 | H1].
  2:{ rewrite (M1 H1) in H. injection H as <-. left. split; [now left |].
      now do 3 eexists. }
  destruct (has_column_cases "AXReferenceID" (strip_headers edib2bi)) as [H2 | H2].
  2:{ rewrite (M2 H1 H2) in H. injection H as <-. left. split; [now right; left |].
      now do 3 eexists. }
  destruct (has_column_cases "PickRoute" (strip_headers edi940)) as [H3 | H3].
  2:{ rewrite (M3 H1 H2 H3) in H. injection H as <-. left. split; [now right; right |].
      now do 3 eexists. }
  right. split; [exact H1 |]. split; [exact H2 |]. split; [exact H3 |].
  pose proof (validated_outcomes shipment_history edib2bi edi940 H1 H2 H3)
    as [_ [V _]].
  apply V. now rewrite reconcile_tables_eq.
Qed.

(** X3.  Lines 48-102.  A run returns a frame only if the three required
    key columns are present after trimming and edib2bi has no column named
    Pickticket.  A run that raises raises the 400 error of line 55 exactly
    when a required column is missing; when none is, it raises the
    [KeyError] for Pickticket, a [ValueError] or a [MergeError]. *)
Theorem run_outcomes (shipment_history edib2bi edi940 : DataFrame) :
  (forall res,
     reconcile_tables shipment_history edib2bi edi940 = inr res ->
     has_column "Pickticket" (strip_headers shipment_history) = true
     /\ has_column "AXReferenceID" (strip_headers edib2bi) = true
     /\ has_column "PickRoute" (strip_headers edi940) = true
     /\ has_column "Pickticket" (strip_headers edib2bi) = false)
  /\ (forall e,
        reconcile_tables shipment_history edib2bi edi940 = inl e ->
        ((has_column "Pickticket" (strip_headers shipment_history) = false
          \/ has_column "AXReferenceID" (strip_headers edib2bi) = false
          \/ has_column "PickRoute" (strip_headers edi940) = false)
         /\ exists col name available, e = HTTPException 400 col name available)
        \/ (has_column "Pickticket" (strip_headers shipment_history) = true
            /\ has_column "AXReferenceID" (strip_headers edib2bi) = true
            /\ has_column "PickRoute" (strip_headers edi940) = true
            /\ (e = KeyError "Pickticket"
                \/ (exists cause, e = ValueError cause)
                \/ (exists labels, e = MergeError labels)))).
Proof.
  split; [| intros e; apply run_error_cases].
  intros res H.
  pose proof (missing_key_errors (strip_headers shipment_history)
                (strip_headers edib2bi) (strip_headers edi940)) as [M1 [M2 M3]].
  rewrite reconcile_tables_eq in H.
  destruct (has_column_cases "Pickticket" (strip_headers shipment_history)) as [H1 | H1];
    [| rewrite (M1 H1) in H; discriminate].
  destruct (has_column_cases "AXReferenceID" (strip_headers edib2bi)) as [H2 | H2];
    [| rewrite (M2 H1 H2) in H; discriminate].
  destruct (has_column_cases "PickRoute" (strip_headers edi940)) as [H3 | H3];
    [| rewrite (M3 H1 H2 H3) in H; discriminate].
  split; [exact H1 |]. split; [exact H2 |]. split; [exact H3 |].
  pose proof (validated_outcomes shipment_history edib2bi edi940 H1 H2 H3)
    as [V _].
  apply contains_not_In. apply (V res). now rewrite reconcile_tables_eq.
Qed.

Lemma run_outcomes_witness :
  (has_column "Pickticket" (strip_headers ex_shipment_history) = true
   /\ has_column "AXReferenceID" (strip_headers ex_edib2bi) = true
   /\ has_column "PickRoute" (strip_headers ex_edi940) = true
   /\ has_column "Pickticket" (strip_headers ex_edib2bi) = false)
  /\ ((has_column "Pickticket" (strip_headers blank_shipment_history) = false
       \/ has_column "AXReferenceID" (strip_headers blank_edib2bi) = false
       \/ has_column "PickRoute" (strip_headers blank_edi940) = false)
      /\ (exists col name available,
            ValueError DuplicateLabels = HTTPException 400 col name available)
      \/ has_column "Pickticket" (strip_headers blank_shipment_history) = true
         /\ has_column "AXReferenceID" (strip_headers blank_edib2bi) = true
         /\ has_column "PickRoute" (strip_headers blank_edi940) = true
         /\ (ValueError DuplicateLabels = KeyError "Pickticket"
             \/ (exists cause, ValueError DuplicateLabels = ValueError cause)
             \/ (exists labels, ValueError DuplicateLabels = MergeError labels))).
Proof.
  split.
  - exact (proj1 (run_outcomes ex_shipment_history ex_edib2bi ex_edi940)
                 ex_result example_run).
  - apply (proj2 (run_outcomes blank_shipment_history blank_edib2bi blank_edi940)).
    vm_compute. reflexivity.
Defined.

End Outcomes.

(** ** The stages of a successful run *)

Section Stages.

Lemma get_loc_In (c : string) (labels : list string) (i : nat) :
  get_loc c labels = inr i -> In c labels.
Proof.
  intros H. destruct (in_dec string_dec c labels) as [Hin | Hin]; [exact Hin |].
  rewrite (get_loc_missing _ _ Hin) in H. discriminate.
Qed.

Lemma get_loc_positions (c : string) (labels : list string) (i i' : nat) :
  get_loc c labels = inr i -> positions c labels = [i'] -> i = i'.
Proof. unfold get_loc. intros H E. rewrite E in H. now injection H. Qed.

Lemma length_take (idx : list nat) (r : list cell) :
  List.length (take idx r) = List.length idx.
Proof. unfold take. apply length_map. Qed.

Lemma Forall_Subseq {A : Type} (P : A -> Prop) (s l : list A) :
  Subseq s l -> Forall P l -> Forall P s.
Proof.
  intros Hs Hl. rewrite Forall_forall in *. intros x Hx.
  apply Hl. eapply Subseq_In; eassumption.
Qed.

Lemma pipeline_rectangular (d1 d2 d3 res : DataFrame) :
  pipeline d1 d2 d3 = inr res -> rectangular res.
Proof.
  intros H.
  apply pipeline_inr in H as [q [Hq [Hc Hr]]].
  apply projected_stages in Hq as [m [p [f [_ [_ [_ [_ Hq]]]]]]].
  rewrite second_projection_ok in Hq. apply inr_eq in Hq.
  unfold rectangular. rewrite Hc. unfold rename_step, rename. cbn [columns].
  rewrite length_map. apply (Forall_Subseq _ _ _ Hr).
  subst q. cbn [columns rows]. apply Forall_forall. intros r Hr'.
  apply in_map_iff in Hr' as [r0 [<- _]].
  rewrite length_take, <- map_flat_map_positions. now rewrite length_map.
Qed.

(** X4.  Lines 74-102.  The frame a successful run returns is rectangular:
    every row has exactly one cell per column, whatever the shape of the
    uploaded tables. *)
Theorem result_rectangular (shipment_history edib2bi edi940 res : DataFrame) :
  reconcile_tables shipment_history edib2bi edi940 = inr res ->
  rectangular res.
Proof. rewrite reconcile_tables_eq. apply pipeline_rectangular. Qed.

Lemma result_rectangular_witness : rectangular ex_result.
Proof.
  exact (result_rectangular ex_shipment_history ex_edib2bi ex_edi940 ex_result
                            example_run).
Defined.

(** X5.  Lines 93-102.  When the frame a run returns has both status
    columns, every one of its rows is a failed load of a picking list: its
    SalesHeaderDocStatus cell is the string Picking List and its EDI
    Processing Status cell is the string AX Load Failure. *)
Theorem result_rows_pass_filter (shipment_history edib2bi edi940 res : DataFrame)
        (i j : nat) :
  reconcile_tables shipment_history edib2bi edi940 = inr res ->
  get_loc "SalesHeaderDocStatus" (columns res) = inr i ->
  get_loc "EDI Processing Status" (columns res) = inr j ->
  forall r, In r (rows res) ->
            nth i r NA = Str "Picking List" /\ nth j r NA = Str "AX Load Failure".
Proof.
  rewrite reconcile_tables_eq. intros H Hi Hj r Hr.
  apply pipeline_stages in H as [q [flt [_ [Hf Hd]]]].
  destruct (dedupe_step_ok flt) as [res' [Hd' [Hc Hs]]].
  rewrite Hd in Hd'. apply inr_eq in Hd'. subst res'.
  pose proof (filter_step_inr _ _ Hf) as [Hc' _].
  rewrite Hc, Hc' in Hi, Hj.
  destruct (filter_step_cases (rename_step q))
    as [[i' [j' [Hi' [Hj' E]]]] | [[[Hn | Hn] _] | [_ [_ [_ E]]]]].
  - rewrite E in Hf. apply inr_eq in Hf. subst flt.
    rewrite (get_loc_positions _ _ _ _ Hi Hi'), (get_loc_positions _ _ _ _ Hj Hj').
    cbn [rows] in Hs. apply (Subseq_In _ _ Hs) in Hr.
    apply filter_In in Hr as [_ Hr]. apply andb_true_iff in Hr as [H1 H2].
    now apply cell_eqb_eq in H1, H2.
  - apply get_loc_In, has_column_In in Hi. congruence.
  - apply get_loc_In, has_column_In in Hj. congruence.
  - congruence.
Qed.

Lemma failing_run :
  reconcile_tables failing_shipments failing_edib2bi failing_edi940
  = inr failing_result.
Proof. vm_compute. reflexivity. Qed.

Lemma result_rows_pass_filter_witness :
  nth 5 [Str "P3"; Str "W3"; Str "X3"; Str "AX Load Failure"; Str "P3";
         Str "Picking List"] NA = Str "Picking List"
  /\ nth 3 [Str "P3"; Str "W3"; Str "X3"; Str "AX Load Failure"; Str "P3";
            Str "Picking List"] NA = Str "AX Load Failure".
Proof.
  apply (result_rows_pass_filter failing_shipments failing_edib2bi failing_edi940
                                 failing_result 5 3 failing_run eq_refl eq_refl).
  simpl. tauto.
Defined.

End Stages.

(** ** Keys after the deduplication *)

Section DistinctKeys.
Variable key : list cell -> list cell.

Let survivors (seen : list (list cell)) (rs : list (list cell)) : list (list cell) :=
  map snd (List.filter fst
    (combine (series_not (duplicated_from seen (map key rs))) rs)).

Lemma survivors_fresh (seen : list (list cell)) (rs : list (list cell)) :
  forall r, In r (survivors seen rs) -> ~ In (key r) seen.
Proof.
  revert seen. induction rs as [| x rs IH]; intros seen r Hr.
  - destruct Hr.
  - change (survivors seen (x :: rs)) with
      (map snd (List.filter fst
         (combine (series_not (duplicated_from seen (map key (x :: rs)))) (x :: rs))))
      in Hr.
    rewrite (survivors_cons key) in Hr.
    destruct (existsb (key_eqb (key x)) seen) eqn:E.
    + intros Hin. apply (IH (key x :: seen) r Hr). now right.
    + destruct Hr as [<- | Hr].
      * intros Hin. apply existsb_key_In in Hin. congruence.
      * intros Hin. apply (IH (key x :: seen) r Hr). now right.
Qed.

Lemma survivors_keys_NoDup (seen : list (list cell)) (rs : list (list cell)) :
  NoDup (map key (survivors seen rs)).
Proof.
  revert seen. induction rs as [| x rs IH]; intros seen.
  - constructor.
  - change (survivors seen (x :: rs)) with
      (map snd (List.filter fst
         (combine (series_not (duplicated_from seen (map key (x :: rs)))) (x :: rs)))).
    rewrite (survivors_cons key).
    destruct (existsb (key_eqb (key x)) seen); [apply IH |].
    cbn [map]. constructor; [| apply IH].
    intros Hin. apply in_map_iff in Hin as [r [Ek Hr]].
    apply (survivors_fresh (key x :: seen) rs r Hr). left. now symmetry.
Qed.

Lemma survivors_fixed (seen : list (list cell)) (rs : list (list cell)) :
  NoDup (map key rs) ->
  (forall r, In r rs -> ~ In (key r) seen) ->
  survivors seen rs = rs.
Proof.
  revert seen. induction rs as [| x rs IH]; intros seen Hnd Hfresh.
  - reflexivity.
  - change (survivors seen (x :: rs)) with
      (map snd (List.filter fst
         (combine (series_not (duplicated_from seen (map key (x :: rs)))) (x :: rs)))).
    rewrite (survivors_cons key).
    cbn [map] in Hnd. apply NoDup_cons_iff in Hnd as [Hx Hnd].
    destruct (existsb (key_eqb (key x)) seen) eqn:E.
    + apply existsb_key_In in E. exfalso. apply (Hfresh x); [now left | exact E].
    + f_equal. apply IH; [exact Hnd |].
      intros r Hr [Hk | Hk].
      * apply Hx. rewrite Hk. now apply in_map.
      * apply (Hfresh r); [now right | exact Hk].
Qed.

End DistinctKeys.

Section LastSteps.

Lemma dedupe_step_applied (df : DataFrame) :
  has_column "Pickticket" df = true ->
  dedupe_step df
  = inr {| columns := columns df;
           rows := map snd (List.filter fst
             (combine (series_not (duplicated_from []
                         (map (pickticket_of df) (rows df))))
                      (rows df))) |}.
Proof.
  intros H. unfold dedupe_step. rewrite H.
  apply drop_duplicates_ok. now apply has_column_In.
Qed.



(** X7.  Lines 93-99.  The filter is idempotent: applied to its own output
    it returns that output. *)
Theorem filter_step_idempotent (df out : DataFrame) :
  filter_step df = inr out -> filter_step out = inr out.
Proof.
  intros H.
  destruct (filter_step_cases df)
    as [[i [j [Hi [Hj E]]]] | [[Hn E] | [_ [_ [_ E]]]]]; rewrite E in H.
  - apply inr_eq in H. subst out. clear E.
    rewrite (filter_step_unique _ i j); [| exact Hi | exact Hj].
    cbn [columns rows]. f_equal. f_equal.
    set (f := fun r : list cell => _ && _).
    induction (rows df) as [| r rs IH]; [reflexivity |].
    cbn [List.filter]. destruct (f r) eqn:Ef; [| exact IH].
    cbn [List.filter]. now rewrite Ef, IH.
  - apply inr_eq in H. subst out. exact E.
  - discriminate.
Qed.

Lemma filter_step_idempotent_witness :
  filter_step
    {| columns := columns status_frame;
       rows := [ [Str "P1"; Str "AX Load Failure"; Str "Picking List"];
                 [Str "P1"; Str "AX Load Failure"; Str "Picking List"] ] |}
  = inr {| columns := columns status_frame;
           rows := [ [Str "P1"; Str "AX Load Failure"; Str "Picking List"];
                     [Str "P1"; Str "AX Load Failure"; Str "Picking List"] ] |}.
Proof. exact (filter_step_idempotent status_frame _ filter_step_status_frame). Defined.

(** X8.  Lines 101-102.  The deduplication is idempotent: applied to its
    own output it returns that output. *)
Theorem dedupe_step_idempotent (df out : DataFrame) :
  dedupe_step df = inr out -> dedupe_step out = inr out.
Proof.
  intros H. destruct (has_column "Pickticket" df) eqn:HP.
  - rewrite (dedupe_step_applied df HP) in H. apply inr_eq in H. subst out.
    rewrite dedupe_step_applied by exact HP.
    cbn [columns rows]. f_equal. f_equal.
    unfold pickticket_of at 1. cbn [columns].
    apply (survivors_fixed (pickticket_of df)).
    + apply survivors_keys_NoDup.
    + intros r _ [].
  - unfold dedupe_step in *. rewrite HP in H. apply inr_eq in H. subst out.
    now rewrite HP.
Qed.

Lemma dedupe_step_idempotent_witness :
  dedupe_step
    {| columns := ["Warehouse"; "Pickticket"];
       rows := [ [Str "W1"; NA]; [Str "W2"; Str "P1"]; [Str "W5"; Str "P2"] ] |}
  = inr {| columns := ["Warehouse"; "Pickticket"];
           rows := [ [Str "W1"; NA]; [Str "W2"; Str "P1"]; [Str "W5"; Str "P2"] ] |}.
Proof. exact (dedupe_step_idempotent repeats_frame _ dedupe_step_repeats_frame). Defined.

End LastSteps.

(** ** The rename (lines 85-90) *)

Section Rename.

(** X9.  Lines 85-90.  The rename keeps the rows and the number of columns.
    A column under one of the four old names appears under its new name, and
    none of the four old names is a column afterwards; a label that is not an
    old name stays, and a label that is not a new name is a column after the
    rename only if it was one before. *)
Theorem rename_step_labels (df : DataFrame) :
  rows (rename_step df) = rows df
  /\ List.length (columns (rename_step df)) = List.length (columns df)
  /\ (forall old new, In (old, new) rename_map -> In old (columns df) ->
                      In new (columns (rename_step df)))
  /\ (forall c, In c (columns (rename_step df)) -> ~ In c renamed_from)
  /\ (forall c, ~ In c renamed_from -> In c (columns df) ->
                In c (columns (rename_step df)))
  /\ (forall c, ~ In c renamed_to -> In c (columns (rename_step df)) ->
                In c (columns df)).
Proof.
  unfold rename_step, rename. cbn [columns rows].
  split; [reflexivity |]. split; [apply length_map |].
  split; [| split; [| split]].
  - intros old new Hm Hin. apply rename_map_old_new in Hm as [<- _].
    now apply in_map.
  - intros c Hc. apply in_map_iff in Hc as [c' [<- _]].
    destruct (rename_label_cases c') as [Hm | [Hn ->]]; [| exact Hn].
    now apply rename_map_old_new in Hm.
  - intros c Hn Hin. apply in_map_iff. exists c. split; [| exact Hin].
    destruct (rename_label_cases c) as [Hm | [_ E]]; [| exact E].
    apply rename_map_old_new in Hm. tauto.
  - intros c Hn Hc. apply in_map_iff in Hc as [c' [<- Hin]].
    destruct (rename_label_cases c') as [Hm | [_ E]].
    + apply rename_map_old_new in Hm. tauto.
    + now rewrite E.
Qed.

Lemma rename_step_labels_witness :
  In "Received in EDI?" (columns (rename_step unrenamed_frame))
  /\ In "Pickticket" (columns (rename_step unrenamed_frame)).
Proof.
  destruct (rename_step_labels unrenamed_frame) as [_ [_ [H1 [_ [H2 _]]]]].
  split.
  - apply (H1 "InvoiceNumber"); simpl; tauto.
  - apply H2; simpl; [intuition discriminate | tauto].
Defined.

End Rename.

(** ** Row counts (lines 58-59 and 71-72) *)

Section RowCounts.

Lemma merge_left_rows (left right m : DataFrame) (lk rk : string) :
  merge_left left right lk rk = inr m ->
  exists i j,
    get_loc lk (columns left) = inr i
    /\ get_loc rk (columns right) = inr j
    /\ rows m = flat_map (join_row (List.length (columns right)) i j (rows right))
                         (rows left).
Proof.
  intros H. apply merge_left_inr in H as [i [j [Hi [Hj [_ [_ ->]]]]]].
  exists i, j. split; [exact (positions_get_loc _ _ _ _ Hi) |].
  split; [exact (positions_get_loc _ _ _ _ Hj) | reflexivity].
Qed.

Lemma first_join_rows_of (d1 d2 m : DataFrame) :
  first_join d1 d2 = inr m ->
  exists i j,
    get_loc "Pickticket" (columns d1) = inr i
    /\ get_loc "AXReferenceID" (columns d2) = inr j
    /\ rows m = flat_map (join_row (List.length (columns d2)) i j (rows d2)) (rows d1).
Proof.
  unfold first_join. intros H. apply bind_inr in H as [m0 [H0 H]].
  apply inr_eq in H. subst m.
  apply merge_left_rows in H0 as [i [j [Hi [Hj Hr]]]]. now exists i, j.
Qed.

Lemma matches_at_most_one (j : nat) (k : cell) (rrows : list (list cell)) :
  NoDup (map (join_key j) rrows) -> List.length (matches j k rrows) <= 1.
Proof.
  unfold matches. induction rrows as [| r rrows IH]; intros Hnd; [simpl; lia |].
  cbn [map] in Hnd. apply NoDup_cons_iff in Hnd as [Hr Hnd].
  cbn [List.filter]. destruct (cell_eqb k (nth j r NA)) eqn:E; [| now apply IH].
  apply cell_eqb_eq in E.
  assert (Hnil : List.filter (fun r0 => cell_eqb k (nth j r0 NA)) rrows = []).
  { apply filter_nil_iff. intros x Hx.
    destruct (cell_eqb k (nth j x NA)) eqn:Ex; [| reflexivity].
    apply cell_eqb_eq in Ex. exfalso. apply Hr.
    apply in_map_iff. exists x. split; [| exact Hx].
    unfold join_key. congruence. }
  rewrite Hnil. simpl. lia.
Qed.

Lemma join_row_length (width i j : nat) (rrows : list (list cell)) (l : list cell) :
  1 <= List.length (join_row width i j rrows l)
  /\ (NoDup (map (join_key j) rrows) ->
      List.length (join_row width i j rrows l) = 1).
Proof.
  unfold join_row. split.
  - destruct (matches j (nth i l NA) rrows); simpl; lia.
  - intros Hnd. pose proof (matches_at_most_one j (nth i l NA) rrows Hnd) as H.
    destruct (matches j (nth i l NA) rrows) as [| a [| b t]]; simpl in *; lia.
Qed.

Lemma flat_map_join_length (width i j : nat) (rrows lrows : list (list cell)) :
  List.length lrows <= List.length (flat_map (join_row width i j rrows) lrows)
  /\ (NoDup (map (join_key j) rrows) ->
      List.length (flat_map (join_row width i j rrows) lrows) = List.length lrows).
Proof.
  induction lrows as [| l lrows [IH1 IH2]]; [simpl; split; [lia | reflexivity] |].
  cbn [flat_map]. rewrite length_app. cbn [List.length].
  destruct (join_row_length width i j rrows l) as [H1 H2]. split.
  - lia.
  - intros Hnd. rewrite (H2 Hnd), (IH2 Hnd). reflexivity.
Qed.

(** X10.  Lines 58-59 and 71-72.  Neither join loses rows: its output has at
    least as many rows as its left table.  When the key values of the right
    table (AXReferenceID in edib2bi, PickRoute in edi940) are pairwise
    distinct, the output has exactly as many rows as the left table. *)
Theorem joins_row_count (d1 d2 d3 p m f : DataFrame) :
  (first_join d1 d2 = inr m ->
   List.length (rows d1) <= List.length (rows m)
   /\ (forall j, get_loc "AXReferenceID" (columns d2) = inr j ->
                 NoDup (map (join_key j) (rows d2)) ->
                 List.length (rows m) = List.length (rows d1)))
  /\ (second_join p d3 = inr f ->
      List.length (rows p) <= List.length (rows f)
      /\ (forall j, get_loc "PickRoute" (columns d3) = inr j ->
                    NoDup (map (join_key j) (rows d3)) ->
                    List.length (rows f) = List.length (rows p))).
Proof.
  split; intros H.
  - apply first_join_rows_of in H as [i [j [_ [Hj ->]]]].
    destruct (flat_map_join_length (List.length (columns d2)) i j (rows d2) (rows d1))
      as [H1 H2].
    split; [exact H1 |]. intros j' Hj' Hnd.
    rewrite Hj in Hj'. apply inr_eq in Hj'. subst j'. now apply H2.
  - apply merge_left_rows in H as [i [j [_ [Hj ->]]]].
    destruct (flat_map_join_length (List.length (columns d3)) i j (rows d3) (rows p))
      as [H1 H2].
    split; [exact H1 |]. intros j' Hj' Hnd.
    rewrite Hj in Hj'. apply inr_eq in Hj'. subst j'. now apply H2.
Qed.

Lemma joins_row_count_witness :
  (exists m, first_join join_shipments join_edib2bi = inr m
             /\ List.length (rows join_shipments) <= List.length (rows m))
  /\ (exists m, first_join ex_shipment_history ex_edib2bi = inr m
                /\ List.length (rows m) = List.length (rows ex_shipment_history)).
Proof.
  split.
  - eexists. split; [vm_compute; reflexivity |].
    apply (proj1 (joins_row_count join_shipments join_edib2bi ex_edi940
                                  ex_shipment_history _ ex_shipment_history)).
    vm_compute. reflexivity.
  - eexists. split; [vm_compute; reflexivity |].
    apply (proj1 (joins_row_count ex_shipment_history ex_edib2bi ex_edi940
                                  ex_shipment_history _ ex_shipment_history))
      with (j := 0).
    + vm_compute. reflexivity.
    + reflexivity.
    + simpl. constructor; [intros [] | constructor].
Defined.

End RowCounts.

(** ** Rows of the result against rows of shipment_history *)

Section ResultRows.

Lemma Subseq_length {A : Type} (s l : list A) :
  Subseq s l -> List.length s <= List.length l.
Proof. induction 1; simpl; lia. Qed.

Lemma projected_row_counts (d1 d2 d3 q : DataFrame) :
  projected d1 d2 d3 = inr q ->
  exists m p f,
    first_join d1 d2 = inr m
    /\ second_join p d3 = inr f
    /\ List.length (rows p) = List.length (rows m)
    /\ List.length (rows q) = List.length (rows f).
Proof.
  intros H. apply projected_stages in H as [m [p [f [_ [Hm [Hp [Hf Hq]]]]]]].
  exists m, p, f. split; [exact Hm |]. split; [exact Hf |].
  rewrite first_projection_ok in Hp. apply inr_eq in Hp. subst p.
  rewrite second_projection_ok in Hq. apply inr_eq in Hq. subst q.
  cbn [rows]. now rewrite !length_map.
Qed.

(** X11.  Lines 58-102.  A run on a shipment history without rows returns a
    frame without rows.  When the AXReferenceID values of edib2bi are
    pairwise distinct and so are the PickRoute values of edi940, the frame a
    run returns has at most as many rows as shipment_history. *)
Theorem result_row_bound (shipment_history edib2bi edi940 res : DataFrame) :
  reconcile_tables shipment_history edib2bi edi940 = inr res ->
  (rows shipment_history = [] -> rows res = [])
  /\ (forall j2 j3,
        get_loc "AXReferenceID" (columns (strip_headers edib2bi)) = inr j2 ->
        get_loc "PickRoute" (columns (strip_headers edi940)) = inr j3 ->
        NoDup (map (join_key j2) (rows edib2bi)) ->
        NoDup (map (join_key j3) (rows edi940)) ->
        List.length (rows res) <= List.length (rows shipment_history)).
Proof.
  rewrite reconcile_tables_eq. intros H.
  apply pipeline_inr in H as [q [Hq [_ Hs]]].
  apply Subseq_length in Hs.
  apply projected_row_counts in Hq as [m [p [f [Hm [Hf [Hpm Hqf]]]]]].
  apply first_join_rows_of in Hm as [i [j [_ [Hj Hm]]]].
  apply merge_left_rows in Hf as [i' [j' [_ [Hj' Hf]]]].
  cbn [strip_headers set_columns rows] in Hm, Hf.
  split.
  - intros He. rewrite He in Hm. cbn [flat_map] in Hm. rewrite Hm in Hpm.
    destruct (rows p); [| discriminate]. cbn [flat_map] in Hf. rewrite Hf in Hqf.
    destruct (rows q); [| discriminate]. destruct (rows res); [reflexivity |].
    simpl in Hs. lia.
  - intros j2 j3 H2 H3 N2 N3.
    rewrite Hj in H2. apply inr_eq in H2. subst j2.
    rewrite Hj' in H3. apply inr_eq in H3. subst j3.
    apply (f_equal (@List.length _)) in Hm, Hf.
    rewrite (proj2 (flat_map_join_length _ _ _ _ _) N2) in Hm.
    rewrite (proj2 (flat_map_join_length _ _ _ _ _) N3) in Hf.
    lia.
Qed.

Lemma result_row_bound_witness :
  (exists res,
     reconcile_tables empty_shipment_history ex_edib2bi ex_edi940 = inr res
     /\ rows res = [])
  /\ (exists res,
        reconcile_tables unique_shipments unique_edib2bi unique_edi940 = inr res
        /\ List.length (rows res) <= List.length (rows unique_shipments)).
Proof.
  split.
  - eexists. split; [vm_compute; reflexivity |].
    apply (result_row_bound empty_shipment_history ex_edib2bi ex_edi940);
      [vm_compute |]; reflexivity.
  - eexists. split; [vm_compute; reflexivity |].
    apply (result_row_bound unique_shipments unique_edib2bi unique_edi940)
      with (j2 := 0) (j3 := 0); try (vm_compute; reflexivity).
    + simpl. repeat constructor; simpl; intuition discriminate.
    + simpl. repeat constructor; simpl; intuition discriminate.
Defined.

End ResultRows.

(** ** Labels of the result *)

Section ResultLabels.

Lemma distinct_NoDup (labels : list string) : distinct labels = true -> NoDup labels.
Proof.
  induction labels as [| c labels IH]; intros H; [constructor |].
  cbn [distinct] in H. apply andb_true_iff in H as [Hc Hd].
  constructor; [| now apply IH].
  apply contains_not_In. now destruct (contains labels c).
Qed.

Lemma NoDup_map_inj {A B : Type} (g : A -> B) (l : list A) (a b : A) :
  NoDup (map g l) -> In a l -> In b l -> g a = g b -> a = b.
Proof.
  induction l as [| x l IH]; intros Hnd Ha Hb E; [destruct Ha |].
  cbn [map] in Hnd. apply NoDup_cons_iff in Hnd as [Hx Hnd].
  destruct Ha as [-> | Ha], Hb as [-> | Hb]; auto.
  - exfalso. apply Hx. rewrite E. now apply in_map.
  - exfalso. apply Hx. rewrite <- E. now apply in_map.
Qed.

Lemma NoDup_map_on {A B : Type} (g : A -> B) (l : list A) :
  (forall a b, In a l -> In b l -> g a = g b -> a = b) ->
  NoDup l -> NoDup (map g l).
Proof.
  intros Hinj Hnd. induction Hnd as [| x l Hx Hnd IH]; [constructor |].
  cbn [map]. constructor.
  - intros Hin. apply in_map_iff in Hin as [y [E Hy]].
    apply Hx. rewrite <- (Hinj y x); [exact Hy | now right | now left | exact E].
  - apply IH. intros a b Ha Hb. apply Hinj; now right.
Qed.

Lemma unsuffixed_neq (c x : string) :
  unsuffixed c = true -> c <> (x ++ "_x")%string /\ c <> (x ++ "_y")%string.
Proof.
  intros H. split; intros ->.
  - now rewrite unsuffixed_x in H.
  - now rewrite unsuffixed_y in H.
Qed.

Lemma filter_eqb_suffix_labels (sfx c : string) (other labels : list string) :
  (forall x, c <> (x ++ sfx)%string) ->
  List.filter (String.eqb c) (suffix_labels sfx other labels)
  = if contains other c then [] else List.filter (String.eqb c) labels.
Proof.
  intros Hc. unfold suffix_labels.
  induction labels as [| x labels IH]; [now destruct (contains other c) |].
  cbn [map List.filter]. rewrite IH.
  destruct (String.eqb c x) eqn:E.
  - apply String.eqb_eq in E. subst x.
    destruct (contains other c) eqn:Eo.
    + destruct (String.eqb c (c ++ sfx)) eqn:E'; [| reflexivity].
      apply String.eqb_eq in E'. now apply Hc in E'.
    + now rewrite String.eqb_refl.
  - destruct (contains other x).
    + destruct (String.eqb c (x ++ sfx)) eqn:E'; [| reflexivity].
      apply String.eqb_eq in E'. now apply Hc in E'.
    + now rewrite E.
Qed.

(** Between two tables with distinct labels, a join brings an unsuffixed
    label at most once. *)
Lemma filter_eqb_merged_columns (c : string) (left right : list string) :
  unsuffixed c = true -> NoDup left -> NoDup right ->
  List.filter (String.eqb c) (merged_columns left right) = [c]
  \/ List.filter (String.eqb c) (merged_columns left right) = [].
Proof.
  intros Hu Hl Hr. unfold merged_columns. rewrite filter_app.
  rewrite !filter_eqb_suffix_labels
    by (intros x; now apply (unsuffixed_neq c x)).
  rewrite (filter_eqb_NoDup c left Hl), (filter_eqb_NoDup c right Hr).
  destruct (contains right c), (contains left c); simpl; auto.
Qed.

Lemma flat_map_single (allow merged : list string) :
  NoDup allow ->
  (forall c, In c allow ->
             List.filter (String.eqb c) merged = [c]
             \/ List.filter (String.eqb c) merged = []) ->
  NoDup (flat_map (fun c => List.filter (String.eqb c) merged) allow).
Proof.
  intros Hnd. induction Hnd as [| c allow Hc Hnd IH]; intros H; [constructor |].
  cbn [flat_map].
  assert (IH' : NoDup (flat_map (fun c => List.filter (String.eqb c) merged) allow))
    by (apply IH; intros x Hx; apply H; now right).
  destruct (H c (or_introl eq_refl)) as [E | E]; rewrite E; [| exact IH'].
  cbn [app]. constructor; [| exact IH'].
  intros Hin. apply project_columns_In in Hin. tauto.
Qed.

Lemma first_list_distinct : NoDup first_list.
Proof. apply distinct_NoDup. vm_compute. reflexivity. Qed.

Lemma second_list_distinct : NoDup second_list.
Proof. apply distinct_NoDup. vm_compute. reflexivity. Qed.

Lemma result_labels_distinct : NoDup (map (rename_label rename_map) second_list).
Proof. apply distinct_NoDup. vm_compute. reflexivity. Qed.

(** X12.  Lines 58-102.  Every column of the frame a run returns carries one
    of the twenty-seven labels of the second list after the rename, and when
    the trimmed headers of each uploaded table are pairwise distinct, so are
    the column labels of the result. *)
Theorem result_labels_known (shipment_history edib2bi edi940 res : DataFrame) :
  reconcile_tables shipment_history edib2bi edi940 = inr res ->
  (forall c, In c (columns res) -> In c result_labels)
  /\ (NoDup (columns (strip_headers shipment_history)) ->
      NoDup (columns (strip_headers edib2bi)) ->
      NoDup (columns (strip_headers edi940)) ->
      NoDup (columns res)).
Proof.
  rewrite reconcile_tables_eq. intros H.
  apply pipeline_inr in H as [q [Hq [Hc _]]]. rewrite Hc.
  apply projected_stages in Hq as [m [p [f [_ [Hm [Hp [Hf Hq]]]]]]].
  rewrite second_projection_ok in Hq. apply inr_eq in Hq.
  assert (Hqc : columns q
                = flat_map (fun c => List.filter (String.eqb c) (columns f)) second_list)
    by (now subst q).
  clear Hq. unfold rename_step, rename. cbn [columns]. split.
  - intros c Hin. apply in_map_iff in Hin as [c' [<- Hin]].
    rewrite Hqc in Hin. apply project_columns_In in Hin as [Hin _].
    unfold result_labels. now apply in_map.
  - intros N1 N2 N3.
    pose proof (strip_headers_stripped shipment_history) as S1.
    pose proof (strip_headers_stripped edib2bi) as S2.
    generalize dependent (strip_headers edi940). intros d3 Hf N3.
    generalize dependent (strip_headers shipment_history).
    generalize dependent (strip_headers edib2bi). intros d2 N2 S2 d1 Hm N1 S1.
    unfold first_join in Hm. apply bind_inr in Hm as [m0 [Hm0 Hm]].
    apply inr_eq in Hm. apply merge_left_columns in Hm0.
    assert (Hmc : columns m = merged_columns (columns d1) (columns d2)).
    { subst m. unfold strip_headers, set_columns, stripped_columns. cbn [columns].
      rewrite Hm0. now apply merged_columns_stripped. }
    clear Hm Hm0.
    rewrite first_projection_ok in Hp. apply inr_eq in Hp.
    assert (Hpc : columns p
                  = flat_map (fun c => List.filter (String.eqb c) (columns m)) first_list)
      by (now subst p).
    clear Hp.
    assert (Np : NoDup (columns p)).
    { rewrite Hpc, Hmc. apply flat_map_single; [exact first_list_distinct |].
      intros c Hin. apply filter_eqb_merged_columns; [| exact N1 | exact N2].
      exact (allow_list_unsuffixed _ _ first_list_unsuffixed Hin). }
    apply merge_left_columns in Hf.
    assert (Nq : NoDup (columns q)).
    { rewrite Hqc, Hf. apply flat_map_single; [exact second_list_distinct |].
      intros c Hin. apply filter_eqb_merged_columns; [| exact Np | exact N3].
      exact (allow_list_unsuffixed _ _ second_list_unsuffixed Hin). }
    apply NoDup_map_on; [| exact Nq].
    intros a b Ha Hb. rewrite Hqc in Ha, Hb.
    apply project_columns_In in Ha as [Ha _], Hb as [Hb _].
    now apply (NoDup_map_inj _ second_list a b result_labels_distinct).
Qed.

Lemma result_labels_known_witness :
  (forall c, In c (columns ex_result) -> In c result_labels)
  /\ NoDup (columns ex_result).
Proof.
  destruct (result_labels_known ex_shipment_history ex_edib2bi ex_edi940 ex_result
                                example_run) as [H1 H2].
  split; [exact H1 |].
  apply H2; apply distinct_NoDup; reflexivity.
Defined.

End ResultLabels.

(** ** Decoding (lines 9-23) *)

Section Decoding.
Variable read_csv : list Byte.byte -> option string -> string + DataFrame.

Lemma first_parse_Some (encs : list string) (b : list Byte.byte) (df : DataFrame) :
  first_parse read_csv encs b = Some df
  <-> exists pre enc post,
        encs = pre ++ enc :: post
        /\ (forall e, In e pre -> exists msg, read_csv b (Some e) = inl msg)
        /\ read_csv b (Some enc) = inr df.
Proof.
  induction encs as [| enc encs IH]; cbn [first_parse].
  - split; [discriminate |]. intros [pre [e [post [H _]]]]. now destruct pre.
  - destruct (read_csv b (Some enc)) as [msg | df0] eqn:E.
    + rewrite IH. split.
      * intros [pre [e [post [-> [Hpre He]]]]].
        exists (enc :: pre), e, post. split; [reflexivity |]. split; [| exact He].
        intros x [<- | Hx]; [now exists msg | now apply Hpre].
      * intros [pre [e [post [Heq [Hpre He]]]]].
        destruct pre as [| x pre]; cbn [app] in Heq; injection Heq as <- ->.
        -- congruence.
        -- exists pre, e, post. split; [reflexivity |]. split; [| exact He].
           intros y Hy. apply Hpre. now right.
    + split.
      * intros [= <-]. exists [], enc, encs. split; [reflexivity |].
        split; [intros e [] | exact E].
      * intros [pre [e [post [Heq [Hpre He]]]]].
        destruct pre as [| x pre]; cbn [app] in Heq; injection Heq as <- ->.
        -- congruence.
        -- destruct (Hpre enc (or_introl eq_refl)) as [msg Hmsg]. congruence.
Qed.

Lemma first_parse_None (encs : list string) (b : list Byte.byte) :
  first_parse read_csv encs b = None
  <-> forall e, In e encs -> exists msg, read_csv b (Some e) = inl msg.
Proof.
  induction encs as [| enc encs IH]; cbn [first_parse].
  - split; [intros _ e [] | reflexivity].
  - destruct (read_csv b (Some enc)) as [msg | df0] eqn:E.
    + rewrite IH. split.
      * intros H e [<- | He]; [now exists msg | now apply H].
      * intros H e He. apply H. now right.
    + split; [discriminate |]. intros H.
      destruct (H enc (or_introl eq_refl)) as [msg Hmsg]. congruence.
Qed.

(** X13.  Lines 9-23.  The decoder returns the frame read under the first of
    utf-8, utf-8-sig, utf-16, latin1 that parses, later encodings not being
    tried; when none of the four parses it returns what the read without an
    encoding gives.  It raises only when all five reads fail, and then its
    error has status 400 and the text of the last failure after the words
    CSV read error. *)
Theorem load_csv_bytes_outcome (b : list Byte.byte) :
  (forall df,
     load_csv_bytes read_csv b = inr df
     <-> (exists pre enc post,
            encodings = pre ++ enc :: post
            /\ (forall e, In e pre -> exists msg, read_csv b (Some e) = inl msg)
            /\ read_csv b (Some enc) = inr df)
         \/ ((forall e, In e encodings -> exists msg, read_csv b (Some e) = inl msg)
             /\ read_csv b None = inr df))
  /\ (forall err,
        load_csv_bytes read_csv b = inl err
        <-> (forall e, In e encodings -> exists msg, read_csv b (Some e) = inl msg)
            /\ exists msg, read_csv b None = inl msg
                           /\ err = CsvReadError 400 ("CSV read error: " ++ msg)%string).
Proof.
  unfold load_csv_bytes.
  destruct (first_parse read_csv encodings b) as [df0 |] eqn:E.
  - apply first_parse_Some in E as E'. split.
    + intros df. split.
      * intros [= <-]. now left.
      * intros [H | [H _]].
        -- apply first_parse_Some in H. congruence.
        -- apply (proj2 (first_parse_None _ _)) in H. congruence.
    + intros err. split; [discriminate |].
      intros [H _]. apply (proj2 (first_parse_None _ _)) in H. congruence.
  - pose proof (proj1 (first_parse_None _ _) E) as E'. split.
    + intros df. destruct (read_csv b None) as [msg | df1] eqn:R; split.
      * discriminate.
      * intros [H | [_ H]]; [apply first_parse_Some in H; congruence | discriminate].
      * intros [= <-]. now right.
      * intros [H | [_ H]]; [apply first_parse_Some in H |]; congruence.
    + intros err. destruct (read_csv b None) as [msg | df1] eqn:R; split.
      * intros [= <-]. split; [exact E' |]. now exists msg.
      * intros [_ [msg' [[= <-] ->]]]. reflexivity.
      * discriminate.
      * intros [_ [msg' [H _]]]. discriminate.
Qed.

End Decoding.

(** ** The file name (lines 106-108) *)

Section FileName.

Lemma digit_inj (a b : nat) : digit a = digit b -> a mod 10 = b mod 10.
Proof.
  unfold digit. intros H. apply (f_equal nat_of_ascii) in H.
  pose proof (Nat.mod_upper_bound a 10). pose proof (Nat.mod_upper_bound b 10).
  rewrite !nat_ascii_embedding in H by lia. lia.
Qed.

Lemma two_digits_inj (a b : nat) :
  a < 100 -> b < 100 -> two_digits a = two_digits b -> a = b.
Proof.
  intros Ha Hb H. unfold two_digits in H.
  assert (E1 : digit (a / 10) = digit (b / 10)) by congruence.
  assert (E2 : digit a = digit b) by congruence.
  apply digit_inj in E1, E2.
  rewrite (Nat.div_mod_eq a 10), (Nat.div_mod_eq b 10).
  assert (a / 10 < 10) by (apply Nat.Div0.div_lt_upper_bound; lia).
  assert (b / 10 < 10) by (apply Nat.Div0.div_lt_upper_bound; lia).
  rewrite (Nat.mod_small (a / 10) 10) in E1 by lia.
  rewrite (Nat.mod_small (b / 10) 10) in E1 by lia.
  lia.
Qed.

Lemma isdigit_digit (n : nat) : isdigit (digit n) = true.
Proof.
  unfold isdigit, digit. pose proof (Nat.mod_upper_bound n 10).
  rewrite nat_ascii_embedding by lia.
  apply andb_true_iff. split; apply Nat.leb_le; lia.
Qed.

(** X14.  Lines 106-108.  The file name is MISSING_945_, six decimal digits
    and .xlsx, 23 characters in all.  On valid dates two names are equal
    exactly when month, day and the year within its century agree: every run
    of one day names the same file, and so do runs a century apart. *)
Theorem filename_shape (now : datetime) :
  filename now = ("MISSING_945_" ++ stamp now ++ ".xlsx")%string
  /\ String.length (stamp now) = 6
  /\ all_digits (stamp now) = true
  /\ String.length (filename now) = 23
  /\ (forall other,
        valid_date now -> valid_date other ->
        (filename now = filename other
         <-> month now = month other
             /\ day now = day other
             /\ year now mod 100 = year other mod 100)).
Proof.
  split; [reflexivity |]. split; [reflexivity |]. split.
  { unfold stamp, two_digits. cbn [append all_digits].
    rewrite !isdigit_digit. reflexivity. }
  split; [reflexivity |].
  intros other [Hm Hd] [Hm' Hd']. split.
  - intros H. unfold filename, stamp, two_digits in H. cbn [append] in H.
    assert (E1 : two_digits (month now) = two_digits (month other))
      by (unfold two_digits; congruence).
    assert (E2 : two_digits (day now) = two_digits (day other))
      by (unfold two_digits; congruence).
    assert (E3 : two_digits (year now mod 100) = two_digits (year other mod 100))
      by (unfold two_digits; congruence).
    assert (Y : year now mod 100 < 100) by (apply Nat.mod_upper_bound; lia).
    assert (Y' : year other mod 100 < 100) by (apply Nat.mod_upper_bound; lia).
    apply two_digits_inj in E1; [| lia | lia].
    apply two_digits_inj in E2; [| lia | lia].
    apply two_digits_inj in E3; [| exact Y | exact Y'].
    auto.
  - intros [E1 [E2 E3]]. unfold filename, stamp. now rewrite E1, E2, E3.
Qed.

Lemma filename_shape_witness :
  filename day_2026 = filename day_2126 /\ filename day_2026 <> filename day_2027.
Proof.
  assert (V1 : valid_date day_2026) by (unfold valid_date; simpl; lia).
  assert (V2 : valid_date day_2126) by (unfold valid_date; simpl; lia).
  assert (V3 : valid_date day_2027) by (unfold valid_date; simpl; lia).
  destruct (filename_shape day_2026) as [_ [_ [_ [_ H]]]].
  split.
  - apply (H day_2126 V1 V2). repeat split.
  - intros E. apply (H day_2027 V1 V3) in E. destruct E as [E _]. discriminate.
Defined.

Example filename_day_2026 : filename day_2026 = "MISSING_945_110326.xlsx".
Proof. reflexivity. Qed.

End FileName.

(** ** The endpoint (lines 32-113) *)

Section EndpointOutcomes.
Variable read_csv : list Byte.byte -> option string -> string + DataFrame.
Variable df_to_xlsx_bytes : DataFrame -> string + list Byte.byte.



End EndpointOutcomes.


(** ** Filter, then deduplicate (lines 93-102) *)

Section ReportedKeys.

(** X16.  Lines 93-102.  The deduplication loses no Pickticket value: when
    the result has a column Pickticket, a value is carried by a row of the
    result exactly when it is carried by a row that passed the filter. *)
Theorem reported_keys (shipment_history edib2bi edi940 res : DataFrame) :
  reconcile_tables shipment_history edib2bi edi940 = inr res ->
  exists q flt,
    projected (strip_headers shipment_history) (strip_headers edib2bi)
              (strip_headers edi940) = inr q
    /\ filter_step (rename_step q) = inr flt
    /\ (has_column "Pickticket" res = true ->
        forall k,
          (exists r, In r (rows res) /\ pickticket_of res r = k)
          <-> (exists r, In r (rows flt) /\ pickticket_of res r = k)).
Proof.
  rewrite reconcile_tables_eq. intros H.
  apply pipeline_stages in H as [q [flt [Hq [Hf Hd]]]].
  exists q, flt. split; [exact Hq |]. split; [exact Hf |].
  intros HP k.
  destruct (dedupe_step_ok flt) as [res' [Hd' [Hc Hs]]].
  rewrite Hd in Hd'. apply inr_eq in Hd'. subst res'.
  assert (Hk : forall r, pickticket_of res r = pickticket_of flt r)
    by (intros r; unfold pickticket_of; now rewrite Hc).
  split.
  - intros [r [Hr E]]. exists r. split; [| exact E].
    eapply Subseq_In; eassumption.
  - intros [r [Hr E]].
    assert (HP' : has_column "Pickticket" flt = true)
      by (unfold has_column in *; now rewrite <- Hc).
    rewrite (dedupe_step_applied flt HP') in Hd. apply inr_eq in Hd.
    pose proof (survivors_nil_seen (pickticket_of flt) (rows flt) k) as Hfirst.
    assert (Hin : In r (List.filter (fun r => key_eqb (pickticket_of flt r) k)
                                    (rows flt))).
    { apply filter_In. split; [exact Hr |]. apply key_eqb_eq. now rewrite <- Hk. }
    destruct (List.filter (fun r => key_eqb (pickticket_of flt r) k) (rows flt))
      as [| r0 rest]; [destruct Hin |].
    cbn [firstn] in Hfirst.
    assert (Hr0 : In r0 (List.filter (fun r => key_eqb (pickticket_of flt r) k)
                                     (rows res))).
    { subst res. cbn [rows]. rewrite Hfirst. now left. }
    apply filter_In in Hr0 as [Hr0 E0]. apply key_eqb_eq in E0.
    exists r0. split; [exact Hr0 |]. now rewrite Hk.
Qed.

Lemma reported_keys_witness :
  exists q flt,
    projected (strip_headers failing_shipments) (strip_headers failing_edib2bi)
              (strip_headers failing_edi940) = inr q
    /\ filter_step (rename_step q) = inr flt
    /\ forall k,
         (exists r, In r (rows failing_result) /\ pickticket_of failing_result r = k)
         <-> (exists r, In r (rows flt) /\ pickticket_of failing_result r = k).
Proof.
  destruct (reported_keys failing_shipments failing_edib2bi failing_edi940
                          failing_result failing_run) as [q [flt [Hq [Hf H]]]].
  exists q, flt. split; [exact Hq |]. split; [exact Hf |]. exact (H eq_refl).
Defined.

End ReportedKeys.

(** ** Runs that return *)

Section Returns.

Lemma positions_from_spec (n k : nat) (c : string) (labels : list string) :
  In k (positions_from n c labels)
  <-> n <= k /\ k - n < List.length labels /\ nth (k - n) labels "" = c.
Proof.
  revert n. induction labels as [| l labels IH]; intros n; cbn [positions_from].
  - simpl. split; [intros [] | intros [_ [H _]]; lia].
  - assert (Hstep : In k (positions_from (S n) c labels)
                    <-> S n <= k /\ k - S n < List.length labels
                        /\ nth (k - S n) labels "" = c) by apply IH.
    destruct (String.eqb c l) eqn:E.
    + apply String.eqb_eq in E. subst l. cbn [In]. rewrite Hstep. split.
      * intros [<- | [H1 [H2 H3]]].
        -- rewrite Nat.sub_diag. simpl. split; [lia |]. split; [lia | reflexivity].
        -- replace (k - n) with (S (k - S n)) by lia. simpl.
           split; [lia |]. split; [lia | exact H3].
      * intros [H1 [H2 H3]]. destruct (Nat.eq_dec n k) as [-> | N]; [now left |].
        right. replace (k - n) with (S (k - S n)) in H2, H3 by lia. simpl in H2, H3.
        split; [lia |]. split; [lia | exact H3].
    + apply String.eqb_neq in E. rewrite Hstep. split.
      * intros [H1 [H2 H3]]. replace (k - n) with (S (k - S n)) by lia. simpl.
        split; [lia |]. split; [lia | exact H3].
      * intros [H1 [H2 H3]]. destruct (Nat.eq_dec n k) as [-> | N].
        -- rewrite Nat.sub_diag in H3. simpl in H3. congruence.
        -- replace (k - n) with (S (k - S n)) in H2, H3 by lia. simpl in H2, H3.
           split; [lia |]. split; [lia | exact H3].
Qed.

Lemma positions_spec (k : nat) (c : string) (labels : list string) :
  In k (positions c labels) <-> k < List.length labels /\ nth k labels "" = c.
Proof.
  unfold positions. rewrite positions_from_spec, Nat.sub_0_r. split.
  - intros [_ H]. exact H.
  - intros H. split; [lia | exact H].
Qed.

Lemma positions_length_NoDup (c : string) (labels : list string) :
  NoDup labels -> List.length (positions c labels) <= 1.
Proof.
  intros Hnd. pose proof (positions_labels c labels) as P.
  apply (f_equal (@List.length _)) in P. rewrite length_map in P. rewrite P.
  rewrite (filter_eqb_NoDup c labels Hnd). destruct (contains labels c); simpl; lia.
Qed.

Lemma length_append_string (a b : string) :
  String.length (a ++ b) = String.length a + String.length b.
Proof. induction a as [| x a IH]; simpl; [reflexivity | now rewrite IH]. Qed.

Lemma append_inj_l (a b s : string) : (a ++ s)%string = (b ++ s)%string -> a = b.
Proof.
  revert b. induction a as [| x a IH]; intros [| y b] H; simpl in H.
  - reflexivity.
  - apply (f_equal String.length) in H. simpl in H.
    rewrite length_append_string in H. lia.
  - apply (f_equal String.length) in H. simpl in H.
    rewrite length_append_string in H. lia.
  - injection H as -> H. f_equal. now apply IH.
Qed.

(** Suffixing keeps unsuffixed labels apart. *)
Lemma suffix_inj (sfx : string) (other : list string) (a b : string) :
  sfx = "_x" \/ sfx = "_y" ->
  unsuffixed a = true -> unsuffixed b = true ->
  (if contains other a then (a ++ sfx)%string else a)
  = (if contains other b then (b ++ sfx)%string else b) ->
  a = b.
Proof.
  intros Hs Ha Hb.
  destruct (contains other a), (contains other b); intros E.
  - now apply append_inj_l in E.
  - exfalso. destruct Hs as [-> | ->]; subst b;
      [now rewrite unsuffixed_x in Hb | now rewrite unsuffixed_y in Hb].
  - exfalso. destruct Hs as [-> | ->]; subst a;
      [now rewrite unsuffixed_x in Ha | now rewrite unsuffixed_y in Ha].
  - exact E.
Qed.

Lemma index_duplicated_map (g : string -> string) (seen labels : list string) :
  (forall a b, In a (seen ++ labels) -> In b (seen ++ labels) -> g a = g b -> a = b) ->
  index_duplicated (map g seen) (map g labels) = index_duplicated seen labels.
Proof.
  revert seen. induction labels as [| c labels IH]; intros seen Hinj; [reflexivity |].
  cbn [map index_duplicated]. f_equal.
  - destruct (contains seen c) eqn:E.
    + apply contains_In. apply in_map. now apply contains_In.
    + apply contains_not_In. intros H. apply in_map_iff in H as [a [Ha Hin]].
      apply contains_not_In in E. apply E.
      rewrite <- (Hinj a c); [exact Hin | | | exact Ha];
        rewrite in_app_iff; simpl; tauto.
  - change (g c :: map g seen) with (map g (c :: seen)). apply IH.
    intros a b Ha Hb. apply Hinj; rewrite in_app_iff in *; simpl in *; tauto.
Qed.

Lemma mask_never {A : Type} (x : list bool) (l : list A) :
  map snd (List.filter fst (combine (series_and x (series_not x)) l)) = [].
Proof.
  unfold series_and, series_not. revert l.
  induction x as [| b x IH]; intros [| a l]; simpl; try reflexivity.
  destruct b; simpl; apply IH.
Qed.

Lemma suffix_duplicates_unsuffixed (sfx : string) (other labels : list string) :
  sfx = "_x" \/ sfx = "_y" ->
  forallb unsuffixed labels = true ->
  suffix_duplicates labels (suffix_labels sfx other labels) = [].
Proof.
  intros Hs Hu. unfold suffix_duplicates, suffix_labels.
  rewrite (index_duplicated_map _ [] labels); [apply mask_never |].
  cbn [app]. intros a b Ha Hb. rewrite forallb_forall in Hu.
  apply (suffix_inj sfx other a b Hs); now apply Hu.
Qed.

(** No suffix clash between tables whose labels are unsuffixed. *)
Lemma items_overlap_unsuffixed (left right : list string) :
  forallb unsuffixed left = true -> forallb unsuffixed right = true ->
  items_overlap_with_suffix left right = inr (merged_columns left right).
Proof.
  intros Hl Hr. unfold items_overlap_with_suffix.
  rewrite (suffix_duplicates_unsuffixed "_x" right left) by auto.
  rewrite (suffix_duplicates_unsuffixed "_y" left right) by auto.
  reflexivity.
Qed.

Lemma maybe_coerce_compatible (lk rk : string) (a b : list cell) :
  compatible_keys a b -> maybe_coerce_merge_keys lk rk a b = inr tt.
Proof.
  unfold compatible_keys, maybe_coerce_merge_keys.
  destruct a as [| x a]; [reflexivity |]. destruct b as [| y b]; [reflexivity |].
  intros [H | [H | H]]; try discriminate.
  cbn [is_empty orb]. rewrite H. now rewrite xorb_nilpotent.
Qed.

(** The key column of the left table after a join and a selection of the
    column at position [i]: every left row shows its key at least once. *)
Lemma joined_key_column (width i j : nat) (rrows lrows : list (list cell)) :
  Forall (fun l => i < List.length l) lrows ->
  let keys := map (fun o => nth i o NA)
                  (flat_map (join_row width i j rrows) lrows) in
  (keys = [] <-> lrows = [])
  /\ object_dtype keys = object_dtype (map (fun l => nth i l NA) lrows).
Proof.
  intros H. cbv zeta. induction H as [| l lrows Hl H IH].
  - simpl. split; [tauto | reflexivity].
  - cbn [flat_map map]. rewrite map_app. unfold object_dtype in *.
    rewrite existsb_app. cbn [existsb]. destruct IH as [_ IH]. rewrite IH.
    assert (Hb : exists n, map (fun o => nth i o NA) (join_row width i j rrows l)
                           = repeat (nth i l NA) (S n)).
    { unfold join_row. destruct (matches j (nth i l NA) rrows) as [| r ms].
      - exists 0. simpl. now rewrite app_nth1.
      - exists (List.length ms). cbn [map repeat]. rewrite app_nth1 by exact Hl.
        f_equal. induction ms as [| r' ms IHm]; [reflexivity |].
        cbn [map List.length repeat]. rewrite app_nth1 by exact Hl. now rewrite IHm. }
    destruct Hb as [n Hb]. rewrite Hb. split.
    + split; discriminate.
    + f_equal. cbn [repeat existsb]. clear.
      induction n as [| n IHn]; [apply orb_false_r |].
      cbn [repeat existsb]. rewrite IHn. now destruct (is_str (nth i l NA)).
Qed.

Lemma compatible_keys_transfer (a a' b : list cell) :
  (a' = [] <-> a = []) -> object_dtype a' = object_dtype a ->
  compatible_keys a b -> compatible_keys a' b.
Proof.
  unfold compatible_keys. intros He Ho [H | [H | H]].
  - left. now apply He.
  - now right; left.
  - right. right. now rewrite Ho.
Qed.

Lemma nth_map_default {A B : Type} (f : A -> B) (l : list A) (n : nat) (a : A) (b : B) :
  n < List.length l -> nth n (map f l) b = f (nth n l a).
Proof.
  intros H. rewrite (nth_indep _ b (f a)) by (now rewrite length_map).
  apply map_nth.
Qed.

(** Where the first projection gets its [Pickticket] column from: the
    [Pickticket] column of shipment_history. *)
Lemma projected_key_position (L R : list string) (i1 ip : nat) :
  positions "Pickticket" L = [i1] ->
  ~ In "Pickticket" R ->
  positions "Pickticket"
            (flat_map (fun c => List.filter (String.eqb c) (merged_columns L R))
                      first_list) = [ip] ->
  ip < List.length (flat_map (fun c => positions c (merged_columns L R)) first_list)
  /\ nth ip (flat_map (fun c => positions c (merged_columns L R)) first_list) 0 = i1.
Proof.
  intros Hi1 HR Hip.
  set (merged := merged_columns L R) in *.
  set (idx := flat_map (fun c => positions c merged) first_list).
  assert (Hin : In ip [ip]) by now left.
  rewrite <- Hip, <- map_flat_map_positions in Hin. fold idx in Hin.
  apply positions_spec in Hin as [Hlt Hnth]. rewrite length_map in Hlt.
  split; [exact Hlt |].
  rewrite (nth_map_default _ idx ip 0 "" Hlt) in Hnth.
  assert (Hk : In (nth ip idx 0) idx) by (now apply nth_In).
  set (k := nth ip idx 0) in *.
  unfold idx in Hk. apply in_flat_map in Hk as [c [_ Hk]].
  apply positions_spec in Hk as [Hkm _].
  unfold merged, merged_columns in Hnth, Hkm.
  assert (HL : List.length (suffix_labels "_x" R L) = List.length L)
    by (unfold suffix_labels; apply length_map).
  assert (HRl : List.length (suffix_labels "_y" L R) = List.length R)
    by (unfold suffix_labels; apply length_map).
  rewrite length_app, HL, HRl in Hkm.
  assert (HP : unsuffixed "Pickticket" = true) by reflexivity.
  destruct (Nat.lt_ge_cases k (List.length L)) as [Hk | Hk].
  - rewrite app_nth1 in Hnth by (now rewrite HL).
    unfold suffix_labels in Hnth. rewrite (nth_map_default _ L k "" "" Hk) in Hnth.
    destruct (contains R (nth k L "")).
    + rewrite <- Hnth, unsuffixed_x in HP. discriminate.
    + assert (Hpos : In k (positions "Pickticket" L)) by (now apply positions_spec).
      rewrite Hi1 in Hpos. destruct Hpos as [<- | []]. reflexivity.
  - exfalso. rewrite app_nth2 in Hnth by (now rewrite HL). rewrite HL in Hnth.
    assert (Hk' : k - List.length L < List.length R) by lia.
    unfold suffix_labels in Hnth.
    rewrite (nth_map_default _ R _ "" "" Hk') in Hnth.
    destruct (contains L (nth (k - List.length L) R "")).
    + rewrite <- Hnth, unsuffixed_y in HP. discriminate.
    + apply HR. rewrite <- Hnth. now apply nth_In.
Qed.

Lemma projected_labels_NoDup (allow left right : list string) :
  NoDup allow -> forallb unsuffixed allow = true ->
  NoDup left -> NoDup right ->
  NoDup (flat_map (fun c => List.filter (String.eqb c) (merged_columns left right))
                  allow).
Proof.
  intros Na Ua Nl Nr. apply flat_map_single; [exact Na |].
  intros c Hin. apply filter_eqb_merged_columns; [| exact Nl | exact Nr].
  exact (allow_list_unsuffixed _ _ Ua Hin).
Qed.

Lemma projected_labels_unsuffixed (allow labels : list string) :
  forallb unsuffixed allow = true ->
  forallb unsuffixed
          (flat_map (fun c => List.filter (String.eqb c) labels) allow) = true.
Proof.
  intros Ua. apply forallb_forall. intros c Hin.
  apply project_columns_In in Hin as [Hin _].
  exact (allow_list_unsuffixed _ _ Ua Hin).
Qed.

Lemma renamed_labels_NoDup (labels : list string) :
  NoDup (flat_map (fun c => List.filter (String.eqb c) labels) second_list) ->
  NoDup (map (rename_label rename_map)
             (flat_map (fun c => List.filter (String.eqb c) labels) second_list)).
Proof.
  intros Nq. apply NoDup_map_on; [| exact Nq].
  intros a b Ha Hb.
  apply project_columns_In in Ha as [Ha _], Hb as [Hb _].
  now apply (NoDup_map_inj _ second_list a b result_labels_distinct).
Qed.

(** X17.  Lines 48-102.  A run returns a frame when, after trimming, the
    headers of each upload are pairwise distinct and none ends in [_x] or
    [_y], the three key columns are present, edib2bi has no column
    Pickticket, shipment_history has one cell per column in every row, and
    the Pickticket column is compatible with the AXReferenceID column and
    with the PickRoute column: one of the two is empty, or both hold strings,
    or neither does. *)
Theorem run_returns (shipment_history edib2bi edi940 : DataFrame) (i1 j2 j3 : nat) :
  NoDup (columns (strip_headers shipment_history)) ->
  NoDup (columns (strip_headers edib2bi)) ->
  NoDup (columns (strip_headers edi940)) ->
  forallb unsuffixed (columns (strip_headers shipment_history)) = true ->
  forallb unsuffixed (columns (strip_headers edib2bi)) = true ->
  forallb unsuffixed (columns (strip_headers edi940)) = true ->
  positions "Pickticket" (columns (strip_headers shipment_history)) = [i1] ->
  positions "AXReferenceID" (columns (strip_headers edib2bi)) = [j2] ->
  positions "PickRoute" (columns (strip_headers edi940)) = [j3] ->
  ~ In "Pickticket" (columns (strip_headers edib2bi)) ->
  rectangular shipment_history ->
  compatible_keys (column_at i1 shipment_history) (column_at j2 edib2bi) ->
  compatible_keys (column_at i1 shipment_history) (column_at j3 edi940) ->
  exists res, reconcile_tables shipment_history edib2bi edi940 = inr res.
Proof.
  intros N1 N2 N3 U1 U2 U3 Hi1 Hj2 Hj3 HP Hrect C12 C13.
  rewrite reconcile_tables_eq.
  assert (Hlen : Forall (fun l => i1 < List.length l)
                        (rows (strip_headers shipment_history))).
  { assert (Hin : In i1 [i1]) by now left.
    rewrite <- Hi1 in Hin. apply positions_spec in Hin as [Hin _].
    unfold strip_headers, set_columns, stripped_columns in Hin |- *.
    cbn [columns rows] in Hin |- *. rewrite length_map in Hin.
    unfold rectangular in Hrect. rewrite Forall_forall in *.
    intros l Hl. rewrite (Hrect l Hl). exact Hin. }
  change (column_at i1 shipment_history)
    with (column_at i1 (strip_headers shipment_history)) in C12, C13.
  change (column_at j2 edib2bi) with (column_at j2 (strip_headers edib2bi)) in C12.
  change (column_at j3 edi940) with (column_at j3 (strip_headers edi940)) in C13.
  pose proof (strip_headers_stripped shipment_history) as S1.
  pose proof (strip_headers_stripped edib2bi) as S2.
  clear Hrect.
  remember (strip_headers shipment_history) as d1 eqn:E1.
  remember (strip_headers edib2bi) as d2 eqn:E2.
  remember (strip_headers edi940) as d3 eqn:E3.
  clear E1 E2 E3 shipment_history edib2bi edi940.
  unfold pipeline, projected.
  rewrite check_required_ok, bind_ret_l
    by (eapply positions_has_column; eassumption).
  unfold first_join.
  rewrite (merge_left_returns d1 d2 _ _ i1 j2 Hi1 Hj2
             (maybe_coerce_compatible _ _ _ _ C12)
             (items_overlap_unsuffixed _ _ U1 U2)).
  rewrite !bind_ret_l. unfold strip_headers at 1, set_columns, stripped_columns.
  cbn [columns rows]. rewrite (merged_columns_stripped _ _ S1 S2).
  rewrite first_projection_ok, bind_ret_l. cbn [columns rows].
  set (cp := flat_map (fun c => List.filter (String.eqb c)
                                  (merged_columns (columns d1) (columns d2)))
                      first_list).
  set (idx := flat_map (fun c => positions c
                                   (merged_columns (columns d1) (columns d2)))
                       first_list).
  set (rm := flat_map (join_row (List.length (columns d2)) i1 j2 (rows d2)) (rows d1)).
  assert (Np : NoDup cp)
    by (apply projected_labels_NoDup;
        [exact first_list_distinct | exact first_list_unsuffixed | exact N1 | exact N2]).
  assert (HPp : In "Pickticket" cp).
  { apply first_projection_pickticket; [| exact HP].
    exact (positions_In _ _ _ _ Hi1). }
  destruct (positions_NoDup _ _ Np HPp) as [ip Hip].
  destruct (projected_key_position _ _ _ _ Hi1 HP Hip) as [Hlt Hk].
  fold idx in Hlt, Hk.
  assert (Hcol : column_at ip {| columns := cp; rows := map (take idx) rm |}
                 = map (fun o => nth i1 o NA) rm).
  { unfold column_at. cbn [rows]. rewrite map_map. apply map_ext. intros o.
    unfold take. rewrite (nth_map_default _ idx ip 0 NA Hlt). now rewrite Hk. }
  destruct (joined_key_column (List.length (columns d2)) i1 j2 (rows d2) (rows d1) Hlen)
    as [He Ho].
  fold rm in He, Ho.
  assert (C : compatible_keys
                (column_at ip {| columns := cp; rows := map (take idx) rm |})
                (column_at j3 d3)).
  { rewrite Hcol. apply (compatible_keys_transfer (column_at i1 d1)); [| exact Ho | exact C13].
    rewrite He. unfold column_at. split; [now intros -> |].
    destruct (rows d1); [reflexivity | discriminate]. }
  unfold second_join.
  rewrite (merge_left_returns {| columns := cp; rows := map (take idx) rm |} d3
             "Pickticket" "PickRoute" ip j3 Hip Hj3
             (maybe_coerce_compatible _ _ _ _ C)
             (items_overlap_unsuffixed cp (columns d3)
                (projected_labels_unsuffixed _ _ first_list_unsuffixed) U3)).
  rewrite bind_ret_l, second_projection_ok, bind_ret_l. cbn [columns rows].
  match goal with
  | |- context [filter_step ?q] =>
      assert (Nq : NoDup (columns q));
        [| destruct (filter_step_cases q)
             as [[i [j [_ [_ E]]]] | [[_ E] | [_ [_ [Hrep _]]]]]]
  end.
  - unfold rename_step, rename. cbn [columns]. apply renamed_labels_NoDup.
    apply projected_labels_NoDup;
      [exact second_list_distinct | exact second_list_unsuffixed | exact Np | exact N3].
  - rewrite E, bind_ret_l.
    match goal with
    | |- context [dedupe_step ?f] => destruct (dedupe_step_ok f) as [res [Hres _]]
    end.
    now exists res.
  - rewrite E, bind_ret_l.
    match goal with
    | |- context [dedupe_step ?f] => destruct (dedupe_step_ok f) as [res [Hres _]]
    end.
    now exists res.
  - exfalso.
    pose proof (positions_length_NoDup "SalesHeaderDocStatus" _ Nq).
    pose proof (positions_length_NoDup "EDI Processing Status" _ Nq).
    lia.
Qed.

Lemma run_returns_witness :
  exists res,
    reconcile_tables failing_shipments failing_edib2bi failing_edi940 = inr res.
Proof.
  apply (run_returns failing_shipments failing_edib2bi failing_edi940 0 0 0);
    try reflexivity;
    try (apply distinct_NoDup; reflexivity).
  - simpl. intuition discriminate.
  - unfold rectangular. simpl. repeat constructor.
  - right. right. reflexivity.
  - right. right. reflexivity.
Defined.

End Returns.
